(** * pyam.core.IamDataFrame: filtering, aggregate checks, append and rename

    A shallow embedding of the filter engine ([filter], [_apply_filters]),
    the consistency check ([check_aggregate], [_exclude_on_fail]), [append]
    and [rename] of [src/pyam/core.py], and of [require_variable],
    [validate] and [categorize] (with [_check_rows] and
    [_apply_criteria]), [set_meta], [interpolate], [compare], [equals]
    and [concat].

    Conventions of the embedding.
    - A [pandas.DataFrame] of timeseries data is a list of rows in row
      order; the [value] column is float64 in pandas and is idealised here
      as an exact rational, and a missing entry (NaN after an alignment) is
      [None].
    - The [meta] table is a list of rows keyed by (model, scenario), with
      the column names kept at the level of the container.
    - Python exceptions are values of [exn]; every [raise] of the source
      is a [ValueError] with the message of the raising line, and numpy
      and pandas raise the others.  The criteria engine and [set_meta]
      have exception types of their own.
    - A row mask is a numpy array: the list of its boolean entries, or the
      array of dtype float64 that [np.array([])] is.
    - A method returns an [outcome]: the object [self] after the call, the
      log records emitted, and the returned value or the raised exception.
    - The helpers of [pyam.utils] and [pyam._aggregate] are imported by
      [core.py] but are not part of it; they are the fields of a record
      [Utils] over which every definition is parameterised. *)

From Stdlib Require Import List String Ascii ZArith QArith Qabs Bool Lia Permutation.
Import ListNotations.
Local Close Scope Q_scope.
Local Open Scope string_scope.
Local Open Scope list_scope.

(** ** Python values, cells and exceptions *)

(** The values a caller can pass as a keyword argument. *)
#[local] Set Warnings "-register-all".
Inductive pyval : Type :=
| PNone
| PBool (b : bool)
| PInt (z : Z)
| PFloat (q : Q)
| PStr (s : string)
| PList (l : list pyval).

(** [values is None] *)
Definition is_None (v : pyval) : bool :=
  match v with PNone => true | _ => false end.

(** [isinstance(v, bool)]; an [int] such as [0] is not a [bool]. *)
Definition isinstance_bool (v : pyval) : bool :=
  match v with PBool _ => true | _ => false end.

(** Truth value of an object in a condition ([x if keep else y]). *)
Definition truthy (v : pyval) : bool :=
  match v with
  | PNone => false
  | PBool b => b
  | PInt z => negb (z =? 0)%Z
  | PFloat q => negb (Qeq_bool q 0)
  | PStr s => negb (s =? "")
  | PList l => match l with [] => false | _ => true end
  end.

(** Keyword arguments, in call order. *)
Definition kwargs := list (string * pyval).

Fixpoint get {A : Type} (d : list (string * A)) (k : string) : option A :=
  match d with
  | [] => None
  | (k', v) :: rest => if k' =? k then Some v else get rest k
  end.

Definition remove_key {A : Type} (k : string) (d : list (string * A))
  : list (string * A) :=
  List.filter (fun kv => negb (fst kv =? k)) d.

Definition keys {A : Type} (d : list (string * A)) : list string := map fst d.

Definition in_cols (col : string) (cols : list string) : bool :=
  existsb (String.eqb col) cols.

(** One entry of a column of [data] or [meta]. *)
Inductive cell : Type :=
| CNaN
| CBool (b : bool)
| CInt (z : Z)
| CNum (q : Q)
| CStr (s : string)
| CTime (t : Z).

Definition cell_eqb (a b : cell) : bool :=
  match a, b with
  | CNaN, CNaN => true
  | CBool x, CBool y => Bool.eqb x y
  | CInt x, CInt y => (x =? y)%Z
  | CNum x, CNum y => Qeq_bool x y
  | CStr x, CStr y => x =? y
  | CTime x, CTime y => (x =? y)%Z
  | _, _ => false
  end.

(** (model, scenario): the index of [meta]. *)
Definition Key := (string * string)%type.

Definition key_eqb (a b : Key) : bool :=
  (fst a =? fst b) && (snd a =? snd b).

(** The long index of a row: model, scenario, region, variable, unit, the
    time column and the extra columns. *)
Definition LongIdx :=
  (string * string * string * string * string * Z * list string)%type.

(** The messages of the [ValueError]s raised in [core.py]. *)
Inductive message : Type :=
| keep_not_valid (keep : pyval)
    (* '`filter(keep={}, ...)` is not valid, must be boolean' *)
| filter_not_supported (col : string)
    (* 'filter by `{}` not supported' *)
| conflicting_rename_args (cols : list string)
    (* 'conflicting rename args for columns `{}`' *)
| rename_index_and_data
    (* 'Renaming index and data cols simultaneously not supported!' *)
| rename_non_unique_index (col : string)
    (* 'Renaming to non-unique `{}` index!' *)
| rename_not_supported (col : string)
    (* 'Renaming by `{}` not supported!' *)
| rename_duplicated_rows (rows : list LongIdx)
    (* 'Duplicated rows between original and renamed data!' *)
| meta_conflict (scenarios : list Key)
    (* 'conflict in `meta` for scenarios {}' *)
| incompatible_time_format
    (* 'incompatible time format (years vs. datetime)!' *)
| overlapping_index (rows : list LongIdx).
    (* pandas, [append(..., verify_integrity=True)] *)

Inductive exn : Type :=
| ValueError (m : message)
| KeyError (k : Key)           (* a label that the index of [meta] lacks *)
| ColumnKeyError (cols : list string)
                               (* columns that a frame lacks *)
| TypeError (what : string)
| IndexError
| UtilsError (what : string)   (* raised inside a collaborator *)
| Unmodelled (what : string).  (* a behaviour of pandas outside this model *)

(** The error classes of the specification, by the raising line. *)
Definition UnsupportedFilterError (col : string) : exn :=
  ValueError (filter_not_supported col).
Definition MetaConflictError (scenarios : list Key) : exn :=
  ValueError (meta_conflict scenarios).
Definition ConflictingRenameError : exn :=
  ValueError rename_index_and_data.
Definition DuplicateKeyError (col : string) : exn :=
  ValueError (rename_non_unique_index col).
Definition DuplicateRowError (rows : list LongIdx) : exn :=
  ValueError (overlapping_index rows).

(** The [TypeError] of numpy for [~a] on an array of floats. *)
Definition InvertTypeError : exn :=
  TypeError "ufunc 'invert' not supported for the input types".

Inductive result (A : Type) : Type :=
| OK (a : A)
| Raise (e : exn).
Arguments OK {A} a.
Arguments Raise {A} e.

Definition bind {A B : Type} (c : result A) (k : A -> result B) : result B :=
  match c with
  | OK a => k a
  | Raise e => Raise e
  end.

Notation "x <- c ;; k" := (bind c (fun x => k))
  (at level 61, c at next level, right associativity).

(** A record of the logger: its level and its format string (the
    arguments formatted into it are not modelled). *)
Inductive log_record : Type :=
| log_info (msg : string)
| log_warning (msg : string).

(** ** Data model *)

(** [self.time_col], one of the two literals ['year'] and ['time']; the
    source compares it to the literals by identity, which is equality for
    these two names. *)
Inductive time_col_t : Type :=
| year_col   (* time_col == 'year' *)
| datetime_col.  (* time_col == 'time' *)

Definition time_name (t : time_col_t) : string :=
  match t with year_col => "year" | datetime_col => "time" end.

Definition is_datetime (t : time_col_t) : bool :=
  match t with year_col => false | datetime_col => true end.

Record Row : Type := mkRow {
  model : string;
  scenario : string;
  region : string;
  variable : string;
  unit : string;
  time : Z;              (* the year, or the timestamp in datetime mode *)
  extra : list string;   (* one entry per extra column *)
  value : Q
}.

Record MetaRow : Type := mkMeta {
  meta_key : Key;
  meta_cells : list cell   (* one entry per column of [meta] *)
}.

Record IamDataFrame : Type := mkDf {
  data : list Row;
  time_col : time_col_t;
  extra_cols : list string;
  meta_columns : list string;
  meta : list MetaRow
}.

Definition set_data (df : IamDataFrame) (d : list Row) : IamDataFrame :=
  mkDf d (time_col df) (extra_cols df) (meta_columns df) (meta df).

Definition set_meta_rows (df : IamDataFrame) (m : list MetaRow) : IamDataFrame :=
  mkDf (data df) (time_col df) (extra_cols df) (meta_columns df) m.

Definition META_IDX : list string := ["model"; "scenario"].
Definition IAMC_IDX : list string :=
  ["model"; "scenario"; "region"; "variable"; "unit"].

(** [self._LONG_IDX = IAMC_IDX + [self.time_col] + self.extra_cols] *)
Definition _LONG_IDX (df : IamDataFrame) : list string :=
  IAMC_IDX ++ [time_name (time_col df)] ++ extra_cols df.

(** [self.data.columns] *)
Definition data_columns (df : IamDataFrame) : list string :=
  _LONG_IDX df ++ ["value"].

Definition scenario_key (r : Row) : Key := (model r, scenario r).

Definition long_idx (r : Row) : LongIdx :=
  (model r, scenario r, region r, variable r, unit r, time r, extra r).

Fixpoint index_of (col : string) (cols : list string) : option nat :=
  match cols with
  | [] => None
  | c :: rest =>
      if c =? col then Some O
      else match index_of col rest with
           | Some n => Some (S n)
           | None => None
           end
  end.

(** [self.data[col]] at one row. *)
Definition data_cell (df : IamDataFrame) (col : string) (r : Row) : cell :=
  if col =? "model" then CStr (model r)
  else if col =? "scenario" then CStr (scenario r)
  else if col =? "region" then CStr (region r)
  else if col =? "variable" then CStr (variable r)
  else if col =? "unit" then CStr (unit r)
  else if col =? time_name (time_col df) then
    (if is_datetime (time_col df) then CTime (time r) else CInt (time r))
  else if col =? "value" then CNum (value r)
  else match index_of col (extra_cols df) with
       | Some i => match nth_error (extra r) i with
                   | Some s => CStr s
                   | None => CNaN
                   end
       | None => CNaN
       end.

(** [self.meta[col]] at one row. *)
Definition meta_cell (df : IamDataFrame) (col : string) (m : MetaRow) : cell :=
  match index_of col (meta_columns df) with
  | Some i => nth i (meta_cells m) CNaN
  | None => CNaN
  end.

(** First occurrences, in order ([pd.unique], [drop_duplicates]). *)
Fixpoint unique_by {A : Type} (eqb : A -> A -> bool) (l : list A) : list A :=
  match l with
  | [] => []
  | x :: rest => x :: List.filter (fun y => negb (eqb x y)) (unique_by eqb rest)
  end.

Definition key_in (k : Key) (idx : list Key) : bool :=
  existsb (key_eqb k) idx.

(** [_make_index(df)]: the scenario keys of the rows, without repeats. *)
Definition _make_index (rows : list Row) : list Key :=
  unique_by key_eqb (map scenario_key rows).

(** [_meta_idx(data)], for [data[META_IDX]] given as the list of the
    (model, scenario) pairs of the rows:
    [data[META_IDX].drop_duplicates().set_index(META_IDX).index]. *)
Definition _meta_idx (pairs : list Key) : list Key :=
  unique_by key_eqb pairs.

(** ** Collaborators that are not part of [core.py] *)

(** A [pandas.Series] of values indexed by the long index, as
    [_group_and_agg] returns it. *)
Definition Series := list (LongIdx * Q).

(** The imports of [core.py] from [pyam.utils] and [pyam._aggregate], and
    the accessors of a pandas timestamp.  A matcher is called with the
    filter values and either raises or decides each entry of the column on
    its own. *)
Record Utils : Type := mkUtils {
  (* pattern_match(data, values, level=None, regexp=False) *)
  pattern_match : pyval -> pyval -> pyval -> result (cell -> bool);
  (* years_match(data, years) *)
  years_match : pyval -> result (Z -> bool);
  (* month_match(data, months) *)
  month_match : pyval -> result (Z -> bool);
  (* day_match(data, days) *)
  day_match : pyval -> result (Z -> bool);
  (* hour_match(data, hours) *)
  hour_match : pyval -> result (Z -> bool);
  (* datetime_match(data, dts) *)
  datetime_match : pyval -> result (Z -> bool);
  (* find_depth(data, level=level) *)
  find_depth : pyval -> result (string -> bool);
  (* x.year, x.month, x.day, x.weekday(), x.hour of a timestamp *)
  ts_year : Z -> Z;
  ts_month : Z -> Z;
  ts_day : Z -> Z;
  ts_weekday : Z -> Z;
  ts_hour : Z -> Z;
  (* _aggregate(df, variable, components, method) *)
  _aggregate : IamDataFrame -> pyval -> pyval -> pyval -> result (option Series);
  (* _group_and_agg(df, by, method) *)
  _group_and_agg : list Row -> pyval -> pyval -> result Series;
  (* sort_data(data, cols) *)
  sort_data : list Row -> list string -> list Row
}.

(** ** The filter engine *)

(** [np.logical_and(keep, keep_col)] on arrays of the same length. *)
Fixpoint logical_and (a b : list bool) : list bool :=
  match a, b with
  | x :: a', y :: b' => (x && y) :: logical_and a' b'
  | _, _ => []
  end.

(** [~keep] on an array of booleans. *)
Definition logical_not (a : list bool) : list bool := map negb a.

(** The arrays that [_apply_filters] builds and returns.  An array of
    dtype bool is the list of its entries.  [np.array([])], the array of
    an empty list, is of dtype float64: numpy takes the dtype from the
    entries and has none to take it from. *)
Inductive ndarray : Type :=
| bool_array (entries : list bool)
| float64_empty.

(** [np.array([True] * n)] *)
Definition np_array_True (n : nat) : ndarray :=
  match n with
  | O => float64_empty
  | S _ => bool_array (repeat true n)
  end.

(** The entries of an array, read as truth values. *)
Definition entries (a : ndarray) : list bool :=
  match a with
  | bool_array l => l
  | float64_empty => []
  end.

(** [np.logical_and(keep, keep_col)] with the sub-mask [keep_col] of a
    column: the result is of dtype bool, whatever the dtype of [keep]. *)
Definition np_logical_and (keep : ndarray) (keep_col : list bool) : ndarray :=
  bool_array (logical_and (entries keep) keep_col).

(** [data[keep]]: the rows at which the mask holds. *)
Fixpoint boolean_index {A : Type} (rows : list A) (mask : list bool) : list A :=
  match rows, mask with
  | r :: rows', b :: mask' =>
      if b then r :: boolean_index rows' mask' else boolean_index rows' mask'
  | _, _ => []
  end.

(** The object [self] after a call, the log records of the call, and the
    value returned or the exception raised. *)
Record outcome (A : Type) : Type := mkOutcome {
  self_after : IamDataFrame;
  logged : list log_record;
  returned : result A
}.
Arguments mkOutcome {A} _ _ _.
Arguments self_after {A} _.
Arguments logged {A} _.
Arguments returned {A} _.

Section FilterEngine.

Variable U : Utils.

(** The body of the loop of [_apply_filters] for one entry whose value is
    not [None]: the sub-mask [keep_col], [None] where the source says
    [continue], or the exception raised. *)
Definition keep_col (self : IamDataFrame) (filters : kwargs) (regexp : pyval)
    (col : string) (values : pyval) : result (option (list bool)) :=
  if in_cols col (meta_columns self) then
    matches <- pattern_match U values PNone regexp ;;
    let cat_idx :=
      map meta_key
          (List.filter (fun m => matches (meta_cell self col m)) (meta self)) in
    OK (Some (map (fun r => key_in (scenario_key r) cat_idx) (data self)))
  else if col =? "variable" then
    let level := match get filters "level" with
                 | Some l => l
                 | None => PNone
                 end in
    matches <- pattern_match U values level regexp ;;
    OK (Some (map (fun r => matches (CStr (variable r))) (data self)))
  else if col =? "year" then
    matches <- years_match U values ;;
    OK (Some (map (fun r =>
                     matches (if is_datetime (time_col self)
                              then ts_year U (time r) else time r))
                  (data self)))
  else if (col =? "month") && is_datetime (time_col self) then
    matches <- month_match U values ;;
    OK (Some (map (fun r => matches (ts_month U (time r))) (data self)))
  else if (col =? "day") && is_datetime (time_col self) then
    wday <- match values with
            | PStr _ => OK true
            | PList [] => Raise IndexError
            | PList (PStr _ :: _) => OK true
            | _ => OK false
            end ;;
    matches <- day_match U values ;;
    OK (Some (map (fun r =>
                     matches (if wday : bool then ts_weekday U (time r)
                              else ts_day U (time r)))
                  (data self)))
  else if (col =? "hour") && is_datetime (time_col self) then
    matches <- hour_match U values ;;
    OK (Some (map (fun r => matches (ts_hour U (time r))) (data self)))
  else if (col =? "time") && is_datetime (time_col self) then
    matches <- datetime_match U values ;;
    OK (Some (map (fun r => matches (time r)) (data self)))
  else if col =? "level" then
    if negb (in_cols "variable" (keys filters)) then
      matches <- find_depth U values ;;
      OK (Some (map (fun r => matches (variable r)) (data self)))
    else OK None
  else if in_cols col (data_columns self) then
    matches <- pattern_match U values PNone regexp ;;
    OK (Some (map (fun r => matches (data_cell self col r)) (data self)))
  else Raise (UnsupportedFilterError col).

(** [for col, values in filters.items(): ...] *)
Fixpoint apply_loop (self : IamDataFrame) (filters : kwargs) (regexp : pyval)
    (items : kwargs) (keep : ndarray) : result ndarray :=
  match items with
  | [] => OK keep
  | (col, values) :: rest =>
      if is_None values then apply_loop self filters regexp rest keep
      else
        kc <- keep_col self filters regexp col values ;;
        match kc with
        | None => apply_loop self filters regexp rest keep
        | Some keep_c =>
            apply_loop self filters regexp rest (np_logical_and keep keep_c)
        end
  end.

(** [IamDataFrame._apply_filters], called with the keyword arguments
    [filters].  The array returned is the initial one when no entry
    applies a sub-mask: on a table without rows it is then the float64
    array, which is no mask. *)
Definition _apply_filters (self : IamDataFrame) (filters : kwargs)
  : result ndarray :=
  let regexp := match get filters "regexp" with
                | Some v => v
                | None => PBool false
                end in
  let filters := remove_key "regexp" filters in
  apply_loop self filters regexp filters
             (np_array_True (List.length (data self))).

(** [meta.loc[idx]]: the rows of [meta] at the keys of [idx], in the order
    of [idx]; a key that is not in the index of [meta] is a [KeyError]. *)
Fixpoint meta_loc (m : list MetaRow) (idx : list Key) : result (list MetaRow) :=
  match idx with
  | [] => OK []
  | k :: rest =>
      match List.filter (fun r => key_eqb (meta_key r) k) m with
      | [] => Raise (KeyError k)
      | found => tl <- meta_loc m rest ;; OK (found ++ tl)
      end
  end.

(** [IamDataFrame.filter(keep=True, inplace=False, **kwargs)].  With
    [inplace=True] the object [ret] is [self], so an assignment to
    [ret.data] is one to [self.data]; otherwise [ret] is a deep copy.

    On the float64 array [~_keep] is a [TypeError] of numpy (the ufunc
    [invert] has no loop for floats).  As an index, [ret.data[_keep]], the
    float64 array is an empty list of column labels: [ret.data] becomes a
    frame without columns and [_make_index] raises the [KeyError] of the
    column [model].  With [inplace=True] that frame is then the data of
    [self], a state that a list of rows cannot hold: the outcome is left
    outside the model. *)
Definition filter (self : IamDataFrame) (keep : pyval) (inplace : bool)
    (filters : kwargs) : outcome (option IamDataFrame) :=
  if negb (isinstance_bool keep) then
    mkOutcome self [] (Raise (ValueError (keep_not_valid keep)))
  else
    match _apply_filters self filters with
    | Raise e => mkOutcome self [] (Raise e)
    | OK float64_empty =>
        if negb (truthy keep) then
          mkOutcome self [] (Raise InvertTypeError)
        else if inplace then
          mkOutcome self [] (Raise (Unmodelled "data without columns"))
        else mkOutcome self [] (Raise (ColumnKeyError ["model"]))
    | OK (bool_array _keep) =>
        let _keep := if truthy keep then _keep else logical_not _keep in
        let ret := set_data self (boolean_index (data self) _keep) in
        let idx := _make_index (data ret) in
        let log := match idx with
                   | [] => [log_warning "Filtered IamDataFrame is empty!"]
                   | _ => []
                   end in
        match meta_loc (meta ret) idx with
        | Raise e => mkOutcome (if inplace then ret else self) log (Raise e)
        | OK m =>
            let ret := set_meta_rows ret m in
            if inplace then mkOutcome ret log (OK None)
            else mkOutcome self log (OK (Some ret))
        end
    end.

End FilterEngine.

(** ** Index order and grouping (pandas) *)

Fixpoint list_eqb {A : Type} (eqb : A -> A -> bool) (a b : list A) : bool :=
  match a, b with
  | [], [] => true
  | x :: a', y :: b' => eqb x y && list_eqb eqb a' b'
  | _, _ => false
  end.

Definition idx_eqb (a b : LongIdx) : bool :=
  let '(m1, s1, r1, v1, u1, t1, e1) := a in
  let '(m2, s2, r2, v2, u2, t2, e2) := b in
  (m1 =? m2) && (s1 =? s2) && (r1 =? r2) && (v1 =? v2) && (u1 =? u2)
  && (t1 =? t2)%Z && list_eqb String.eqb e1 e2.

(** Lexicographic order of index tuples, the order in which pandas sorts
    an index. *)
Definition lex (c1 c2 : comparison) : comparison :=
  match c1 with Eq => c2 | _ => c1 end.

Fixpoint strings_compare (a b : list string) : comparison :=
  match a, b with
  | [], [] => Eq
  | [], _ :: _ => Lt
  | _ :: _, [] => Gt
  | x :: a', y :: b' => lex (String.compare x y) (strings_compare a' b')
  end.

Definition key_compare (a b : Key) : comparison :=
  lex (String.compare (fst a) (fst b)) (String.compare (snd a) (snd b)).

Definition idx_compare (a b : LongIdx) : comparison :=
  let '(m1, s1, r1, v1, u1, t1, e1) := a in
  let '(m2, s2, r2, v2, u2, t2, e2) := b in
  lex (String.compare m1 m2)
    (lex (String.compare s1 s2)
      (lex (String.compare r1 r2)
        (lex (String.compare v1 v2)
          (lex (String.compare u1 u2)
            (lex (Z.compare t1 t2) (strings_compare e1 e2)))))).

Definition leb_of {A : Type} (cmp : A -> A -> comparison) (a b : A) : bool :=
  match cmp a b with Gt => false | _ => true end.

Fixpoint insert_sorted {A : Type} (leb : A -> A -> bool) (x : A) (l : list A)
  : list A :=
  match l with
  | [] => [x]
  | y :: rest => if leb x y then x :: l else y :: insert_sorted leb x rest
  end.

(** A stable sort. *)
Definition sort_by {A : Type} (leb : A -> A -> bool) (l : list A) : list A :=
  fold_right (insert_sorted leb) [] l.

Definition row_of_idx (k : LongIdx) (v : Q) : Row :=
  let '(m, s, r, va, u, t, e) := k in mkRow m s r va u t e v.

(** The sum of the values of the rows of one group, in row order. *)
Definition group_sum (rows : list Row) (k : LongIdx) : Q :=
  fold_left Qplus
            (map value (List.filter (fun r => idx_eqb (long_idx r) k) rows))
            0%Q.

(** [data.groupby(_LONG_IDX).sum().reset_index()]: one row per distinct
    long index, sorted by it, with the sum of the values of its group. *)
Definition groupby_sum (rows : list Row) : list Row :=
  map (fun k => row_of_idx k (group_sum rows k))
      (sort_by (leb_of idx_compare) (unique_by idx_eqb (map long_idx rows))).

(** ** The consistency check *)

Definition series_get (s : Series) (k : LongIdx) : option Q :=
  match List.find (fun kv => idx_eqb (fst kv) k) s with
  | Some kv => Some (snd kv)
  | None => None
  end.

(** The index of an outer alignment: the sorted union of both indexes. *)
Definition union_index (a b : Series) : list LongIdx :=
  sort_by (leb_of idx_compare) (unique_by idx_eqb (map fst a ++ map fst b)).

(** [a.align(b)] (outer join): both series on the union of the indexes;
    an index entry one series lacks holds NaN in it, here [None]. *)
Definition align (a b : Series) : list (LongIdx * option Q * option Q) :=
  map (fun k => (k, series_get a k, series_get b k)) (union_index a b).

(** The keyword arguments of [numpy.isclose]. *)
Record isclose_kwargs : Type := mkClose {
  rtol : Q;
  atol : Q;
  equal_nan : bool
}.

(** The defaults: [rtol=1e-05, atol=1e-08, equal_nan=False]. *)
Definition isclose_defaults : isclose_kwargs :=
  mkClose (1 # 100000)%Q (1 # 100000000)%Q false.

(** [numpy.isclose(a, b, rtol, atol, equal_nan)] at one position:
    [abs(a - b) <= atol + rtol * abs(b)], and NaN is close to nothing but,
    with [equal_nan], another NaN. *)
Definition isclose (kw : isclose_kwargs) (a b : option Q) : bool :=
  match a, b with
  | Some x, Some y =>
      Qle_bool (Qabs (x - y)) (atol kw + rtol kw * Qabs y)%Q
  | None, None => equal_nan kw
  | _, _ => false
  end.

(** [multiplier * series] at one position; NaN stays NaN. *)
Definition scale (multiplier : Q) (v : option Q) : option Q :=
  option_map (Qmult multiplier) v.

Definition idx_key (k : LongIdx) : Key :=
  let '(m, s, _, _, _, _, _) := k in (m, s).

Fixpoint set_nth (i : nat) (v : cell) (l : list cell) : list cell :=
  match i, l with
  | O, [] => [v]
  | O, _ :: rest => v :: rest
  | S i', [] => CNaN :: set_nth i' v []
  | S i', x :: rest => x :: set_nth i' v rest
  end.

(** [self.meta.loc[idx, col] = v]: the column is created when [meta] does
    not have it, and a key outside the index of [meta] is a [KeyError]. *)
Definition meta_loc_set (self : IamDataFrame) (idx : list Key) (col : string)
    (v : cell) : result IamDataFrame :=
  match List.find (fun k => negb (key_in k (map meta_key (meta self)))) idx with
  | Some k => Raise (KeyError k)
  | None =>
      let '(cols, i) :=
        match index_of col (meta_columns self) with
        | Some i => (meta_columns self, i)
        | None => (meta_columns self ++ [col], List.length (meta_columns self))
        end in
      OK (mkDf (data self) (time_col self) (extra_cols self) cols
               (map (fun m => if key_in (meta_key m) idx
                              then mkMeta (meta_key m) (set_nth i v (meta_cells m))
                              else m)
                    (meta self)))
  end.

(** [IamDataFrame._exclude_on_fail(df)] for [df] a [pd.MultiIndex]. *)
Definition _exclude_on_fail (self : IamDataFrame) (idx : list Key)
  : outcome Datatypes.unit :=
  match meta_loc_set self idx "exclude" (CBool true) with
  | Raise e => mkOutcome self [] (Raise e)
  | OK self' =>
      mkOutcome self'
        [log_info "{} non-valid scenario{} will be excluded"]
        (OK tt)
  end.

Section AggregationEngine.

Variable U : Utils.

(** [IamDataFrame.check_aggregate(variable, components, method,
    exclude_on_fail, multiplier, **kwargs)]; the keyword arguments are
    those of [numpy.isclose]. *)
Definition check_aggregate (self : IamDataFrame)
    (variable components method : pyval) (exclude_on_fail : bool)
    (multiplier : Q) (kw : isclose_kwargs)
  : outcome (option (list (LongIdx * option Q * option Q))) :=
  match _aggregate U self variable components method with
  | Raise e => mkOutcome self [] (Raise e)
  | OK None => mkOutcome self [] (OK None)
  | OK (Some df_components) =>
      match _apply_filters U self [("variable", variable)] with
      | Raise e => mkOutcome self [] (Raise e)
      | OK float64_empty =>
          (* [self.data[rows]] is a frame without columns *)
          mkOutcome self []
            (Raise (Unmodelled "_group_and_agg of data without columns"))
      | OK (bool_array rows) =>
          match _group_and_agg U (boolean_index (data self) rows)
                               (PList []) method with
          | Raise e => mkOutcome self [] (Raise e)
          | OK df_var =>
              let aligned := align df_var df_components in
              let rows :=
                map (fun '(_, v, c) => negb (isclose kw v (scale multiplier c)))
                    aligned in
              if existsb (fun b => b) rows then
                let log :=
                  [log_info
                     "`{}` - {} of {} rows are not aggregates of components"] in
                let mismatch := boolean_index aligned rows in
                if exclude_on_fail then
                  let o := _exclude_on_fail self
                             (_meta_idx
                                (map (fun '(k, _, _) => idx_key k) mismatch)) in
                  match returned o with
                  | Raise e => mkOutcome (self_after o) log (Raise e)
                  | OK _ =>
                      mkOutcome (self_after o) (log ++ logged o)
                                (OK (Some mismatch))
                  end
                else mkOutcome self log (OK (Some mismatch))
              else mkOutcome self [] (OK None)
          end
      end
  end.

End AggregationEngine.

(** ** Append *)

Definition time_col_eqb (a b : time_col_t) : bool :=
  Bool.eqb (is_datetime a) (is_datetime b).

Definition meta_index (df : IamDataFrame) : list Key :=
  map meta_key (meta df).

(** [meta.loc[idx, cols]]: for each key of [idx] the rows of [meta] at
    that key, restricted to the columns [cols]. *)
Definition meta_loc_cols (df : IamDataFrame) (idx : list Key)
    (cols : list string) : list (Key * list cell) :=
  flat_map
    (fun k =>
       map (fun m => (meta_key m, map (fun c => meta_cell df c m) cols))
           (List.filter (fun m => key_eqb (meta_key m) k) (meta df)))
    idx.

(** [a.equals(b)]: the same index and the same entries, NaN equal to NaN
    at the same place. *)
Definition frame_equals (a b : list (Key * list cell)) : bool :=
  list_eqb (fun x y => key_eqb (fst x) (fst y)
                       && list_eqb cell_eqb (snd x) (snd y)) a b.

(** [DataFrame.drop_duplicates()]: a row is a duplicate when its entries
    repeat those of an earlier row; the index is not compared. *)
Definition drop_duplicates (f : list (Key * list cell))
  : list (Key * list cell) :=
  unique_by (fun x y => list_eqb cell_eqb (snd x) (snd y)) f.

(** The scenarios listed in the message of a conflict in [meta]. *)
Definition conflict_idx (left right : list (Key * list cell)) : list Key :=
  unique_by key_eqb (map fst (drop_duplicates (left ++ right))).

(** [duplicated()]: whether an entry repeats an earlier one. *)
Fixpoint duplicated_from {A : Type} (eqb : A -> A -> bool) (seen l : list A)
  : list bool :=
  match l with
  | [] => []
  | x :: rest => existsb (eqb x) seen :: duplicated_from eqb (x :: seen) rest
  end.

Definition duplicated {A : Type} (eqb : A -> A -> bool) (l : list A)
  : list bool :=
  duplicated_from eqb [] l.

Section AppendEngine.

Variable U : Utils.

(** [IamDataFrame.append(other, ignore_meta_conflict=False,
    inplace=False)] for [other] an [IamDataFrame].  The index
    [intersect] is taken in the order of [other.meta.index] and [diff]
    sorted; an outer merge sorts the index of [meta].  Appending the data
    of containers whose extra columns differ is outside the model
    ([Unmodelled]). *)
Definition append (self other : IamDataFrame)
    (ignore_meta_conflict inplace : bool) : outcome (option IamDataFrame) :=
  if negb (time_col_eqb (time_col self) (time_col other)) then
    mkOutcome self [] (Raise (ValueError incompatible_time_format))
  else
    let ret := self in
    let diff :=
      sort_by (leb_of key_compare)
        (unique_by key_eqb
           (List.filter (fun k => negb (key_in k (meta_index ret)))
                        (meta_index other))) in
    let intersect :=
      unique_by key_eqb
        (List.filter (fun k => key_in k (meta_index ret)) (meta_index other)) in
    (* merge other.meta columns not in self.meta for existing scenarios *)
    let checked :=
      match intersect with
      | [] => OK ret
      | _ :: _ =>
          let cols :=
            List.filter (fun i => in_cols i (meta_columns ret))
                        (meta_columns other) in
          let left := meta_loc_cols ret intersect cols in
          let right := meta_loc_cols other intersect cols in
          if negb ignore_meta_conflict && negb (frame_equals left right) then
            Raise (MetaConflictError (conflict_idx left right))
          else
            let cols :=
              List.filter (fun i => negb (in_cols i (meta_columns ret)))
                          (meta_columns other) in
            OK (mkDf (data ret) (time_col ret) (extra_cols ret)
                     (meta_columns ret ++ cols)
                     (sort_by
                        (fun a b => leb_of key_compare (meta_key a) (meta_key b))
                        (map (fun m =>
                                mkMeta (meta_key m)
                                  (map (fun c => meta_cell ret c m)
                                       (meta_columns ret)
                                   ++ match List.find
                                              (fun o => key_eqb (meta_key o)
                                                                (meta_key m))
                                              (meta other) with
                                      | Some o =>
                                          map (fun c => meta_cell other c o) cols
                                      | None => map (fun _ => CNaN) cols
                                      end))
                             (meta ret))))
      end in
    match checked with
    | Raise e => mkOutcome self [] (Raise e)
    | OK ret =>
        (* join other.meta for new scenarios *)
        let ret :=
          match diff with
          | [] => ret
          | _ :: _ =>
              let cols :=
                meta_columns ret
                ++ List.filter (fun i => negb (in_cols i (meta_columns ret)))
                               (meta_columns other) in
              mkDf (data ret) (time_col ret) (extra_cols ret) cols
                   (map (fun m =>
                           mkMeta (meta_key m)
                             (map (fun c => meta_cell ret c m) cols))
                        (meta ret)
                    ++ map (fun kc => mkMeta (fst kc) (snd kc))
                           (meta_loc_cols other diff cols))
          end in
        (* append other.data (verify integrity for no duplicates) *)
        if negb (list_eqb String.eqb (extra_cols ret) (extra_cols other)) then
          mkOutcome (if inplace then ret else self) []
                    (Raise (Unmodelled "append with other extra columns"))
        else
          let _data := data ret ++ data other in
          let dup :=
            boolean_index (map long_idx _data)
                          (duplicated idx_eqb (map long_idx _data)) in
          match dup with
          | _ :: _ =>
              mkOutcome (if inplace then ret else self) []
                        (Raise (DuplicateRowError (unique_by idx_eqb dup)))
          | [] =>
              let ret := set_data ret (sort_data U _data (_LONG_IDX ret)) in
              if inplace then mkOutcome ret [] (OK None)
              else mkOutcome self [] (OK (Some ret))
          end
    end.

End AppendEngine.

(** ** Rename *)

(** A rename dictionary [{current: target}] of one column: of names, or
    of years or timestamps for the time column. *)
Inductive rename_dict : Type :=
| str_dict (d : list (string * string))
| int_dict (d : list (Z * Z)).

(** [mapping]: column name to rename dictionary, in insertion order. *)
Definition mapping_t := list (string * rename_dict).

(** [_from.keys()] as a filter value. *)
Definition dict_keys (d : rename_dict) : pyval :=
  match d with
  | str_dict d => PList (map (fun kv => PStr (fst kv)) d)
  | int_dict d => PList (map (fun kv => PInt (fst kv)) d)
  end.

(** [Series.replace(_mapping)] at one entry: the target of the entry when
    it is a key of the dictionary, the entry itself otherwise. *)
Definition replace_str (d : rename_dict) (s : string) : string :=
  match d with
  | str_dict d => match get d s with Some s' => s' | None => s end
  | int_dict _ => s
  end.

Definition replace_int (d : rename_dict) (z : Z) : Z :=
  match d with
  | int_dict d =>
      match List.find (fun kv => (fst kv =? z)%Z) d with
      | Some kv => snd kv
      | None => z
      end
  | str_dict _ => z
  end.

Fixpoint map_nth {A : Type} (f : A -> A) (i : nat) (l : list A) : list A :=
  match i, l with
  | _, [] => []
  | O, x :: rest => f x :: rest
  | S i', x :: rest => x :: map_nth f i' rest
  end.

(** [_data.loc[row, col] = _data.loc[row, col].replace(_mapping)] at one
    selected row. *)
Definition replace_in_row (df : IamDataFrame) (col : string) (d : rename_dict)
    (r : Row) : Row :=
  if col =? "model" then
    mkRow (replace_str d (model r)) (scenario r) (region r) (variable r)
          (unit r) (time r) (extra r) (value r)
  else if col =? "scenario" then
    mkRow (model r) (replace_str d (scenario r)) (region r) (variable r)
          (unit r) (time r) (extra r) (value r)
  else if col =? "region" then
    mkRow (model r) (scenario r) (replace_str d (region r)) (variable r)
          (unit r) (time r) (extra r) (value r)
  else if col =? "variable" then
    mkRow (model r) (scenario r) (region r) (replace_str d (variable r))
          (unit r) (time r) (extra r) (value r)
  else if col =? "unit" then
    mkRow (model r) (scenario r) (region r) (variable r)
          (replace_str d (unit r)) (time r) (extra r) (value r)
  else if col =? time_name (time_col df) then
    mkRow (model r) (scenario r) (region r) (variable r)
          (unit r) (replace_int d (time r)) (extra r) (value r)
  else match index_of col (extra_cols df) with
       | Some i =>
           mkRow (model r) (scenario r) (region r) (variable r)
                 (unit r) (time r) (map_nth (replace_str d) i (extra r))
                 (value r)
       | None => r
       end.

(** The assignment to [_data.loc[rows, col]] over the whole table. *)
Fixpoint replace_rows (df : IamDataFrame) (col : string) (d : rename_dict)
    (data : list Row) (rows : list bool) : list Row :=
  match data, rows with
  | r :: data', b :: rows' =>
      (if b then replace_in_row df col d r else r)
      :: replace_rows df col d data' rows'
  | _, _ => data
  end.

(** [_index.loc[idx, col] = _index.loc[idx, col].replace(_mapping)] on the
    index of [meta]. *)
Definition replace_in_key (col : string) (d : rename_dict) (k : Key) : Key :=
  if col =? "model" then (replace_str d (fst k), snd k)
  else (fst k, replace_str d (snd k)).

Fixpoint replace_index (col : string) (d : rename_dict) (m : list MetaRow)
    (idx : list bool) : list MetaRow :=
  match m, idx with
  | r :: m', b :: idx' =>
      (if b then mkMeta (replace_in_key col d (meta_key r)) (meta_cells r) else r)
      :: replace_index col d m' idx'
  | _, _ => m
  end.

(** [mapping = mapping or {}], the check for columns given twice, and
    [mapping.update(kwargs)]. *)
Definition combine_mapping (mapping : option mapping_t) (kw : mapping_t)
  : result mapping_t :=
  let mapping := match mapping with Some m => m | None => [] end in
  match List.filter (fun c => in_cols c (keys kw)) (keys mapping) with
  | [] => OK (mapping ++ kw)
  | duplicate => Raise (ValueError (conflicting_rename_args duplicate))
  end.

(** [data_cols = set(self._LONG_IDX) - set(META_IDX)] *)
Definition data_cols (df : IamDataFrame) : list string :=
  List.filter (fun c => negb (in_cols c META_IDX)) (_LONG_IDX df).

(** [any(i in mapping for i in META_IDX) and any(i in mapping for i in
    data_cols)] *)
Definition index_and_data (df : IamDataFrame) (mapping : mapping_t) : bool :=
  existsb (fun i => in_cols i (keys mapping)) META_IDX
  && existsb (fun i => in_cols i (keys mapping)) (data_cols df).

(** The state of the loop [for col, _mapping in mapping.items()]: the
    index of [ret.meta] and the table [_data]. *)
Fixpoint rename_loop (df : IamDataFrame) (rows idx : list bool)
    (items : mapping_t) (m : list MetaRow) (_data : list Row)
  : list MetaRow * list Row * option exn :=
  match items with
  | [] => (m, _data, None)
  | (col, _mapping) :: rest =>
      if in_cols col META_IDX then
        let _index := replace_index col _mapping m idx in
        if existsb (fun b => b) (duplicated key_eqb (map meta_key _index)) then
          (m, _data, Some (DuplicateKeyError col))
        else
          rename_loop df rows idx rest _index
                      (replace_rows df col _mapping _data rows)
      else if negb (in_cols col (data_cols df)) then
        (m, _data, Some (ValueError (rename_not_supported col)))
      else
        rename_loop df rows idx rest m
                    (replace_rows df col _mapping _data rows)
  end.

(** The rows reported by the check for duplicates between the renamed and
    the other rows. *)
Definition conflict_rows (_data : list Row) (rows : list bool) : list LongIdx :=
  let merged :=
    unique_by idx_eqb (map long_idx (boolean_index _data rows))
    ++ unique_by idx_eqb
         (map long_idx (boolean_index _data (logical_not rows))) in
  unique_by idx_eqb (boolean_index merged (duplicated idx_eqb merged)).

Section RenameEngine.

Variable U : Utils.

(** The part of [rename] below [if append:], with [mapping] already
    combined: rename on [self] or on a copy, then merge with
    [groupby(_LONG_IDX).sum()].  With [check_duplicates=False] the
    table [_data] is [ret.data] itself. *)
Definition rename_rows (self : IamDataFrame) (mapping : mapping_t)
    (inplace check_duplicates : bool) : outcome (option IamDataFrame) :=
  let filters := map (fun cm => (fst cm, dict_keys (snd cm))) mapping in
  match _apply_filters U self filters with
  | Raise e => mkOutcome self [] (Raise e)
  | OK float64_empty =>
      (* [_make_index(ret.data[rows])] on a frame without columns *)
      mkOutcome self [] (Raise (ColumnKeyError ["model"]))
  | OK (bool_array rows) =>
      let idx :=
        map (fun m => key_in (meta_key m)
                        (_make_index (boolean_index (data self) rows)))
            (meta self) in
      let '(m, _data, err) :=
        rename_loop self rows idx mapping (meta self) (data self) in
      let dirty :=
        set_meta_rows
          (set_data self (if check_duplicates then data self else _data)) m in
      match err with
      | Some e => mkOutcome (if inplace then dirty else self) [] (Raise e)
      | None =>
          match (if check_duplicates then conflict_rows _data rows else []) with
          | (_ :: _) as dup =>
              mkOutcome (if inplace then dirty else self) []
                        (Raise (ValueError (rename_duplicated_rows dup)))
          | [] =>
              let ret := set_meta_rows (set_data self (groupby_sum _data)) m in
              if inplace then mkOutcome ret [] (OK None)
              else mkOutcome self [] (OK (Some ret))
          end
      end
  end.

(** [IamDataFrame.rename(mapping=None, inplace=False, append=False,
    check_duplicates=True, **kwargs)].  With [append=True] the inner call
    [df.rename(mapping)] has no keyword arguments and a mapping that has
    passed the two checks on the container it was filtered from, so it is
    the part below [if append:] run on [df]. *)
Definition rename (self : IamDataFrame) (mapping : option mapping_t)
    (inplace append_ check_duplicates : bool) (kw : mapping_t)
  : outcome (option IamDataFrame) :=
  match combine_mapping mapping kw with
  | Raise e => mkOutcome self [] (Raise e)
  | OK mapping =>
      if index_and_data self mapping then
        mkOutcome self [] (Raise ConflictingRenameError)
      else if append_ then
        let filters := map (fun cm => (fst cm, dict_keys (snd cm))) mapping in
        let f := filter U self (PBool true) false filters in
        match returned f with
        | Raise e => mkOutcome self (logged f) (Raise e)
        | OK None => mkOutcome self (logged f) (OK None)
        | OK (Some df) =>
            let r := rename_rows df mapping false true in
            match returned r with
            | Raise e => mkOutcome self (logged f ++ logged r) (Raise e)
            | OK None => mkOutcome self (logged f ++ logged r) (OK None)
            | OK (Some renamed) =>
                let a := append U self renamed false inplace in
                mkOutcome (self_after a) (logged f ++ logged r ++ logged a)
                          (returned a)
            end
        end
      else rename_rows self mapping inplace check_duplicates
  end.

End RenameEngine.

(** ** A reference instance of the collaborators

    Used to run the model on concrete tables. *)

(** Modelled from the spec: the pseudo-regexp of [pattern_match] in
    [pyam.utils], which is not part of [core.py]: a pattern matches by
    equality, with [*] standing for any sequence of characters. *)
Fixpoint glob (p s : string) : bool :=
  match p with
  | EmptyString => match s with EmptyString => true | String _ _ => false end
  | String c p' =>
      if Ascii.eqb c "*" then
        (fix star (s : string) : bool :=
           glob p' s
           || match s with
              | EmptyString => false
              | String _ s' => star s'
              end) s
      else
        match s with
        | EmptyString => false
        | String d s' => Ascii.eqb c d && glob p' s'
        end
  end.

Fixpoint count_pipes (s : string) : Z :=
  match s with
  | EmptyString => 0%Z
  | String c s' => ((if Ascii.eqb c "|" then 1 else 0) + count_pipes s')%Z
  end.

Fixpoint strip_prefix (p s : string) : option string :=
  match p, s with
  | EmptyString, _ => Some s
  | String c p', String d s' =>
      if Ascii.eqb c d then strip_prefix p' s' else None
  | String _ _, EmptyString => None
  end.

(** The pattern without the wildcards it ends with. *)
Fixpoint rstrip_star (p : string) : string :=
  match p with
  | EmptyString => EmptyString
  | String c p' =>
      match rstrip_star p' with
      | EmptyString => if Ascii.eqb c "*" then EmptyString else String c EmptyString
      | rest => String c rest
      end
  end.

(** Modelled from the spec: the level test of [find_depth] in
    [pyam.utils]: the number of [|] of the variable below the pattern [s]
    equals the integer [level] (or one of a list of integers). *)
Definition depth_ok (s : string) (level : pyval) : result (string -> bool) :=
  let depth := fun v => option_map count_pipes (strip_prefix (rstrip_star s) v) in
  match level with
  | PNone => OK (fun _ => true)
  | PInt n =>
      OK (fun v => match depth v with Some d => (d =? n)%Z | None => false end)
  | _ => Raise (Unmodelled "level given as a range")
  end.

Definition as_list (values : pyval) : list pyval :=
  match values with PList l => l | v => [v] end.

(** Modelled from the spec: [pattern_match] of [pyam.utils]: a value
    matches when it matches one of the patterns; a string pattern matches
    the strings it globs, at the requested level, and another value matches
    the entries equal to it; a missing entry matches no pattern.  Literal
    regular expressions ([regexp=True]) are outside the model. *)
Definition ref_pattern_match (values level regexp : pyval)
  : result (cell -> bool) :=
  if truthy regexp then Raise (Unmodelled "regexp=True")
  else
    fold_right
      (fun s acc =>
         matches <- acc ;;
         match s with
         | PStr p =>
             depth <- depth_ok p level ;;
             OK (fun c : cell =>
                   matches c
                   || match c with
                      | CStr x => glob p x && depth x
                      | _ => false
                      end)
         | PInt z =>
             OK (fun c => matches c
                          || match c with CInt x => (x =? z)%Z | _ => false end)
         | PBool b =>
             OK (fun c => matches c
                          || match c with CBool x => Bool.eqb x b | _ => false end)
         | PFloat q =>
             OK (fun c => matches c
                          || match c with CNum x => Qeq_bool x q | _ => false end)
         | _ => OK matches
         end)
      (OK (fun _ => false)) (as_list values).

(** Modelled from the spec: the matchers of years, months, days, hours
    and timestamps of [pyam.utils], for an integer or a list of integers
    (ranges and weekday names are outside the model). *)
Definition ref_ints_match (values : pyval) : result (Z -> bool) :=
  fold_right
    (fun s acc =>
       matches <- acc ;;
       match s with
       | PInt z => OK (fun x => matches x || (x =? z)%Z)
       | _ => Raise (Unmodelled "a filter value that is not an integer")
       end)
    (OK (fun _ => false)) (as_list values).

(** Modelled from the spec: [find_depth(data, level=level)] of
    [pyam.utils] for a bare variable: the count of [|] separators. *)
Definition ref_find_depth (level : pyval) : result (string -> bool) :=
  match level with
  | PNone => Raise (Unmodelled "find_depth without a level")
  | _ => depth_ok "" level
  end.

(** Timestamps of the reference instance are written [yyyymmddhh]. *)
Definition ref_year (t : Z) : Z := (t / 1000000)%Z.
Definition ref_month (t : Z) : Z := ((t / 10000) mod 100)%Z.
Definition ref_day (t : Z) : Z := ((t / 100) mod 100)%Z.
Definition ref_hour (t : Z) : Z := (t mod 100)%Z.

(** [weekday()]: Monday is 0. *)
Definition ref_weekday (t : Z) : Z :=
  let m := ref_month t in
  let y := (if m <? 3 then ref_year t - 1 else ref_year t)%Z in
  let off := nth (Z.to_nat (m - 1)) [0; 3; 2; 5; 0; 3; 5; 1; 4; 6; 2; 4]%Z 0%Z in
  (((y + y / 4 - y / 100 + y / 400 + off + ref_day t) + 6) mod 7)%Z.

(** Modelled from the spec: [_group_and_agg(df, [], method)] of
    [pyam._aggregate]: group by every column but the value and reduce the
    values of a group, here for the default method [sum]. *)
Definition ref_group_and_agg (rows : list Row) (by_ method : pyval)
  : result Series :=
  match by_, method with
  | PList [], PStr "sum" =>
      OK (map (fun r => (long_idx r, value r)) (groupby_sum rows))
  | _, _ => Raise (Unmodelled "grouping by a column or another method")
  end.

Definition with_variable (v : string) (r : Row) : Row :=
  mkRow (model r) (scenario r) (region r) v (unit r) (time r) (extra r)
        (value r).

(** The variables of the table one level below [v]. *)
Definition ref_variable_components (df : IamDataFrame) (v : string)
  : list string :=
  unique_by String.eqb
    (List.filter
       (fun x => match strip_prefix (v ++ "|") x with
                 | Some rest => (count_pipes rest =? 0)%Z
                 | None => false
                 end)
       (map variable (data df))).

(** Modelled from the spec: [_aggregate(df, variable, components,
    method)] of [pyam._aggregate] for one variable: the components default
    to the variables one level below [variable]; without components there
    is nothing to aggregate; otherwise the rows of the components are
    relabelled as [variable], grouped by the long index and reduced. *)
Definition ref_aggregate (df : IamDataFrame) (target components method : pyval)
  : result (option Series) :=
  match target with
  | PStr v =>
      let given :=
        flat_map (fun c => match c with PStr s => [s] | _ => [] end)
                 (match components with PList l => l | _ => [] end) in
      let components :=
        match given with
        | [] => ref_variable_components df v
        | _ :: _ => given
        end in
      match components with
      | [] => OK None
      | _ :: _ =>
          s <- ref_group_and_agg
                 (map (with_variable v)
                      (List.filter
                         (fun r => existsb (fun c => glob c (variable r))
                                           components)
                         (data df)))
                 (PList []) method ;;
          OK (Some s)
      end
  | _ => Raise (Unmodelled "aggregating a list of variables")
  end.

(** Modelled from the spec: [sort_data(data, cols)] of [pyam.utils]: the
    rows sorted by the long index. *)
Definition ref_sort_data (rows : list Row) (cols : list string) : list Row :=
  sort_by (fun a b => leb_of idx_compare (long_idx a) (long_idx b)) rows.

Definition pyam_utils : Utils :=
  mkUtils ref_pattern_match ref_ints_match ref_ints_match ref_ints_match
          ref_ints_match ref_ints_match ref_find_depth
          ref_year ref_month ref_day ref_weekday ref_hour
          ref_aggregate ref_group_and_agg ref_sort_data.

(** ** Notions used in the statements *)

(** The filtered container of a call of [filter] or [rename]: the value
    returned, or [self] after the call when it was done in place. *)
Definition result_container (inplace : bool) (o : outcome (option IamDataFrame))
  : option IamDataFrame :=
  match returned o with
  | OK (Some ret) => Some ret
  | OK None => if inplace then Some (self_after o) else None
  | Raise _ => None
  end.

(** Every scenario key of the data is in the index of [meta]. *)
Definition keys_in_meta (df : IamDataFrame) : bool :=
  forallb (fun r => key_in (scenario_key r) (meta_index df)) (data df).

(** The sub-masks of the entries of a filter specification, in order:
    one per entry that is neither [None] nor skipped. *)
Fixpoint sub_masks (U : Utils) (self : IamDataFrame) (filters : kwargs)
    (regexp : pyval) (items : kwargs) : result (list (list bool)) :=
  match items with
  | [] => OK []
  | (col, values) :: rest =>
      if is_None values then sub_masks U self filters regexp rest
      else
        kc <- keep_col U self filters regexp col values ;;
        tl <- sub_masks U self filters regexp rest ;;
        OK (match kc with Some m => m :: tl | None => tl end)
  end.

(** The keys of a filter specification that [_apply_filters] supports for
    a table: a column of [meta] or of [data], [variable], [year], [level],
    and in datetime mode [month], [day], [hour] and [time]. *)
Definition supported_key (self : IamDataFrame) (col : string) : bool :=
  in_cols col (meta_columns self)
  || (col =? "variable") || (col =? "year")
  || ((col =? "month") && is_datetime (time_col self))
  || ((col =? "day") && is_datetime (time_col self))
  || ((col =? "hour") && is_datetime (time_col self))
  || ((col =? "time") && is_datetime (time_col self))
  || (col =? "level")
  || in_cols col (data_columns self).

(** The value of [regexp] and the remaining entries of a specification,
    as [_apply_filters] reads them. *)
Definition regexp_arg (filters : kwargs) : pyval :=
  match get filters "regexp" with
  | Some v => v
  | None => PBool false
  end.

Definition filter_items (filters : kwargs) : kwargs :=
  remove_key "regexp" filters.

(** ** Example tables *)

Definition row (m s rg v u : string) (t : Z) (x : Q) : Row :=
  mkRow m s rg v u t [] x.

(** One scenario with a variable and its two components. *)
Definition table_components : IamDataFrame :=
  mkDf [ row "M" "S" "World" "A" "U" 2010 5;
         row "M" "S" "World" "A|x" "U" 2010 2;
         row "M" "S" "World" "A|y" "U" 2010 3 ]
       year_col [] ["exclude"] [mkMeta ("M", "S") [CBool false]].

(** The container without rows that [filter] returns from
    [table_components] when no row passes. *)
Definition table_empty : IamDataFrame :=
  mkDf [] year_col [] ["exclude"] [].

(** The keys a specification may use according to the description of the
    filter engine: a column of [meta], [model], [scenario], [region],
    [variable], [unit], an extra column, [year], [level], and in datetime
    mode [month], [day], [hour] and [time]. *)
Definition described_key (self : IamDataFrame) (col : string) : bool :=
  in_cols col (meta_columns self)
  || in_cols col IAMC_IDX
  || in_cols col (extra_cols self)
  || (col =? "year") || (col =? "level")
  || (in_cols col ["month"; "day"; "hour"; "time"]
      && is_datetime (time_col self)).

(** The rows [check_aggregate] reports: the entries of the alignment
    that are not close, each with the existing value and the aggregate. *)
Definition mismatches (kw : isclose_kwargs) (multiplier : Q)
    (df_var df_components : Series) : list (LongIdx * option Q * option Q) :=
  List.filter (fun '(_, v, c) => negb (isclose kw v (scale multiplier c)))
              (align df_var df_components).

(** The closeness test restricted to the index entries that both series
    have, with the tolerance taken relative to the aggregate:
    [abs(existing - multiplier*aggregate) <= atol + rtol*abs(aggregate)]. *)
Definition two_sided_within (kw : isclose_kwargs) (multiplier : Q)
    (df_var df_components : Series) : bool :=
  forallb
    (fun k =>
       match series_get df_var k, series_get df_components k with
       | Some e, Some a =>
           Qle_bool (Qabs (e - multiplier * a)) (atol kw + rtol kw * Qabs a)%Q
       | _, _ => true
       end)
    (union_index df_var df_components).

(** The variable [A] in 2010 and its only component in 2010 and 2011. *)
Definition table_gap : IamDataFrame :=
  mkDf [ row "M" "S" "World" "A" "U" 2010 5;
         row "M" "S" "World" "A|x" "U" 2010 5;
         row "M" "S" "World" "A|x" "U" 2011 3 ]
       year_col [] ["exclude"] [mkMeta ("M", "S") [CBool false]].

(** The scenario keys two containers share, as [append] computes them,
    and the columns of [meta] both have. *)
Definition shared_keys (self other : IamDataFrame) : list Key :=
  unique_by key_eqb
    (List.filter (fun k => key_in k (meta_index self)) (meta_index other)).

Definition shared_columns (self other : IamDataFrame) : list string :=
  List.filter (fun i => in_cols i (meta_columns self)) (meta_columns other).

(** The shared columns agree on the shared keys. *)
Definition meta_agrees (self other : IamDataFrame) : bool :=
  frame_equals
    (meta_loc_cols self (shared_keys self other) (shared_columns self other))
    (meta_loc_cols other (shared_keys self other) (shared_columns self other)).

(** The shared keys at which some shared column differs. *)
Definition conflicting_keys (self other : IamDataFrame) : list Key :=
  List.filter
    (fun k =>
       negb (frame_equals
               (meta_loc_cols self [k] (shared_columns self other))
               (meta_loc_cols other [k] (shared_columns self other))))
    (shared_keys self other).

(** Three scenarios; the two containers hold different variables and
    disagree on [exclude] for the third scenario only. *)
Definition table_three : IamDataFrame :=
  mkDf [ row "M" "S1" "World" "A" "U" 2010 1;
         row "M" "S2" "World" "A" "U" 2010 2;
         row "M" "S3" "World" "A" "U" 2010 3 ]
       year_col [] ["exclude"]
       [ mkMeta ("M", "S1") [CBool true];
         mkMeta ("M", "S2") [CBool false];
         mkMeta ("M", "S3") [CBool true] ].

Definition table_three_other : IamDataFrame :=
  mkDf [ row "M" "S1" "World" "B" "U" 2010 1;
         row "M" "S2" "World" "B" "U" 2010 2;
         row "M" "S3" "World" "B" "U" 2010 3 ]
       year_col [] ["exclude"]
       [ mkMeta ("M", "S1") [CBool true];
         mkMeta ("M", "S2") [CBool false];
         mkMeta ("M", "S3") [CBool false] ].

(** The filter specification [rename] builds from a mapping. *)
Definition rename_filters (mapping : mapping_t) : kwargs :=
  map (fun cm => (fst cm, dict_keys (snd cm))) mapping.

(** The partially renamed table: every column of the mapping replaced in
    the selected rows, before any merge. *)
Definition renamed_rows (self : IamDataFrame) (mapping : mapping_t)
    (rows : list bool) : list Row :=
  fold_left (fun d cm => replace_rows self (fst cm) (snd cm) d rows)
            mapping (data self).

(** The data dimensions of a container: region, variable, unit, the time
    column and the extra columns. *)
Definition data_dimensions (self : IamDataFrame) : list string :=
  ["region"; "variable"; "unit"; time_name (time_col self)] ++ extra_cols self.

(** The name-valued dimensions of a table whose filter is a plain
    [pattern_match] on the column: model, scenario, region, variable,
    unit and the extra columns, when the name is not also a column of
    [meta] or a key [_apply_filters] reads in another way. *)
Definition name_dimension (self : IamDataFrame) (col : string) : bool :=
  (in_cols col IAMC_IDX || in_cols col (extra_cols self))
  && negb (in_cols col (meta_columns self))
  && negb (in_cols col ["year"; "month"; "day"; "hour"; "time"; "level";
                        "regexp"; "value"]).

(** The name a row holds in a column, if it holds one. *)
Definition name_of (self : IamDataFrame) (col : string) (r : Row)
  : option string :=
  match data_cell self col r with
  | CStr s => Some s
  | _ => None
  end.

(** The effect of renaming in the column [col] on a scenario key. *)
Definition rekey (col : string) (d : rename_dict) (k : Key) : Key :=
  if in_cols col META_IDX then replace_in_key col d k else k.

(** Every key of the index of [meta] is the scenario key of a row. *)
Definition meta_covered (self : IamDataFrame) : Prop :=
  forall k, In k (meta_index self) ->
            exists r, In r (data self) /\ scenario_key r = k.

(** A filter that is one value selects the entries equal to it: a name
    under [pattern_match], a year under [years_match] and a timestamp
    under [datetime_match]. *)
Definition matches_itself (U : Utils) : Prop :=
  (forall x, exists f,
      pattern_match U (PList [PStr x]) PNone (PBool false) = OK f
      /\ f (CStr x) = true)
  /\ (forall z, exists f,
         years_match U (PList [PInt z]) = OK f /\ f z = true)
  /\ (forall z, exists f,
         datetime_match U (PList [PInt z]) = OK f /\ f z = true).

(** The rename dictionary [{a: b}] of one value. *)
Definition single_dict (a b : cell) : option rename_dict :=
  match a, b with
  | CStr x, CStr y => Some (str_dict [(x, y)])
  | CInt x, CInt y => Some (int_dict [(x, y)])
  | CTime x, CTime y => Some (int_dict [(x, y)])
  | _, _ => None
  end.

(** The dimensions in which a value can be renamed: a name in a name
    dimension, a year in the column [year] of a table in year mode, a
    timestamp in the column [time] of a table in datetime mode. *)
Definition renamable (self : IamDataFrame) (col : string) (a : cell) : bool :=
  match a with
  | CStr _ => name_dimension self col
  | CInt _ =>
      (col =? "year") && negb (is_datetime (time_col self))
      && negb (in_cols col (meta_columns self))
  | CTime _ =>
      (col =? "time") && is_datetime (time_col self)
      && negb (in_cols col (meta_columns self))
  | _ => false
  end.

(** Two regions with different variables. *)
Definition table_regions : IamDataFrame :=
  mkDf [ row "M" "S" "North" "A" "U" 2010 1;
         row "M" "S" "South" "B" "U" 2010 2 ]
       year_col [] ["exclude"] [mkMeta ("M", "S") [CBool false]].

(** A table whose [meta] has a column named [region], as [set_meta] adds
    it for an indicator of that name. *)
Definition table_region_meta : IamDataFrame :=
  mkDf [ row "M" "S" "North" "A" "U" 2010 1 ]
       year_col [] ["region"] [mkMeta ("M", "S") [CStr "North"]].

(** ** Notions used in the further properties of the filter engine *)

(** The value of [level] as the filter by [variable] reads it. *)
Definition level_arg (filters : kwargs) : pyval :=
  match get filters "level" with
  | Some l => l
  | None => PNone
  end.

(** [level] and [variable] are not split between two specifications: the
    filter by [variable] reads the entry [level], and the filter by
    [level] is skipped beside an entry [variable]. *)
Definition unsplit (A B : kwargs) : bool :=
  negb (in_cols "level" (keys A) && in_cols "variable" (keys B))
  && negb (in_cols "variable" (keys A) && in_cols "level" (keys B)).

(** ** Required variables *)

(** [index.difference(other)]: the keys of [index] that are not in
    [other], without repeats and sorted, as pandas returns them. *)
Definition index_difference (index other : list Key) : list Key :=
  sort_by (leb_of key_compare)
          (unique_by key_eqb
             (List.filter (fun k => negb (key_in k other)) index)).

(** The filter specification [require_variable] builds: [unit] and [year]
    are added when they are true in a condition, so that an empty unit or
    the year [0] adds nothing. *)
Definition require_criteria (variable unit year : pyval) : kwargs :=
  let criteria := [("variable", variable)] in
  let criteria :=
    if truthy unit then criteria ++ [("unit", unit)] else criteria in
  if truthy year then criteria ++ [("year", year)] else criteria.

Section RequirementEngine.

Variable U : Utils.

(** [IamDataFrame.require_variable(variable, unit, year, exclude_on_fail)];
    the frame returned is the list of its (model, scenario) rows. *)
Definition require_variable (self : IamDataFrame) (variable unit year : pyval)
    (exclude_on_fail : bool) : outcome (option (list Key)) :=
  let criteria := require_criteria variable unit year in
  match _apply_filters U self criteria with
  | Raise e => mkOutcome self [] (Raise e)
  | OK float64_empty =>
      (* [_meta_idx(self.data[keep])] on a frame without columns *)
      mkOutcome self [] (Raise (ColumnKeyError META_IDX))
  | OK (bool_array keep) =>
      let idx :=
        index_difference
          (meta_index self)
          (_meta_idx (map scenario_key (boolean_index (data self) keep))) in
      let n := List.length idx in
      if (n =? 0)%nat then
        mkOutcome self
          [log_info "All scenarios have the required variable `{}`"]
          (OK None)
      else
        let msg :=
          if (n =? 1)%nat
          then "{} scenario does not include required variable `{}`"
          else "{} scenarios do not include required variable `{}`" in
        if exclude_on_fail then
          match meta_loc_set self idx "exclude" (CBool true) with
          | Raise e => mkOutcome self [] (Raise e)
          | OK self' =>
              mkOutcome self'
                [log_info (msg ++ ", marked as `exclude: True` in metadata")]
                (OK (Some idx))
          end
        else mkOutcome self [log_info msg] (OK (Some idx))
  end.

End RequirementEngine.

(** A scenario key has a row among the rows a mask selects. *)
Definition has_row (self : IamDataFrame) (keep : list bool) (k : Key) : Prop :=
  exists r, In r (boolean_index (data self) keep) /\ scenario_key r = k.

(** ** Validation by criteria *)

(** A check of [validate] or [categorize], a dictionary from the names
    [up], [lo] and [year] to numbers, and the criteria, a dictionary from
    variables to checks. *)
Definition check_t := list (string * Q).
Definition criteria_t := list (string * check_t).

(** The exceptions of the criteria engine. *)
Inductive criteria_exn : Type :=
| unknown_checking_type (names : list string)
    (* ValueError 'Unknown checking type: {}' *)
| unknown_return_test (return_test : string)
    (* ValueError 'Unknown return test: {}' *)
| no_set_given
    (* TypeError: [set.union] or [set.intersection] of no set at all *)
| raised (e : exn).

(** A value or an exception of the criteria engine. *)
Definition checked (A : Type) : Type := (criteria_exn + A)%type.

(** The rows of a frame with their index labels.  The labels of [data]
    are unique; a row is labelled by its position. *)
Definition labelled := list (nat * Row).

Definition label_rows (df : list Row) : labelled :=
  combine (seq 0 (List.length df)) df.

(** Python sets of labels, as lists without repeats (the order in which
    a set is iterated is not specified). *)
Definition mem (i : nat) (s : list nat) : bool := existsb (Nat.eqb i) s.
Definition set_of (l : list nat) : list nat := unique_by Nat.eqb l.
Definition set_and (a b : list nat) : list nat :=
  List.filter (fun i => mem i b) a.
Definition set_or (a b : list nat) : list nat :=
  a ++ List.filter (fun i => negb (mem i a)) b.
Definition set_eqb (a b : list nat) : bool :=
  forallb (fun i => mem i b) a && forallb (fun i => mem i a) b.

(** [rows.loc[list(idx)]] *)
Definition loc (rows : labelled) (idx : list nat) : labelled :=
  flat_map (fun i => List.filter (fun lr => (fst lr =? i)%nat) rows) idx.

(** [rows.index[cond]] as a set. *)
Definition index_where (cond : Row -> bool) (rows : labelled) : list nat :=
  set_of (map fst (List.filter (fun lr => cond (snd lr)) rows)).

(** The object after a call, the log and the result of a method of the
    criteria engine. *)
Record criteria_outcome (A : Type) : Type := mkCriteriaOutcome {
  after : IamDataFrame;
  log_of : list log_record;
  result_of : checked A
}.
Arguments mkCriteriaOutcome {A} _ _ _.
Arguments after {A} _.
Arguments log_of {A} _.
Arguments result_of {A} _.

Section CriteriaEngine.

Variable U : Utils.

(** The column [year] of a row; in datetime mode [_check_rows] computes
    it from [time]. *)
Definition year_of (tc : time_col_t) (r : Row) : Z :=
  if is_datetime tc then ts_year U (time r) else time r.

(** [_check_rows(rows, check, in_range, return_test)] *)
Definition _check_rows (tc : time_col_t) (rows : labelled) (check : check_t)
    (in_range : bool) (return_test : string) : checked (list nat) :=
  let valid_checks := ["up"; "lo"; "year"] in
  if negb (forallb (fun k => in_cols k valid_checks) (keys check)) then
    inl (unknown_checking_type
           (List.filter (fun k => negb (in_cols k valid_checks)) (keys check)))
  else
    let where_idx :=
      match get check "year" with
      | Some y =>
          index_where (fun r => Qeq_bool (inject_Z (year_of tc r)) y) rows
      | None => set_of (map fst rows)
      end in
    let rows := loc rows where_idx in
    let up_op (b : Q) (r : Row) :=
      if in_range then Qle_bool (value r) b else negb (Qle_bool (value r) b) in
    let lo_op (b : Q) (r : Row) :=
      if in_range then Qle_bool b (value r) else negb (Qle_bool b (value r)) in
    let check_idx :=
      (match get check "up" with
       | Some b => [index_where (up_op b) rows]
       | None => []
       end)
      ++ (match get check "lo" with
          | Some b => [index_where (lo_op b) rows]
          | None => []
          end) in
    if return_test =? "any" then
      match check_idx with
      | [] => inl no_set_given
      | s :: others => inr (set_and where_idx (fold_left set_or others s))
      end
    else if return_test =? "all" then
      match check_idx with
      | [] => inl no_set_given
      | s :: others =>
          inr (if set_eqb where_idx (fold_left set_and others s)
               then where_idx else [])
      end
    else inl (unknown_return_test return_test).

(** [_df.groupby(META_IDX)]: the groups in the order of their keys. *)
Definition groupby_meta (rows : labelled) : list labelled :=
  map (fun k => List.filter (fun lr => key_eqb (scenario_key (snd lr)) k) rows)
      (sort_by (leb_of key_compare)
               (unique_by key_eqb (map (fun lr => scenario_key (snd lr)) rows))).

(** [for group in _df.groupby(META_IDX): idxs.append(_check_rows(...))] *)
Fixpoint check_groups (tc : time_col_t) (groups : list labelled)
    (check : check_t) (in_range : bool) (return_test : string)
  : checked (list (list nat)) :=
  match groups with
  | [] => inr []
  | g :: rest =>
      match _check_rows tc g check in_range return_test with
      | inl e => inl e
      | inr grp_idxs =>
          match check_groups tc rest check in_range return_test with
          | inl e => inl e
          | inr tl => inr (grp_idxs :: tl)
          end
      end
  end.

(** [for var, check in criteria.items(): ...] *)
Fixpoint criteria_loop (tc : time_col_t) (df : labelled)
    (criteria : criteria_t) (in_range : bool) (return_test : string)
  : checked (list (list nat)) :=
  match criteria with
  | [] => inr []
  | (var, check) :: rest =>
      let _df := List.filter (fun lr => variable (snd lr) =? var) df in
      match check_groups tc (groupby_meta _df) check in_range return_test with
      | inl e => inl e
      | inr idxs =>
          match criteria_loop tc df rest in_range return_test with
          | inl e => inl e
          | inr tl => inr (idxs ++ tl)
          end
      end
  end.

(** [_apply_criteria(df, criteria, in_range, return_test)] *)
Definition _apply_criteria (tc : time_col_t) (df : list Row)
    (criteria : criteria_t) (in_range : bool) (return_test : string)
  : checked (list Row) :=
  match criteria_loop tc (label_rows df) criteria in_range return_test with
  | inl e => inl e
  | inr idxs => inr (map snd (loc (label_rows df) (List.concat idxs)))
  end.

(** [IamDataFrame.validate(criteria, exclude_on_fail)] *)
Definition validate (self : IamDataFrame) (criteria : criteria_t)
    (exclude_on_fail : bool) : criteria_outcome (option (list Row)) :=
  match _apply_criteria (time_col self) (data self) criteria false "any" with
  | inl e => mkCriteriaOutcome self [] (inl e)
  | inr df =>
      match df with
      | [] => mkCriteriaOutcome self [] (inr None)
      | _ :: _ =>
          let log :=
            [log_info "{} of {} data points do not satisfy the criteria"] in
          if exclude_on_fail && (0 <? List.length df)%nat then
            let o := _exclude_on_fail self (_meta_idx (map scenario_key df)) in
            match returned o with
            | Raise e => mkCriteriaOutcome (self_after o) log (inl (raised e))
            | OK _ =>
                mkCriteriaOutcome (self_after o) (log ++ logged o)
                                  (inr (Some df))
            end
          else mkCriteriaOutcome self log (inr (Some df))
      end
  end.

(** [IamDataFrame.categorize(name, value, criteria)] without the plotting
    arguments; [name] is a string, so that [_new_meta_column] does not
    raise, and the column is created when [meta] does not have it. *)
Definition categorize (self : IamDataFrame) (name : string) (value : cell)
    (criteria : criteria_t) : criteria_outcome Datatypes.unit :=
  match _apply_criteria (time_col self) (data self) criteria true "all" with
  | inl e => mkCriteriaOutcome self [] (inl e)
  | inr rows =>
      let idx := _meta_idx (map scenario_key rows) in
      match idx with
      | [] =>
          mkCriteriaOutcome self [log_info "No scenarios satisfy the criteria"]
                            (inr tt)
      | _ :: _ =>
          match meta_loc_set self idx name value with
          | Raise e => mkCriteriaOutcome self [] (inl (raised e))
          | OK self' =>
              mkCriteriaOutcome self'
                [log_info "{} scenario{} categorized as `{}: {}`"] (inr tt)
          end
      end
  end.

End CriteriaEngine.

(** A check that names only [up], [lo] and [year] and gives a bound. *)
Definition well_formed (check : check_t) : bool :=
  forallb (fun k => in_cols k ["up"; "lo"; "year"]) (keys check)
  && (in_cols "up" (keys check) || in_cols "lo" (keys check)).

(** The row is in the year of the check, if the check names one. *)
Definition in_year (U : Utils) (tc : time_col_t) (check : check_t) (r : Row)
  : bool :=
  match get check "year" with
  | Some y => Qeq_bool (inject_Z (year_of U tc r)) y
  | None => true
  end.

(** The value of the row is above [up] or below [lo]. *)
Definition out_of_bounds (check : check_t) (r : Row) : bool :=
  match get check "up" with
  | Some b => negb (Qle_bool (value r) b)
  | None => false
  end
  || match get check "lo" with
     | Some b => negb (Qle_bool b (value r))
     | None => false
     end.

(** The value of the row is within the bounds the check gives. *)
Definition within_bounds (check : check_t) (r : Row) : bool :=
  match get check "up" with
  | Some b => Qle_bool (value r) b
  | None => true
  end
  && match get check "lo" with
     | Some b => Qle_bool b (value r)
     | None => true
     end.

(** The row fails the criteria: its variable has a check, the row is in
    the year of the check and its value is out of bounds. *)
Definition fails (U : Utils) (tc : time_col_t) (criteria : criteria_t)
    (r : Row) : Prop :=
  exists check,
    In (variable r, check) criteria
    /\ in_year U tc check r = true
    /\ out_of_bounds check r = true.

(** The scenario meets one check of the criteria: some variable with a
    check has rows of the scenario in the year of the check, and all of
    them are within the bounds. *)
Definition meets_one (U : Utils) (tc : time_col_t) (criteria : criteria_t)
    (rows : list Row) (k : Key) : Prop :=
  exists var check,
    In (var, check) criteria
    /\ (exists r, In r rows /\ scenario_key r = k /\ variable r = var
                  /\ in_year U tc check r = true)
    /\ (forall r, In r rows -> scenario_key r = k -> variable r = var ->
                  in_year U tc check r = true ->
                  within_bounds check r = true).

(** ** Notions used in the further properties of rename and append *)

(** The sum of the values of a table. *)
Definition total (rows : list Row) : Q :=
  fold_right Qplus 0%Q (map value rows).

(** A list is in the order of [leb]. *)
Fixpoint is_sorted {A : Type} (leb : A -> A -> bool) (l : list A) : bool :=
  match l with
  | [] => true
  | x :: rest =>
      match rest with
      | [] => true
      | y :: _ => leb x y && is_sorted leb rest
      end
  end.

(** ** Notions used in the further properties of append *)

(** The scenario keys of [other] that [self] does not have, as [append]
    computes them, and the columns of [other.meta] that [ret.meta] does
    not have. *)
Definition new_keys (self other : IamDataFrame) : list Key :=
  sort_by (leb_of key_compare)
    (unique_by key_eqb
       (List.filter (fun k => negb (key_in k (meta_index self)))
                    (meta_index other))).

Definition new_columns (ret other : IamDataFrame) : list string :=
  List.filter (fun i => negb (in_cols i (meta_columns ret)))
              (meta_columns other).

(** The long index occurs at least twice in a list of long indexes. *)
Definition occurs_twice (k : LongIdx) (l : list LongIdx) : Prop :=
  exists l1 l2, l = l1 ++ k :: l2 /\ In k l1.

(** The two steps of [append] on [meta].  For the scenarios both
    containers have, the columns of [other.meta] that [ret.meta] lacks
    are merged in ([ret.meta.merge(_meta, how='outer', ...)]). *)
Definition merge_shared (ret other : IamDataFrame) : IamDataFrame :=
  let cols := new_columns ret other in
  mkDf (data ret) (time_col ret) (extra_cols ret)
       (meta_columns ret ++ cols)
       (sort_by
          (fun a b => leb_of key_compare (meta_key a) (meta_key b))
          (map (fun m =>
                  mkMeta (meta_key m)
                    (map (fun c => meta_cell ret c m) (meta_columns ret)
                     ++ match List.find
                                (fun o => key_eqb (meta_key o) (meta_key m))
                                (meta other) with
                        | Some o => map (fun c => meta_cell other c o) cols
                        | None => map (fun _ => CNaN) cols
                        end))
               (meta ret))).

(** For the new scenarios the rows of [other.meta] are appended
    ([ret.meta.append(other.meta.loc[diff, :], sort=False)]). *)
Definition join_new (ret other : IamDataFrame) (diff : list Key)
  : IamDataFrame :=
  let cols := meta_columns ret ++ new_columns ret other in
  mkDf (data ret) (time_col ret) (extra_cols ret) cols
       (map (fun m =>
               mkMeta (meta_key m) (map (fun c => meta_cell ret c m) cols))
            (meta ret)
        ++ map (fun kc => mkMeta (fst kc) (snd kc))
               (meta_loc_cols other diff cols)).

(** The rows of [meta] of [A] are in [B] with their entries in the
    columns of [A], and [B] has no other row at a key of [A]. *)
Definition meta_kept (A B : IamDataFrame) : Prop :=
  (forall c, In c (meta_columns A) -> In c (meta_columns B))
  /\ (forall m, In m (meta A) ->
        exists m', In m' (meta B) /\ meta_key m' = meta_key m
                   /\ forall c, In c (meta_columns A) ->
                                meta_cell B c m' = meta_cell A c m)
  /\ (forall m', In m' (meta B) -> In (meta_key m') (meta_index A) ->
        exists m, In m (meta A) /\ meta_key m = meta_key m'
                  /\ forall c, In c (meta_columns A) ->
                               meta_cell B c m' = meta_cell A c m).

(** The rows of [meta] of [B] at the keys that [A] does not have are rows
    of [other], with their entries in the columns of [other]. *)
Definition meta_joined (A other B : IamDataFrame) : Prop :=
  forall m', In m' (meta B) -> ~ In (meta_key m') (meta_index A) ->
    exists o, In o (meta other) /\ meta_key o = meta_key m'
              /\ forall c, In c (meta_columns other) ->
                           meta_cell B c m' = meta_cell other c o.

(** ** Comparing containers *)

(** [df.data.set_index(df._LONG_IDX)]: the values by long index. *)
Definition to_series (rows : list Row) : Series :=
  map (fun r => (long_idx r, value r)) rows.

(** The table [meta] with every row filled to the columns. *)
Definition meta_frame (df : IamDataFrame) : list (Key * list cell) :=
  map (fun m => (meta_key m,
                 map (fun c => meta_cell df c m) (meta_columns df)))
      (meta df).

(** [self.meta.equals(other.meta)]: the same columns, the same index and
    the same entries, NaN equal to NaN at the same place. *)
Definition meta_equals (a b : IamDataFrame) : bool :=
  list_eqb String.eqb (meta_columns a) (meta_columns b)
  && frame_equals (meta_frame a) (meta_frame b).

(** [compare(left, right, drop_close, **kwargs)]: the outer join of the
    values of both tables on the long index, as rows (index, right, left),
    without the rows at which [left] is close to [right].  The order of
    the rows is that of the sorted union of the indexes.  Joining tables
    with different index columns or with a repeated long index is outside
    the model ([Unmodelled]). *)
Definition compare (left right : IamDataFrame) (drop_close : bool)
    (kw : isclose_kwargs)
  : result (list (LongIdx * option Q * option Q)) :=
  if negb (time_col_eqb (time_col left) (time_col right)
           && list_eqb String.eqb (extra_cols left) (extra_cols right)) then
    Raise (Unmodelled "compare of tables with different index columns")
  else if existsb (fun b => b) (duplicated idx_eqb (map long_idx (data left)))
          || existsb (fun b => b)
                     (duplicated idx_eqb (map long_idx (data right))) then
    Raise (Unmodelled "compare of a table with a repeated long index")
  else
    let ret := align (to_series (data right)) (to_series (data left)) in
    OK (if drop_close
        then List.filter (fun '(_, r, l) => negb (isclose kw l r)) ret
        else ret).

(** [IamDataFrame.equals(other)] for [other] an [IamDataFrame]. *)
Definition equals (self other : IamDataFrame) : result bool :=
  c <- compare self other true isclose_defaults ;;
  OK (match c with
      | [] => meta_equals self other
      | _ :: _ => false
      end).

(** The tables hold the same long indexes, and at each of them the value
    of the first is close to the value of the second:
    [abs(v - v') <= atol + rtol * abs(v')]. *)
Definition same_data (kw : isclose_kwargs) (self other : IamDataFrame)
  : Prop :=
  (forall k, In k (map long_idx (data self))
             <-> In k (map long_idx (data other)))
  /\ (forall r r', In r (data self) -> In r' (data other) ->
                   long_idx r = long_idx r' ->
                   (Qabs (value r - value r')
                    <= atol kw + rtol kw * Qabs (value r'))%Q).

(** The regions table with its rows in the other order. *)
Definition table_regions_swapped : IamDataFrame :=
  mkDf [ row "M" "S" "South" "B" "U" 2010 2;
         row "M" "S" "North" "A" "U" 2010 1 ]
       year_col [] ["exclude"] [mkMeta ("M", "S") [CBool false]].

(** ** Interpolation *)

(** An entry of the index of the pivot table of [interpolate], the long
    index without the time column, written as the long index it has at
    the time [t] of the call. *)
Definition at_time (t : Z) (r : Row) : LongIdx :=
  (model r, scenario r, region r, variable r, unit r, t, extra r).

(** One row of [pivot_table(index, columns=[time_col], aggfunc=np.sum)]:
    the times at which the timeseries has rows, in order, each with the
    sum of the values of these rows. *)
Definition pivot_row (rows : list Row) (t : Z) (k : LongIdx)
  : list (Z * Q) :=
  let own := List.filter (fun r => idx_eqb (at_time t r) k) rows in
  map (fun t' =>
         (t', fold_left Qplus
                (map value (List.filter (fun r => (time r =? t')%Z) own))
                0%Q))
      (sort_by Z.leb (unique_by Z.eqb (map time own))).

Section Interpolation.

(** [fill_series(x, time)] of [pyam.utils], which is not part of
    [core.py]: the value of a timeseries at a time, NaN being [None].  It
    is given the entries of the row of the pivot table that are defined;
    the columns at which the row holds NaN are not passed to it. *)
Variable fill_series : list (Z * Q) -> Z -> option Q.

(** [IamDataFrame.interpolate(time)] for [time] an integer (a year, or a
    timestamp in datetime mode): the container after the call. *)
Definition interpolate (self : IamDataFrame) (t : Z) : IamDataFrame :=
  let index :=
    sort_by (leb_of idx_compare)
            (unique_by idx_eqb (map (at_time t) (data self))) in
  (* drop time-rows where values are already defined *)
  let df :=
    List.filter
      (fun k => negb (existsb (fun r => idx_eqb (long_idx r) k) (data self)))
      index in
  let fill_values :=
    flat_map (fun k => match fill_series (pivot_row (data self) t k) t with
                       | Some v => [row_of_idx k v]
                       | None => []
                       end)
             df in
  set_data self (data self ++ fill_values).

End Interpolation.

(** ** Concatenation *)

Section ConcatEngine.

Variable U : Utils.

(** [for df in dfs: _df.append(df, inplace=True)] on the copy [_df] of
    the first container. *)
Fixpoint concat_loop (_df : IamDataFrame) (dfs : list IamDataFrame)
  : result IamDataFrame :=
  match dfs with
  | [] => OK _df
  | df :: rest =>
      let a := append U _df df false true in
      match returned a with
      | Raise e => Raise e
      | OK _ => concat_loop (self_after a) rest
      end
  end.

(** [concat(dfs)] for a list of [IamDataFrame]s; of an empty list it
    returns [None]. *)
Definition concat (dfs : list IamDataFrame) : result (option IamDataFrame) :=
  match dfs with
  | [] => OK None
  | df :: rest => _df <- concat_loop df rest ;; OK (Some _df)
  end.

End ConcatEngine.

(** ** Meta indicators *)

(** The [ValueError]s of [set_meta]. *)
Inductive set_meta_exn : Type :=
| must_pass_name
    (* 'Must pass a name or use a named pd.Series' *)
| column_in_data (name : string)
    (* 'A column `{name}` already exists in `data`!' *)
| non_unique_index
    (* "non-unique ['model', 'scenario'] index!" *)
| non_existing_scenarios (diff : list Key)
    (* "adding metadata for non-existing scenarios '{}'!" *)
| set_meta_unmodelled (what : string).
    (* a behaviour of pandas outside this model *)

(** [x.notna()] at one entry. *)
Definition notna (v : cell) : bool :=
  match v with CNaN => false | _ => true end.

(** The entry of a series indexed by (model, scenario) at a key. *)
Definition series_at (s : list (Key * cell)) (k : Key) : option cell :=
  match List.find (fun kv => key_eqb (fst kv) k) s with
  | Some kv => Some (snd kv)
  | None => None
  end.

(** [IamDataFrame.set_meta(meta, name)] for [meta] a [pandas.Series]
    indexed by model and scenario, given as its entries [meta_series] in
    order and its name; [name] is [None] or a string.  Every exception is raised
    before [self] is changed, so the result is the exception or the
    container after the call.  Combining with the column of a [meta]
    table whose index is not unique is outside the model. *)
Definition set_meta (self : IamDataFrame) (meta_series : list (Key * cell))
    (series_name name : option string) : set_meta_exn + IamDataFrame :=
  (* check that name is valid and doesn't conflict with data columns *)
  let chosen :=
    match name with
    | Some s => if s =? "" then series_name else Some s
    | None => series_name
    end in
  match chosen with
  | None => inl must_pass_name
  | Some name =>
      if in_cols name (data_columns self) then inl (column_in_data name)
      else
        let index := map fst meta_series in
        (* raise error if index is not unique *)
        if existsb (fun b => b) (duplicated key_eqb index) then
          inl non_unique_index
        else
          (* check if trying to add model-scenario index not existing in self *)
          let diff := index_difference index (meta_index self) in
          match diff with
          | _ :: _ => inl (non_existing_scenarios diff)
          | [] =>
              if existsb (fun b => b) (duplicated key_eqb (meta_index self))
              then inl (set_meta_unmodelled "meta with a repeated index")
              else
                let '(cols, i) :=
                  match index_of name (meta_columns self) with
                  | Some i => (meta_columns self, i)
                  | None => (meta_columns self ++ [name],
                             List.length (meta_columns self))
                  end in
                inr (mkDf (data self) (time_col self) (extra_cols self) cols
                       (map (fun m =>
                               match series_at meta_series (meta_key m) with
                               | Some v =>
                                   if notna v
                                   then mkMeta (meta_key m)
                                               (set_nth i v (meta_cells m))
                                   else m
                               | None => m
                               end)
                            (meta self)))
          end
  end.

(** Every row of [meta] has at most one entry per column. *)
Definition meta_rows_fit (df : IamDataFrame) : Prop :=
  forall m, In m (meta df) ->
            (List.length (meta_cells m) <= List.length (meta_columns df))%nat.

(** The entry [set_meta] leaves in the column at a row: the entry of the
    series at the key of the row when it has one that is not NaN, and
    the entry the row had otherwise. *)
Definition combine_first (df : IamDataFrame) (meta_series : list (Key * cell))
    (name : string) (m : MetaRow) : cell :=
  match series_at meta_series (meta_key m) with
  | Some v => if notna v then v else meta_cell df name m
  | None => meta_cell df name m
  end.

(** * Properties *)

(** ** Lists, keys and masks *)

Lemma key_eqb_eq (a b : Key) : key_eqb a b = true <-> a = b.
Proof.
  destruct a as [a1 a2], b as [b1 b2]; unfold key_eqb; simpl.
  rewrite andb_true_iff, !String.eqb_eq. split.
  - intros [-> ->]; reflexivity.
  - intros H; inversion H; auto.
Qed.

Lemma key_eqb_refl (a : Key) : key_eqb a a = true.
Proof. apply key_eqb_eq; reflexivity. Qed.

Lemma key_in_In (k : Key) (idx : list Key) : key_in k idx = true <-> In k idx.
Proof.
  unfold key_in. rewrite existsb_exists. split.
  - intros [x [Hin Heq]]. apply key_eqb_eq in Heq. subst; assumption.
  - intros Hin. exists k. split; [assumption | apply key_eqb_refl].
Qed.

Section UniqueBy.

Context {A : Type} (eqb : A -> A -> bool).
Hypothesis eqb_eq : forall x y, eqb x y = true <-> x = y.

Lemma unique_by_In (x : A) (l : list A) : In x (unique_by eqb l) <-> In x l.
Proof.
  induction l as [|a l IH]; simpl; [tauto|].
  rewrite filter_In, IH. split.
  - intros [H | [H _]]; auto.
  - intros [H | H]; [left; assumption|].
    destruct (eqb a x) eqn:E.
    + left. apply eqb_eq; assumption.
    + right. split; [assumption | reflexivity].
Qed.

Lemma unique_by_NoDup (l : list A) : NoDup (unique_by eqb l).
Proof.
  induction l as [|a l IH]; simpl; constructor.
  - rewrite filter_In. intros [_ H].
    assert (E : eqb a a = true) by (apply eqb_eq; reflexivity).
    rewrite E in H; discriminate.
  - apply NoDup_filter; assumption.
Qed.

Lemma unique_by_nil (l : list A) : unique_by eqb l = [] -> l = [].
Proof. destruct l; simpl; [reflexivity | discriminate]. Qed.

End UniqueBy.

Lemma logical_and_map {A : Type} (f g : A -> bool) (l : list A) :
  logical_and (map f l) (map g l) = map (fun x => f x && g x) l.
Proof. induction l; simpl; [reflexivity | f_equal; assumption]. Qed.

Lemma logical_and_nth (a b : list bool) (i : nat) :
  nth i (logical_and a b) false = nth i a false && nth i b false.
Proof.
  revert b i. induction a as [|x a IH]; intros [|y b] [|i]; simpl;
    try reflexivity; try (rewrite andb_false_r; reflexivity).
  apply IH.
Qed.

Lemma boolean_index_map {A : Type} (f : A -> bool) (l : list A) :
  boolean_index l (map f l) = List.filter f l.
Proof.
  induction l as [|x l IH]; simpl; [reflexivity|].
  destruct (f x); rewrite IH; reflexivity.
Qed.

Lemma boolean_index_In {A : Type} (l : list A) (m : list bool) (x : A) :
  In x (boolean_index l m) -> In x l.
Proof.
  revert m. induction l as [|y l IH]; intros [|b m]; simpl; try tauto.
  destruct b; simpl; intros H.
  - destruct H; [left; assumption | right; eapply IH; eassumption].
  - right; eapply IH; eassumption.
Qed.

Lemma filter_partition_perm {A : Type} (f : A -> bool) (l : list A) :
  Permutation (List.filter f l ++ List.filter (fun x => negb (f x)) l) l.
Proof.
  induction l as [|x l IH]; simpl; [constructor|].
  destruct (f x); simpl.
  - constructor; assumption.
  - apply Permutation_sym, Permutation_cons_app, Permutation_sym; assumption.
Qed.

Lemma repeat_true_map {A : Type} (l : list A) :
  repeat true (List.length l) = map (fun _ => true) l.
Proof. induction l; simpl; [reflexivity | f_equal; assumption]. Qed.

(** ** The filter engine *)

Section FilterProperties.

Variable U : Utils.

(** Every sub-mask decides each row on its own. *)
Lemma keep_col_pointwise self filters regexp col values m :
  keep_col U self filters regexp col values = OK (Some m) ->
  exists f, m = map f (data self).
Proof.
  unfold keep_col. intros H.
  repeat match type of H with
         | context [if ?c then _ else _] => destruct c
         end;
    try discriminate;
    match type of H with
    | bind ?c _ = _ => destruct c; simpl in H; try discriminate
    end;
    try (match type of H with
         | bind ?c _ = _ => destruct c; simpl in H; try discriminate
         end);
    injection H as <-; eexists; reflexivity.
Qed.

Lemma apply_loop_sub_masks self filters regexp items keep :
  apply_loop U self filters regexp items keep =
  (subs <- sub_masks U self filters regexp items ;;
   OK (fold_left np_logical_and subs keep)).
Proof.
  revert keep. induction items as [|[col values] rest IH]; intros keep; simpl;
    [reflexivity|].
  destruct (is_None values); [apply IH|].
  destruct (keep_col U self filters regexp col values) as [[m|]|e]; simpl;
    [ | | reflexivity];
    rewrite IH; destruct (sub_masks U self filters regexp rest); reflexivity.
Qed.

(** Once the array is of booleans it stays so, and its entries are the
    conjunction of the sub-masks applied. *)
Lemma fold_np_logical_and_bool subs l :
  fold_left np_logical_and subs (bool_array l)
  = bool_array (fold_left logical_and subs l).
Proof.
  revert l. induction subs as [|m subs IH]; intros l; simpl;
    [reflexivity | apply IH].
Qed.

Lemma fold_np_logical_and subs keep :
  fold_left np_logical_and subs keep
  = match subs with
    | [] => keep
    | _ :: _ => bool_array (fold_left logical_and subs (entries keep))
    end.
Proof.
  destruct subs as [|m subs]; [reflexivity|]. simpl.
  apply fold_np_logical_and_bool.
Qed.

Lemma entries_np_array_True n : entries (np_array_True n) = repeat true n.
Proof. destruct n; reflexivity. Qed.

Lemma np_array_True_bool n l :
  np_array_True n = bool_array l -> n <> O /\ l = repeat true n.
Proof.
  destruct n; simpl; [discriminate|]. intros H; injection H as <-.
  split; [discriminate | reflexivity].
Qed.

Lemma apply_loop_pointwise self filters regexp items keep mask f :
  keep = map f (data self) ->
  apply_loop U self filters regexp items (bool_array keep)
  = OK (bool_array mask) ->
  exists g, mask = map g (data self).
Proof.
  revert keep f. induction items as [|[col values] rest IH]; intros keep f Hk;
    simpl.
  - intros H; injection H as <-. exists f; assumption.
  - destruct (is_None values); [apply (IH _ f Hk)|].
    destruct (keep_col U self filters regexp col values) as [[m|]|e] eqn:E;
      simpl; [ | apply (IH _ f Hk) | discriminate].
    destruct (keep_col_pointwise _ _ _ _ _ _ E) as [g ->]. subst keep.
    unfold np_logical_and. cbn [entries].
    rewrite logical_and_map. eapply IH; reflexivity.
Qed.

(** [_apply_filters] by the sub-masks of the specification. *)
Lemma apply_filters_sub_masks self filters :
  _apply_filters U self filters =
  (subs <- sub_masks U self (filter_items filters) (regexp_arg filters)
                     (filter_items filters) ;;
   OK (fold_left np_logical_and subs
                 (np_array_True (List.length (data self))))).
Proof. unfold _apply_filters. apply apply_loop_sub_masks. Qed.

(** The float64 array is returned on a table without rows when no entry
    applies a sub-mask, and only then. *)
Lemma apply_filters_float self filters :
  _apply_filters U self filters = OK float64_empty <->
  data self = []
  /\ sub_masks U self (filter_items filters) (regexp_arg filters)
               (filter_items filters) = OK [].
Proof.
  rewrite apply_filters_sub_masks.
  destruct (sub_masks U self (filter_items filters) (regexp_arg filters)
                      (filter_items filters)) as [subs|e]; simpl.
  - rewrite fold_np_logical_and. destruct subs as [|m subs].
    + destruct (data self); simpl.
      * split; [intros _; split; reflexivity | reflexivity].
      * split; [discriminate | intros [H _]; discriminate].
    + split; [discriminate | intros [_ H]; discriminate].
  - split; [discriminate | intros [_ H]; discriminate].
Qed.

(** A mask that [_apply_filters] returns is the one the loop builds from
    the array of [True] of the length of the table. *)
Lemma apply_filters_mask self filters mask :
  _apply_filters U self filters = OK (bool_array mask) ->
  apply_loop U self (filter_items filters) (regexp_arg filters)
             (filter_items filters)
             (bool_array (repeat true (List.length (data self))))
  = OK (bool_array mask).
Proof.
  rewrite apply_filters_sub_masks, apply_loop_sub_masks.
  destruct (sub_masks U self (filter_items filters) (regexp_arg filters)
                      (filter_items filters)) as [subs|e]; simpl;
    [|discriminate].
  rewrite fold_np_logical_and, fold_np_logical_and_bool.
  destruct subs as [|m subs].
  - intros H; injection H as H. apply np_array_True_bool in H.
    destruct H as [_ ->]. reflexivity.
  - rewrite entries_np_array_True. intros H; exact H.
Qed.

(** Conversely, the array the loop builds from the array of [True] is the
    one [_apply_filters] returns, unless that is the float64 array. *)
Lemma apply_filters_of_loop self filters a :
  apply_loop U self (filter_items filters) (regexp_arg filters)
             (filter_items filters)
             (bool_array (repeat true (List.length (data self)))) = OK a ->
  _apply_filters U self filters = OK a
  \/ _apply_filters U self filters = OK float64_empty.
Proof.
  rewrite apply_filters_sub_masks, apply_loop_sub_masks.
  destruct (sub_masks U self (filter_items filters) (regexp_arg filters)
                      (filter_items filters)) as [subs|e]; simpl;
    [|discriminate].
  rewrite fold_np_logical_and_bool, fold_np_logical_and.
  destruct subs as [|m subs].
  - destruct (List.length (data self)); simpl; intros H; auto.
  - rewrite entries_np_array_True. intros H; left; exact H.
Qed.

Lemma apply_filters_raise self filters e :
  _apply_filters U self filters = Raise e <->
  apply_loop U self (filter_items filters) (regexp_arg filters)
             (filter_items filters)
             (bool_array (repeat true (List.length (data self)))) = Raise e.
Proof.
  rewrite apply_filters_sub_masks, apply_loop_sub_masks.
  destruct (sub_masks U self (filter_items filters) (regexp_arg filters)
                      (filter_items filters)) as [subs|e']; simpl;
    split; intros H; try discriminate; exact H.
Qed.

Lemma apply_filters_pointwise self filters mask :
  _apply_filters U self filters = OK (bool_array mask) ->
  exists g, mask = map g (data self).
Proof.
  intros H. apply apply_filters_mask in H.
  apply (apply_loop_pointwise _ _ _ _ _ _ (fun _ => true)
           (repeat_true_map (data self)) H).
Qed.

Lemma fold_logical_and_nth subs keep i :
  nth i (fold_left logical_and subs keep) false =
  nth i keep false && forallb (fun m => nth i m false) subs.
Proof.
  revert keep. induction subs as [|m subs IH]; intros keep; simpl.
  - rewrite andb_true_r; reflexivity.
  - rewrite IH, logical_and_nth, andb_assoc; reflexivity.
Qed.

Lemma nth_repeat_true n i : nth i (repeat true n) false = (i <? n)%nat.
Proof.
  revert i. induction n as [|n IH]; intros [|i]; simpl; try reflexivity.
  rewrite IH. reflexivity.
Qed.

End FilterProperties.

Lemma meta_loc_ok (m : list MetaRow) (idx : list Key) :
  (forall k, In k idx -> In k (map meta_key m)) ->
  exists rows, meta_loc m idx = OK rows.
Proof.
  induction idx as [|k idx IH]; intros H; simpl; [eexists; reflexivity|].
  destruct (List.filter (fun r => key_eqb (meta_key r) k) m) as [|x found] eqn:E.
  - exfalso. assert (Hk : In k (map meta_key m)) by (apply H; left; reflexivity).
    apply in_map_iff in Hk. destruct Hk as [r [Hr Hin]].
    assert (Hf : In r (List.filter (fun r => key_eqb (meta_key r) k) m)).
    { apply filter_In. split; [assumption | apply key_eqb_eq; assumption]. }
    rewrite E in Hf. destruct Hf.
  - destruct IH as [rows ->]; [intros; apply H; right; assumption|].
    simpl. eexists; reflexivity.
Qed.

Lemma meta_loc_keys (m : list MetaRow) (idx : list Key) (rows : list MetaRow) :
  meta_loc m idx = OK rows ->
  forall k, In k (map meta_key rows) <-> In k idx.
Proof.
  revert rows. induction idx as [|k idx IH]; intros rows; simpl.
  - intros H; injection H as <-. simpl; tauto.
  - remember (List.filter (fun r => key_eqb (meta_key r) k) m) as found eqn:E.
    destruct found as [|x found]; [discriminate|].
    destruct (meta_loc m idx) as [tl|e]; [|discriminate].
    unfold bind. intros H; injection H as <-. intros k'.
    assert (Hall : forall r, In r (x :: found) -> meta_key r = k).
    { intros r Hr. rewrite E in Hr. apply filter_In in Hr.
      apply key_eqb_eq, Hr. }
    change (x :: found ++ tl) with ((x :: found) ++ tl).
    rewrite map_app, in_app_iff, (IH tl eq_refl k'). split.
    + intros [H | H]; [left | right; assumption].
      apply in_map_iff in H. destruct H as [r [<- Hr]]. symmetry; auto.
    + intros [<- | H]; [left | right; assumption].
      apply in_map_iff. exists x. split; [apply Hall|]; left; reflexivity.
Qed.

Lemma filter_key_unique (m : list MetaRow) (k : Key) :
  NoDup (map meta_key m) ->
  map meta_key (List.filter (fun r => key_eqb (meta_key r) k) m) =
  if key_in k (map meta_key m) then [k] else [].
Proof.
  induction m as [|x m IH]; simpl; [reflexivity|].
  intros Hnd. inversion Hnd as [|? ? Hx Hm]; subst.
  unfold key_in in *. simpl.
  destruct (key_eqb (meta_key x) k) eqn:E.
  - apply key_eqb_eq in E. subst k. rewrite key_eqb_refl. simpl.
    rewrite (IH Hm).
    destruct (existsb (key_eqb (meta_key x)) (map meta_key m)) eqn:E2;
      [|reflexivity].
    exfalso. apply Hx. apply key_in_In. exact E2.
  - assert (E' : key_eqb k (meta_key x) = false).
    { destruct (key_eqb k (meta_key x)) eqn:E2; [|reflexivity].
      apply key_eqb_eq in E2. subst k. rewrite key_eqb_refl in E.
      discriminate. }
    rewrite E'. simpl. apply (IH Hm).
Qed.

Lemma meta_loc_unique (m : list MetaRow) (idx : list Key) (rows : list MetaRow) :
  NoDup (map meta_key m) ->
  meta_loc m idx = OK rows ->
  map meta_key rows = idx.
Proof.
  intros Hnd. revert rows. induction idx as [|k idx IH]; intros rows; simpl.
  - intros H; injection H as <-. reflexivity.
  - pose proof (filter_key_unique m k Hnd) as Hk.
    remember (List.filter (fun r => key_eqb (meta_key r) k) m) as found eqn:E.
    destruct found as [|x found]; [discriminate|].
    destruct (meta_loc m idx) as [tl|e]; [|discriminate].
    unfold bind. intros H; injection H as <-.
    change (x :: found ++ tl) with ((x :: found) ++ tl).
    rewrite map_app, (IH tl eq_refl), Hk.
    destruct (key_in k (map meta_key m)); [reflexivity|].
    simpl in Hk. discriminate.
Qed.

Lemma make_index_In (rows : list Row) (k : Key) :
  In k (_make_index rows) <-> exists r, In r rows /\ scenario_key r = k.
Proof.
  unfold _make_index. rewrite (unique_by_In key_eqb key_eqb_eq), in_map_iff.
  split; intros [r [H1 H2]]; exists r; auto.
Qed.

Section FilterTheorems.

Variable U : Utils.

Lemma keep_col_unsupported self filters regexp col values :
  supported_key self col = false ->
  keep_col U self filters regexp col values = Raise (UnsupportedFilterError col).
Proof.
  unfold supported_key, keep_col. intros H.
  repeat (apply orb_false_iff in H; destruct H as [H ?]).
  repeat match goal with
         | E : ?c = false |- context [if ?c then _ else _] => rewrite E
         end.
  reflexivity.
Qed.

Lemma apply_loop_app self filters regexp xs ys keep :
  apply_loop U self filters regexp (xs ++ ys) keep =
  (k <- apply_loop U self filters regexp xs keep ;;
   apply_loop U self filters regexp ys k).
Proof.
  revert keep. induction xs as [|[col values] xs IH]; intros keep; simpl;
    [reflexivity|].
  destruct (is_None values); [apply IH|].
  destruct (keep_col U self filters regexp col values) as [[m|]|e]; simpl;
    [apply IH | apply IH | reflexivity].
Qed.

(** The container a successful [filter] builds from the mask. *)
Lemma filter_ok self (keep inplace : bool) filters mask :
  keys_in_meta self = true ->
  _apply_filters U self filters = OK (bool_array mask) ->
  let _keep := if keep then mask else logical_not mask in
  let d := boolean_index (data self) _keep in
  exists m,
    meta_loc (meta self) (_make_index d) = OK m /\
    filter U self (PBool keep) inplace filters =
    mkOutcome (if inplace then set_meta_rows (set_data self d) m else self)
              (match _make_index d with
               | [] => [log_warning "Filtered IamDataFrame is empty!"]
               | _ => []
               end)
              (OK (if inplace then None
                   else Some (set_meta_rows (set_data self d) m))).
Proof.
  intros Hinv Hmask _keep d.
  destruct (meta_loc_ok (meta self) (_make_index d)) as [m Hm].
  { intros k Hk. apply make_index_In in Hk. destruct Hk as [r [Hr <-]].
    apply boolean_index_In in Hr.
    unfold keys_in_meta in Hinv. rewrite forallb_forall in Hinv.
    apply key_in_In. apply Hinv; assumption. }
  exists m. split; [assumption|].
  unfold filter. simpl. rewrite Hmask. simpl.
  fold _keep. fold d. rewrite Hm. destruct inplace; reflexivity.
Qed.

(** On the float64 array [filter] raises, whatever [keep] is. *)
Lemma filter_float self (keep inplace : bool) filters :
  _apply_filters U self filters = OK float64_empty ->
  filter U self (PBool keep) inplace filters
  = mkOutcome self []
      (Raise (if keep
              then if inplace then Unmodelled "data without columns"
                   else ColumnKeyError ["model"]
              else InvertTypeError)).
Proof.
  intros H. unfold filter. simpl. rewrite H.
  destruct keep, inplace; reflexivity.
Qed.

End FilterTheorems.

Section FilterClaims.

Variable U : Utils.

(** X20.  On a container whose scenario keys are all in [meta], the calls
    [filter(keep=True)] and [filter(keep=False)] with one specification
    either raise the same exception of [_apply_filters]; or, where
    [_apply_filters] returns the float64 array, the table has no rows, no
    entry of the specification applies a sub-mask and both calls raise,
    the second a [TypeError]; or both succeed and split the rows of the
    table: the first keeps the rows at which the mask holds, the second
    the rows at which it does not, the two results together are a
    rearrangement of the table, and no row is in both.  The mask is,
    position by position, the conjunction of the sub-masks of the entries
    of the specification. *)
Theorem filter_keep_partitions (self : IamDataFrame) (inplace : bool)
    (filters : kwargs) :
  keys_in_meta self = true ->
  match _apply_filters U self filters with
  | Raise e =>
      returned (filter U self (PBool true) inplace filters) = Raise e
      /\ returned (filter U self (PBool false) inplace filters) = Raise e
  | OK float64_empty =>
      data self = []
      /\ sub_masks U self (filter_items filters) (regexp_arg filters)
                   (filter_items filters) = OK []
      /\ (exists e,
            returned (filter U self (PBool true) inplace filters) = Raise e)
      /\ filter U self (PBool false) inplace filters
         = mkOutcome self [] (Raise InvertTypeError)
  | OK (bool_array mask) =>
      exists kept dropped subs,
        result_container inplace (filter U self (PBool true) inplace filters)
        = Some kept
        /\ result_container inplace
             (filter U self (PBool false) inplace filters)
           = Some dropped
        /\ data kept = boolean_index (data self) mask
        /\ data dropped = boolean_index (data self) (logical_not mask)
        /\ Permutation (data kept ++ data dropped) (data self)
        /\ (forall r, In r (data kept) -> ~ In r (data dropped))
        /\ sub_masks U self (filter_items filters) (regexp_arg filters)
                     (filter_items filters) = OK subs
        /\ forall i,
             nth i mask false =
             (i <? List.length (data self))%nat
             && forallb (fun m => nth i m false) subs
  end.
Proof.
  intros Hinv.
  destruct (_apply_filters U self filters) as [[mask|]|e] eqn:Hmask.
  - destruct (filter_ok U self true inplace filters mask Hinv Hmask)
      as [m1 [_ H1]].
    destruct (filter_ok U self false inplace filters mask Hinv Hmask)
      as [m2 [_ H2]].
    simpl in H1, H2.
    destruct (apply_filters_pointwise U self filters mask Hmask) as [g Hg].
    pose proof (apply_filters_mask U self filters mask Hmask) as Hsub.
    rewrite apply_loop_sub_masks in Hsub.
    destruct (sub_masks U self (filter_items filters) (regexp_arg filters)
                        (filter_items filters)) as [subs|e] eqn:Hs;
      [|discriminate].
    simpl in Hsub. rewrite fold_np_logical_and_bool in Hsub.
    injection Hsub as Hsub.
    exists (set_meta_rows (set_data self (boolean_index (data self) mask)) m1),
      (set_meta_rows
         (set_data self (boolean_index (data self) (logical_not mask))) m2),
      subs.
    rewrite H1, H2. unfold result_container. simpl.
    repeat split.
    + destruct inplace; reflexivity.
    + destruct inplace; reflexivity.
    + subst mask. unfold logical_not. rewrite map_map, !boolean_index_map.
      apply filter_partition_perm.
    + subst mask. unfold logical_not. rewrite map_map, !boolean_index_map.
      intros r Hk Hd. apply filter_In in Hk. apply filter_In in Hd.
      destruct Hk as [_ Hk]. destruct Hd as [_ Hd].
      rewrite Hk in Hd. discriminate.
    + intros i. rewrite <- Hsub, fold_logical_and_nth, nth_repeat_true.
      reflexivity.
  - destruct (proj1 (apply_filters_float U self filters) Hmask) as [Hd Hs].
    split; [exact Hd|]. split; [exact Hs|].
    rewrite !(filter_float U self _ inplace filters Hmask).
    split; [eexists; reflexivity | reflexivity].
  - unfold filter. simpl. rewrite Hmask. split; reflexivity.
Qed.

(** X21.  On a container whose scenario keys are all in [meta], a call of
    [filter] with a boolean [keep] either raises the exception of
    [_apply_filters] and leaves the container as it was; or raises on the
    float64 array that [_apply_filters] returns for a table without rows
    when no entry applies a sub-mask; or yields a container whose [meta]
    index holds exactly the scenario keys of its rows (and is
    [_make_index] of them when the index of [meta] had no repeats).  An
    empty result is then not an error: [meta] is empty and the only trace
    is one warning of the logger. *)
Theorem filter_meta_matches_data (self : IamDataFrame) (keep inplace : bool)
    (filters : kwargs) :
  keys_in_meta self = true ->
  let o := filter U self (PBool keep) inplace filters in
  match _apply_filters U self filters with
  | Raise e => o = mkOutcome self [] (Raise e)
  | OK float64_empty =>
      data self = []
      /\ sub_masks U self (filter_items filters) (regexp_arg filters)
                   (filter_items filters) = OK []
      /\ exists e, returned o = Raise e
  | OK (bool_array _) =>
      exists ret,
        result_container inplace o = Some ret
        /\ (forall k, In k (meta_index ret)
                      <-> exists r, In r (data ret) /\ scenario_key r = k)
        /\ (NoDup (meta_index self) -> meta_index ret = _make_index (data ret))
        /\ (data ret = [] ->
            meta ret = []
            /\ logged o = [log_warning "Filtered IamDataFrame is empty!"])
        /\ (data ret <> [] -> logged o = [])
  end.
Proof.
  intros Hinv o. subst o.
  destruct (_apply_filters U self filters) as [[mask|]|e] eqn:Hmask.
  - destruct (filter_ok U self keep inplace filters mask Hinv Hmask)
      as [m [Hm H]].
    cbv zeta in Hm, H. rewrite H. clear H.
    set (d := boolean_index (data self)
                            (if keep then mask else logical_not mask)) in *.
    exists (set_meta_rows (set_data self d) m).
    unfold result_container, meta_index. simpl.
    split; [destruct inplace; reflexivity|].
    split; [|split; [|split]].
    + intros k. rewrite (meta_loc_keys _ _ _ Hm k). apply make_index_In.
    + intros Hnd. apply (meta_loc_unique _ _ _ Hnd Hm).
    + intros Hd. rewrite Hd in *. simpl in Hm. injection Hm as <-.
      split; reflexivity.
    + intros Hd. destruct d as [|r d']; [contradiction|]. reflexivity.
  - destruct (proj1 (apply_filters_float U self filters) Hmask) as [Hd Hs].
    split; [exact Hd|]. split; [exact Hs|].
    rewrite (filter_float U self keep inplace filters Hmask).
    eexists; reflexivity.
  - unfold filter. simpl. rewrite Hmask. reflexivity.
Qed.

(** C8, as amended.  When the specification of a call of [filter] with a
    boolean [keep] has an entry, other than [regexp], whose value is not
    [None] and whose key [_apply_filters] does not support for the table,
    the call raises and leaves the container as it was; when the entries
    before it raise nothing, the exception is the [UnsupportedFilterError]
    of that key. *)
Theorem filter_unsupported_key (self : IamDataFrame) (keep : pyval)
    (inplace : bool) (filters before after : kwargs) (col : string)
    (values : pyval) :
  isinstance_bool keep = true ->
  filter_items filters = before ++ (col, values) :: after ->
  is_None values = false ->
  supported_key self col = false ->
  (exists e, filter U self keep inplace filters = mkOutcome self [] (Raise e))
  /\ (forall subs,
        sub_masks U self (filter_items filters) (regexp_arg filters) before
        = OK subs ->
        filter U self keep inplace filters
        = mkOutcome self [] (Raise (UnsupportedFilterError col))).
Proof.
  intros Hkeep Hitems Hval Hcol.
  assert (Hloop : forall k,
             apply_loop U self (filter_items filters) (regexp_arg filters)
                        ((col, values) :: after) k
             = Raise (UnsupportedFilterError col)).
  { intros k. simpl. rewrite Hval, (keep_col_unsupported U _ _ _ _ _ Hcol).
    reflexivity. }
  assert (Hf : forall e, _apply_filters U self filters = Raise e ->
               filter U self keep inplace filters = mkOutcome self [] (Raise e)).
  { intros e He. unfold filter. rewrite Hkeep, He. reflexivity. }
  assert (Happ : _apply_filters U self filters =
                 (k <- apply_loop U self (filter_items filters)
                        (regexp_arg filters) before
                        (np_array_True (List.length (data self))) ;;
                  Raise (UnsupportedFilterError col))).
  { unfold _apply_filters. fold (filter_items filters) (regexp_arg filters).
    rewrite Hitems at 2. rewrite apply_loop_app.
    destruct (apply_loop U self (filter_items filters) (regexp_arg filters)
                         before (np_array_True (List.length (data self))));
      simpl; [apply Hloop | reflexivity]. }
  split.
  - destruct (apply_loop U self (filter_items filters) (regexp_arg filters)
                         before (np_array_True (List.length (data self))))
      as [k|e]; simpl in Happ; eexists; apply Hf; exact Happ.
  - intros subs Hsubs. apply Hf. rewrite Happ, apply_loop_sub_masks, Hsubs.
    reflexivity.
Qed.

(** C9.  A call of [filter] whose [keep] is not a [bool] raises the
    [ValueError] of the first lines of the method, whatever the
    specification and the matchers, and the container is left as it
    was. *)
Theorem filter_rejects_non_bool_keep (self : IamDataFrame) (keep : pyval)
    (inplace : bool) (filters : kwargs) :
  isinstance_bool keep = false ->
  filter U self keep inplace filters
  = mkOutcome self [] (Raise (ValueError (keep_not_valid keep))).
Proof. intros H. unfold filter. rewrite H. reflexivity. Qed.

End FilterClaims.

(** C2 at a table without rows.  [_apply_filters] without an entry returns
    the float64 array of [np.array([])]: [filter(keep=True)] raises the
    [KeyError] of the column [model] and [filter(keep=False)] the
    [TypeError] of [~_keep], where the two calls should each return the
    container without rows.  The same holds when the only entries are
    [None]. *)
Lemma filter_of_empty_table_raises :
  keys_in_meta table_empty = true
  /\ _apply_filters pyam_utils table_empty [] = OK float64_empty
  /\ filter pyam_utils table_empty (PBool true) false []
     = mkOutcome table_empty [] (Raise (ColumnKeyError ["model"]))
  /\ filter pyam_utils table_empty (PBool false) false []
     = mkOutcome table_empty [] (Raise InvertTypeError)
  /\ filter pyam_utils table_empty (PBool false) true [("region", PNone)]
     = mkOutcome table_empty [] (Raise InvertTypeError).
Proof. repeat split; vm_compute; reflexivity. Qed.

(** C7 at an empty result.  Filtering [table_components] by a variable
    that no row has returns the container without rows, with one warning;
    filtering that container again to an empty result is an error when no
    entry applies a sub-mask: the [KeyError] of the column [model] for
    [keep=True], the [TypeError] of [~_keep] for [keep=False].  With an
    entry that applies a sub-mask the call returns the container, with
    the warning. *)
Lemma filter_of_empty_result_raises :
  filter pyam_utils table_components (PBool true) false [("variable", PStr "B")]
  = mkOutcome table_components
              [log_warning "Filtered IamDataFrame is empty!"]
              (OK (Some table_empty))
  /\ filter pyam_utils table_empty (PBool true) false [("variable", PNone)]
     = mkOutcome table_empty [] (Raise (ColumnKeyError ["model"]))
  /\ filter pyam_utils table_empty (PBool false) false [("variable", PNone)]
     = mkOutcome table_empty [] (Raise InvertTypeError)
  /\ filter pyam_utils table_empty (PBool true) false [("variable", PStr "B")]
     = mkOutcome table_empty
                 [log_warning "Filtered IamDataFrame is empty!"]
                 (OK (Some table_empty)).
Proof. repeat split; vm_compute; reflexivity. Qed.

(** A run of X20: the components of [A] and the other rows. *)
Lemma filter_keep_partitions_witness :
  keys_in_meta table_components = true
  /\ exists kept dropped,
       result_container false
         (filter pyam_utils table_components (PBool true) false
                 [("variable", PStr "A|*")]) = Some kept
       /\ result_container false
            (filter pyam_utils table_components (PBool false) false
                    [("variable", PStr "A|*")]) = Some dropped
       /\ Permutation (data kept ++ data dropped) (data table_components)
       /\ (forall r, In r (data kept) -> ~ In r (data dropped)).
Proof.
  split; [reflexivity|].
  pose proof (filter_keep_partitions pyam_utils table_components false
                [("variable", PStr "A|*")] eq_refl) as H.
  destruct (_apply_filters pyam_utils table_components
                           [("variable", PStr "A|*")]) as [[mask|]|e] eqn:E;
    [|vm_compute in E; discriminate|vm_compute in E; discriminate].
  destruct H as (kept & dropped & subs & H1 & H2 & _ & _ & H5 & H6 & _).
  exists kept, dropped. repeat split; assumption.
Defined.

(** A run of X21: no row has the variable [B]; the result is empty, with
    an empty [meta] and one warning. *)
Lemma filter_meta_matches_data_witness :
  keys_in_meta table_components = true
  /\ exists ret,
       result_container true
         (filter pyam_utils table_components (PBool true) true
                 [("variable", PStr "B")]) = Some ret
       /\ data ret = [] /\ meta ret = []
       /\ logged (filter pyam_utils table_components (PBool true) true
                         [("variable", PStr "B")])
          = [log_warning "Filtered IamDataFrame is empty!"].
Proof.
  split; [reflexivity|].
  pose proof (filter_meta_matches_data pyam_utils table_components true true
                [("variable", PStr "B")] eq_refl) as H.
  cbv zeta in H.
  destruct (_apply_filters pyam_utils table_components
                           [("variable", PStr "B")]) as [[mask|]|e] eqn:E;
    [|vm_compute in E; discriminate|vm_compute in E; discriminate].
  destruct H as (ret & H1 & _ & _ & H4 & _).
  exists ret. split; [exact H1|].
  assert (Hd : data ret = []).
  { vm_compute in H1. injection H1 as <-. reflexivity. }
  destruct (H4 Hd) as [Hm Hl]. repeat split; assumption.
Defined.

(** A run of the amended C8: the key [foo] after a supported entry. *)
Lemma filter_unsupported_key_witness :
  filter pyam_utils table_components (PBool true) false
         [("variable", PStr "A"); ("foo", PInt 1)]
  = mkOutcome table_components [] (Raise (UnsupportedFilterError "foo")).
Proof.
  eapply (proj2 (filter_unsupported_key pyam_utils table_components
                   (PBool true) false
                   [("variable", PStr "A"); ("foo", PInt 1)]
                   [("variable", PStr "A")] [] "foo" (PInt 1)
                   eq_refl eq_refl eq_refl eq_refl)).
  vm_compute. reflexivity.
Defined.

(** C8 as stated fails: the keys [foo] and [value] are none of the keys
    the description lists, yet [filter(foo=None)] and [filter(value=5)]
    raise nothing; the first keeps every row, the second filters on the
    column [value] of the data. *)
Lemma filter_undescribed_key_accepted :
  described_key table_components "foo" = false
  /\ returned (filter pyam_utils table_components (PBool true) false
                      [("foo", PNone)])
     = OK (Some table_components)
  /\ described_key table_components "value" = false
  /\ exists ret,
       returned (filter pyam_utils table_components (PBool true) false
                        [("value", PFloat 5)]) = OK (Some ret)
       /\ map variable (data ret) = ["A"].
Proof.
  split; [reflexivity|]. split; [reflexivity|]. split; [reflexivity|].
  eexists. split; [vm_compute; reflexivity | reflexivity].
Defined.

(** A run of C9: [keep=0] is refused in place and nothing changes. *)
Lemma filter_rejects_non_bool_keep_witness :
  filter pyam_utils table_components (PInt 0) true [("variable", PStr "A")]
  = mkOutcome table_components []
              (Raise (ValueError (keep_not_valid (PInt 0)))).
Proof.
  apply (filter_rejects_non_bool_keep pyam_utils table_components (PInt 0)
           true [("variable", PStr "A")]).
  reflexivity.
Defined.

(** C10 at [level=0]: alone it keeps the one variable of depth 0; with
    [variable=None] beside it, the entry [level] is skipped because
    [variable] is a key of the specification, and every row is kept. *)
Lemma level_dropped_beside_variable_None :
  _apply_filters pyam_utils table_components [("level", PInt 0)]
  = OK (bool_array [true; false; false])
  /\ _apply_filters pyam_utils table_components
                    [("level", PInt 0); ("variable", PNone)]
     = OK (bool_array [true; true; true])
  /\ _apply_filters pyam_utils table_components
                    [("variable", PNone); ("level", PInt 0)]
     = OK (bool_array [true; true; true]).
Proof. repeat split; vm_compute; reflexivity. Qed.

(** ** The consistency check *)

Lemma list_eqb_eq {A : Type} (eqb : A -> A -> bool) :
  (forall x y, eqb x y = true <-> x = y) ->
  forall a b, list_eqb eqb a b = true <-> a = b.
Proof.
  intros Heq. induction a as [|x a IH]; intros [|y b]; simpl;
    try (split; [discriminate | discriminate]); [tauto|].
  rewrite andb_true_iff, Heq, IH. split.
  - intros [-> ->]; reflexivity.
  - intros H; inversion H; auto.
Qed.

Lemma idx_eqb_eq (a b : LongIdx) : idx_eqb a b = true <-> a = b.
Proof.
  destruct a as [[[[[[m1 s1] r1] v1] u1] t1] e1].
  destruct b as [[[[[[m2 s2] r2] v2] u2] t2] e2].
  unfold idx_eqb. rewrite !andb_true_iff, !String.eqb_eq, Z.eqb_eq.
  rewrite (list_eqb_eq String.eqb String.eqb_eq). split.
  - intros [[[[[[-> ->] ->] ->] ->] ->] ->]. reflexivity.
  - intros H; inversion H; subst. repeat split.
Qed.

Lemma insert_sorted_perm {A : Type} (leb : A -> A -> bool) (x : A) (l : list A) :
  Permutation (insert_sorted leb x l) (x :: l).
Proof.
  induction l as [|y l IH]; simpl; [apply Permutation_refl|].
  destruct (leb x y); [apply Permutation_refl|].
  eapply perm_trans; [apply perm_skip, IH | apply perm_swap].
Qed.

Lemma sort_by_perm {A : Type} (leb : A -> A -> bool) (l : list A) :
  Permutation (sort_by leb l) l.
Proof.
  induction l as [|x l IH]; simpl; [constructor|].
  eapply perm_trans; [apply insert_sorted_perm | apply perm_skip, IH].
Qed.

Lemma sort_by_In {A : Type} (leb : A -> A -> bool) (l : list A) (x : A) :
  In x (sort_by leb l) <-> In x l.
Proof.
  split; apply Permutation_in;
    [apply sort_by_perm | apply Permutation_sym, sort_by_perm].
Qed.

Lemma union_index_In (a b : Series) (k : LongIdx) :
  In k (union_index a b) <-> In k (map fst a) \/ In k (map fst b).
Proof.
  unfold union_index.
  rewrite sort_by_In, (unique_by_In idx_eqb idx_eqb_eq), in_app_iff.
  reflexivity.
Qed.

Lemma series_get_None (s : Series) (k : LongIdx) :
  series_get s k = None <-> ~ In k (map fst s).
Proof.
  unfold series_get. induction s as [|[k' v] s IH]; simpl; [tauto|].
  destruct (idx_eqb k' k) eqn:E.
  - apply idx_eqb_eq in E. subst. split; [discriminate | intros H; tauto].
  - rewrite IH. split; [|tauto].
    intros H [H1 | H1]; [|tauto].
    subst. rewrite (proj2 (idx_eqb_eq k k) eq_refl) in E. discriminate.
Qed.

Lemma existsb_map_negb_false {A : Type} (f : A -> bool) (l : list A) :
  existsb (fun b => b) (map (fun x => negb (f x)) l) = false
  <-> forall x, In x l -> f x = true.
Proof.
  induction l as [|x l IH]; simpl; [tauto|].
  rewrite orb_false_iff, IH, negb_false_iff. split.
  - intros [H1 H2] y [<- | Hy]; auto.
  - intros H; split; [apply H; left; reflexivity | intros y Hy; apply H; auto].
Qed.

Lemma index_of_app_new (col : string) (cols : list string) :
  index_of col cols = None ->
  index_of col (cols ++ [col]) = Some (List.length cols).
Proof.
  induction cols as [|c cols IH]; simpl.
  - rewrite String.eqb_refl. reflexivity.
  - destruct (c =? col); [discriminate|].
    destruct (index_of col cols); [discriminate|].
    intros _. rewrite (IH eq_refl). reflexivity.
Qed.

Lemma nth_set_nth (i : nat) (v : cell) (l : list cell) :
  nth i (set_nth i v l) CNaN = v.
Proof.
  revert l. induction i as [|i IH]; intros [|x l]; simpl; auto.
Qed.

(** [self.meta.loc[idx, col] = v] on keys of the index: nothing but
    [meta] changes, the index is the same, and the rows at the keys of
    [idx] hold [v] in the column. *)
Lemma meta_loc_set_ok (self : IamDataFrame) (idx : list Key) (col : string)
    (v : cell) :
  (forall k, In k idx -> In k (meta_index self)) ->
  exists self',
    meta_loc_set self idx col v = OK self'
    /\ data self' = data self
    /\ meta_index self' = meta_index self
    /\ forall m, In m (meta self') ->
                 In (meta_key m) idx -> meta_cell self' col m = v.
Proof.
  intros Hin. unfold meta_loc_set.
  destruct (List.find (fun k => negb (key_in k (map meta_key (meta self)))) idx)
    as [k|] eqn:E.
  { apply find_some in E. destruct E as [Hk E]. apply negb_true_iff in E.
    apply Hin, key_in_In in Hk. unfold meta_index in Hk.
    rewrite Hk in E. discriminate. }
  set (ci := match index_of col (meta_columns self) with
             | Some i => (meta_columns self, i)
             | None => (meta_columns self ++ [col],
                        List.length (meta_columns self))
             end).
  assert (Hci : index_of col (fst ci) = Some (snd ci)).
  { subst ci. destruct (index_of col (meta_columns self)) eqn:Ei; simpl;
      [assumption | apply index_of_app_new; assumption]. }
  destruct ci as [cols i]. simpl in Hci.
  eexists. split; [reflexivity|]. simpl. split; [reflexivity|]. split.
  - unfold meta_index. simpl. rewrite map_map. apply map_ext.
    intros m. destruct (key_in (meta_key m) idx); reflexivity.
  - intros m Hm Hk. apply in_map_iff in Hm. destruct Hm as [m0 [<- Hm0]].
    destruct (key_in (meta_key m0) idx) eqn:Ek.
    + unfold meta_cell. simpl. rewrite Hci. apply nth_set_nth.
    + apply key_in_In in Hk. rewrite Hk in Ek. discriminate.
Qed.

Section AggregationClaims.

Variable U : Utils.

(** C1, as amended.  [check_aggregate] passes on the exception of a
    collaborator, and returns [None] when there are no components.
    Otherwise, with the existing rows and the aggregate aligned on the
    union of their indexes: it returns [None] exactly when every entry of
    the union is close, [numpy.isclose(existing, multiplier * aggregate)];
    an entry that one side lacks holds NaN there and is never close; and
    when some entry is not close it returns the entries that are not close
    with their existing value and aggregate, and with [exclude_on_fail]
    every row of [meta] whose scenario key has such an entry holds
    [exclude = True], the data and the index of [meta] staying as they
    were. *)
Theorem check_aggregate_outcome (self : IamDataFrame)
    (target components method : pyval) (exclude_on_fail : bool)
    (multiplier : Q) (kw : isclose_kwargs) :
  let o := check_aggregate U self target components method exclude_on_fail
                           multiplier kw in
  match _aggregate U self target components method with
  | Raise e => o = mkOutcome self [] (Raise e)
  | OK None => o = mkOutcome self [] (OK None)
  | OK (Some df_components) =>
      match _apply_filters U self [("variable", target)] with
      | Raise e => o = mkOutcome self [] (Raise e)
      | OK float64_empty => exists e, o = mkOutcome self [] (Raise e)
      | OK (bool_array rows) =>
          match _group_and_agg U (boolean_index (data self) rows)
                               (PList []) method with
          | Raise e => o = mkOutcome self [] (Raise e)
          | OK df_var =>
              let close k :=
                isclose kw (series_get df_var k)
                        (scale multiplier (series_get df_components k)) in
              let report := mismatches kw multiplier df_var df_components in
              (returned o = OK None
               <-> forall k, In k (union_index df_var df_components) ->
                             close k = true)
              /\ (forall k, In k (union_index df_var df_components) ->
                            series_get df_var k = None
                            \/ series_get df_components k = None ->
                            close k = false)
              /\ (returned o <> OK None ->
                  report <> []
                  /\ (exclude_on_fail = false ->
                      returned o = OK (Some report) /\ self_after o = self)
                  /\ (exclude_on_fail = true ->
                      (forall x, In x report ->
                                 In (idx_key (fst (fst x))) (meta_index self)) ->
                      returned o = OK (Some report)
                      /\ data (self_after o) = data self
                      /\ meta_index (self_after o) = meta_index self
                      /\ forall m x,
                           In m (meta (self_after o)) -> In x report ->
                           meta_key m = idx_key (fst (fst x)) ->
                           meta_cell (self_after o) "exclude" m = CBool true))
          end
      end
  end.
Proof.
  intros o. subst o. unfold check_aggregate, _meta_idx.
  destruct (_aggregate U self target components method) as [[comp|]|e];
    try reflexivity.
  destruct (_apply_filters U self [("variable", target)]) as [[rows|]|e];
    try reflexivity; [|eexists; reflexivity].
  destruct (_group_and_agg U (boolean_index (data self) rows) (PList []) method)
    as [var|e]; try reflexivity.
  cbv zeta.
  set (bad := fun x : LongIdx * option Q * option Q =>
                let '(_, v, c) := x in negb (isclose kw v (scale multiplier c))).
  assert (Hrep : boolean_index (align var comp) (map bad (align var comp))
                 = mismatches kw multiplier var comp).
  { rewrite boolean_index_map. reflexivity. }
  assert (Hall : existsb (fun b => b) (map bad (align var comp)) = false
                 <-> forall k, In k (union_index var comp) ->
                       isclose kw (series_get var k)
                               (scale multiplier (series_get comp k)) = true).
  { unfold align. rewrite map_map.
    exact (existsb_map_negb_false
             (fun k => isclose kw (series_get var k)
                               (scale multiplier (series_get comp k)))
             (union_index var comp)). }
  assert (Hne : existsb (fun b => b) (map bad (align var comp)) = true ->
                mismatches kw multiplier var comp <> []).
  { intros Hex Hnil. apply existsb_exists in Hex.
    destruct Hex as [b [Hb ->]]. apply in_map_iff in Hb.
    destruct Hb as [x [Hx Hin]].
    assert (Hf : In x (mismatches kw multiplier var comp)).
    { apply filter_In. split; [assumption|].
      destruct x as [[k v] c]. exact Hx. }
    rewrite Hnil in Hf. destruct Hf. }
  change (map (fun '(_, v, c) => negb (isclose kw v (scale multiplier c)))
              (align var comp)) with (map bad (align var comp)).
  rewrite Hrep.
  split; [|split].
  - destruct (existsb (fun b => b) (map bad (align var comp))) eqn:Hex.
    + split.
      * intros H. exfalso. destruct exclude_on_fail; simpl in H.
        -- destruct (returned (_exclude_on_fail self _)); discriminate.
        -- discriminate.
      * intros H. apply Hall in H. discriminate.
    + split; [intros _; apply Hall; reflexivity | reflexivity].
  - intros k Hk Hone. apply union_index_In in Hk.
    destruct (series_get var k) as [x|] eqn:Ev;
      destruct (series_get comp k) as [y|] eqn:Ec; simpl.
    + destruct Hone; discriminate.
    + reflexivity.
    + reflexivity.
    + exfalso. apply series_get_None in Ev. apply series_get_None in Ec.
      tauto.
  - destruct (existsb (fun b => b) (map bad (align var comp))) eqn:Hex;
      [|intros H; exfalso; apply H; reflexivity].
    intros _. split; [apply Hne; reflexivity|]. split.
    + intros ->. split; reflexivity.
    + intros -> Hkeys.
      destruct (meta_loc_set_ok self
                  (unique_by key_eqb
                     (map (fun '(k, _, _) => idx_key k)
                          (mismatches kw multiplier var comp)))
                  "exclude" (CBool true)) as [self' [Hset [Hd [Hi Hc]]]].
      { intros k Hk. apply -> (unique_by_In key_eqb key_eqb_eq) in Hk.
        apply in_map_iff in Hk. destruct Hk as [[[k0 v] c] [<- Hx]].
        apply (Hkeys _ Hx). }
      unfold _exclude_on_fail. rewrite Hset. simpl.
      split; [reflexivity|]. split; [assumption|]. split; [assumption|].
      intros m x Hm Hx Hk. apply Hc; [assumption|].
      apply <- (unique_by_In key_eqb key_eqb_eq). apply in_map_iff.
      exists x. split; [|assumption].
      destruct x as [[k0 v] c]. simpl in Hk. symmetry; exact Hk.
Qed.

End AggregationClaims.

(** The example of the description: components that sum to the existing
    row pass the check. *)
Example check_aggregate_components_sum :
  returned (check_aggregate pyam_utils table_components (PStr "A") PNone
                            (PStr "sum") false 1 (mkClose 0 0 false))
  = OK None.
Proof. vm_compute. reflexivity. Qed.

(** C1 as stated fails: in [table_gap] the one index entry that the
    existing rows and the aggregate share is within tolerance, yet the
    check reports the entry of 2011, which the existing rows lack. *)
Lemma check_aggregate_reports_one_sided_entry :
  exists df_var df_components,
    _aggregate pyam_utils table_gap (PStr "A") PNone (PStr "sum")
    = OK (Some df_components)
    /\ _group_and_agg pyam_utils
         (boolean_index (data table_gap) [true; false; false])
         (PList []) (PStr "sum") = OK df_var
    /\ _apply_filters pyam_utils table_gap [("variable", PStr "A")]
       = OK (bool_array [true; false; false])
    /\ two_sided_within isclose_defaults 1 df_var df_components = true
    /\ returned (check_aggregate pyam_utils table_gap (PStr "A") PNone
                                 (PStr "sum") false 1 isclose_defaults)
       = OK (Some [(("M", "S", "World", "A", "U", 2011%Z, []), None,
                    Some 3%Q)]).
Proof.
  eexists. eexists.
  split; [vm_compute; reflexivity|].
  split; [vm_compute; reflexivity|].
  split; [vm_compute; reflexivity|].
  split; vm_compute; reflexivity.
Defined.

(** ** Append *)

Lemma duplicated_from_NoDup {A : Type} (eqb : A -> A -> bool) :
  (forall x y, eqb x y = true <-> x = y) ->
  forall l seen,
    NoDup l -> (forall x, In x l -> ~ In x seen) ->
    boolean_index l (duplicated_from eqb seen l) = [].
Proof.
  intros Heq. induction l as [|x l IH]; intros seen Hnd Hseen; simpl;
    [reflexivity|].
  inversion Hnd as [|? ? Hx Hl]; subst.
  destruct (existsb (eqb x) seen) eqn:E.
  - exfalso. apply existsb_exists in E. destruct E as [y [Hy E]].
    apply Heq in E. subst y. apply (Hseen x); [left; reflexivity | assumption].
  - apply IH; [assumption|].
    intros y Hy [<- | Hs]; [contradiction|].
    apply (Hseen y); [right; assumption | assumption].
Qed.

Lemma duplicated_NoDup (l : list LongIdx) :
  NoDup l -> boolean_index l (duplicated idx_eqb l) = [].
Proof.
  intros H. apply (duplicated_from_NoDup idx_eqb idx_eqb_eq); [assumption|].
  intros x _ [].
Qed.

Section AppendClaims.

Variable U : Utils.

(** C5, as amended.  For two containers in the same time format that
    share a scenario key: when a column of [meta] both have differs on a
    shared key and [ignore_meta_conflict] is [False], [append] raises the
    [MetaConflictError] and leaves [self] as it was; when the shared
    columns agree on the shared keys (or conflicts are ignored), the extra
    columns are the same and no long index occurs twice in the rows of
    both, [append] succeeds and the data of the result are the rows of
    both. *)
Theorem append_meta_conflict (self other : IamDataFrame)
    (ignore_meta_conflict inplace : bool) :
  time_col_eqb (time_col self) (time_col other) = true ->
  shared_keys self other <> [] ->
  let o := append U self other ignore_meta_conflict inplace in
  (meta_agrees self other = false -> ignore_meta_conflict = false ->
   exists scenarios,
     o = mkOutcome self [] (Raise (MetaConflictError scenarios)))
  /\ (meta_agrees self other = true \/ ignore_meta_conflict = true ->
      list_eqb String.eqb (extra_cols self) (extra_cols other) = true ->
      NoDup (map long_idx (data self ++ data other)) ->
      exists ret,
        result_container inplace o = Some ret
        /\ data ret = sort_data U (data self ++ data other) (_LONG_IDX self)).
Proof.
  intros Htime Hshared o. subst o. unfold append. rewrite Htime. simpl.
  fold (shared_keys self other).
  destruct (shared_keys self other) as [|k0 ks] eqn:Ek; [contradiction|].
  rewrite <- Ek. fold (shared_columns self other).
  fold (meta_agrees self other).
  split.
  - intros Hagree ->. rewrite Hagree. simpl. eexists. reflexivity.
  - intros Hok Hextra Hnd.
    assert (Hc : negb ignore_meta_conflict && negb (meta_agrees self other)
                 = false).
    { destruct Hok as [-> | ->]; simpl;
        [apply andb_false_r | reflexivity]. }
    rewrite Hc.
    match goal with
    | |- context [match ?d with [] => ?a | _ :: _ => ?b end] =>
        set (ret := match d with [] => a | _ :: _ => b end)
    end.
    assert (Hd : data ret = data self)
      by (subst ret; destruct (sort_by _ _); reflexivity).
    assert (He : extra_cols ret = extra_cols self)
      by (subst ret; destruct (sort_by _ _); reflexivity).
    assert (Ht : time_col ret = time_col self)
      by (subst ret; destruct (sort_by _ _); reflexivity).
    rewrite He, Hextra, Hd. simpl.
    rewrite (duplicated_NoDup _ Hnd).
    unfold _LONG_IDX. rewrite He, Ht.
    destruct inplace; eexists; (split; [reflexivity|]); reflexivity.
Qed.

End AppendClaims.

(** A run of the amended C5 on the two containers of three scenarios:
    the conflict is raised; when it is ignored the rows are joined. *)
Lemma append_meta_conflict_witness :
  (exists scenarios,
     append pyam_utils table_three table_three_other false false
     = mkOutcome table_three [] (Raise (MetaConflictError scenarios)))
  /\ exists ret,
       result_container false
         (append pyam_utils table_three table_three_other true false)
       = Some ret
       /\ List.length (data ret) = 6%nat.
Proof.
  pose proof (append_meta_conflict pyam_utils table_three table_three_other
                false false eq_refl) as H1.
  pose proof (append_meta_conflict pyam_utils table_three table_three_other
                true false eq_refl) as H2.
  cbv zeta in H1, H2.
  assert (Hs : shared_keys table_three table_three_other <> [])
    by (vm_compute; discriminate).
  split.
  - apply (proj1 (H1 Hs)); reflexivity.
  - destruct (proj2 (H2 Hs)) as [ret [Hr Hd]].
    + right; reflexivity.
    + reflexivity.
    + vm_compute. repeat constructor; simpl; intuition discriminate.
    + exists ret. split; [assumption|]. rewrite Hd. reflexivity.
Defined.

(** C5 as stated fails twice.  A container appended to itself agrees with
    itself on every column of [meta], yet [append] raises for the repeated
    rows.  And for the two containers of three scenarios, whose [meta]
    differ at the third scenario only, the message lists the first two
    scenarios and not the third. *)
Lemma append_agreeing_meta_can_fail :
  (shared_keys table_components table_components <> []
   /\ meta_agrees table_components table_components = true
   /\ exists rows,
        returned (append pyam_utils table_components table_components
                         false false)
        = Raise (DuplicateRowError rows))
  /\ (conflicting_keys table_three table_three_other = [("M", "S3")]
      /\ returned (append pyam_utils table_three table_three_other false false)
         = Raise (MetaConflictError [("M", "S1"); ("M", "S2")])).
Proof.
  split; [split; [vm_compute; discriminate | split; [reflexivity|]]|].
  - eexists. vm_compute. reflexivity.
  - split; vm_compute; reflexivity.
Defined.

(** ** Rename *)

Lemma in_cols_In (c : string) (cols : list string) :
  in_cols c cols = true <-> In c cols.
Proof.
  unfold in_cols. rewrite existsb_exists. split.
  - intros [x [Hx E]]. apply String.eqb_eq in E. subst; assumption.
  - intros H. exists c. split; [assumption | apply String.eqb_refl].
Qed.

Lemma long_idx_row_of_idx (k : LongIdx) (v : Q) :
  long_idx (row_of_idx k v) = k.
Proof. destruct k as [[[[[[m s] r] va] u] t] e]. reflexivity. Qed.

Lemma value_row_of_idx (k : LongIdx) (v : Q) : value (row_of_idx k v) = v.
Proof. destruct k as [[[[[[m s] r] va] u] t] e]. reflexivity. Qed.

Lemma row_of_idx_long_idx (r : Row) : row_of_idx (long_idx r) (value r) = r.
Proof. destruct r. reflexivity. Qed.

Lemma Qplus_0_l_eq (q : Q) : Qplus 0 q = q.
Proof.
  destruct q as [n d]. unfold Qplus. simpl. rewrite Z.mul_1_r. reflexivity.
Qed.

Lemma groupby_sum_keys (rows : list Row) :
  map long_idx (groupby_sum rows)
  = sort_by (leb_of idx_compare) (unique_by idx_eqb (map long_idx rows)).
Proof.
  unfold groupby_sum. rewrite map_map.
  rewrite (map_ext _ (fun k => k)); [apply map_id|].
  intros k. apply long_idx_row_of_idx.
Qed.

(** The merged table has one row per long index of the input. *)
Lemma groupby_sum_NoDup (rows : list Row) :
  NoDup (map long_idx (groupby_sum rows)).
Proof.
  rewrite groupby_sum_keys.
  eapply Permutation_NoDup;
    [apply Permutation_sym, sort_by_perm
    | apply (unique_by_NoDup idx_eqb idx_eqb_eq)].
Qed.

Lemma groupby_sum_key_In (rows : list Row) (k : LongIdx) :
  In k (map long_idx (groupby_sum rows)) <-> In k (map long_idx rows).
Proof.
  rewrite groupby_sum_keys, sort_by_In.
  apply (unique_by_In idx_eqb idx_eqb_eq).
Qed.

(** Each of its rows holds the sum of the group of its long index. *)
Lemma groupby_sum_value (rows : list Row) (r : Row) :
  In r (groupby_sum rows) -> value r = group_sum rows (long_idx r).
Proof.
  unfold groupby_sum. intros H. apply in_map_iff in H.
  destruct H as [k [<- _]].
  rewrite value_row_of_idx, long_idx_row_of_idx. reflexivity.
Qed.

(** A row that is alone in its group is a row of the merged table. *)
Lemma groupby_sum_single (rows : list Row) (r : Row) :
  In r rows ->
  List.filter (fun x => idx_eqb (long_idx x) (long_idx r)) rows = [r] ->
  In r (groupby_sum rows).
Proof.
  intros Hin Hone. unfold groupby_sum. apply in_map_iff.
  exists (long_idx r). split.
  - unfold group_sum. rewrite Hone. simpl. rewrite Qplus_0_l_eq.
    apply row_of_idx_long_idx.
  - apply sort_by_In. apply (unique_by_In idx_eqb idx_eqb_eq).
    apply in_map. assumption.
Qed.

Lemma rename_loop_renamed (df : IamDataFrame) (rows idx : list bool)
    (items : mapping_t) (m : list MetaRow) (d : list Row)
    (m' : list MetaRow) (d' : list Row) :
  rename_loop df rows idx items m d = (m', d', None) ->
  d' = fold_left (fun d cm => replace_rows df (fst cm) (snd cm) d rows) items d.
Proof.
  revert m d. induction items as [|[col mp] items IH]; intros m d;
    cbn [rename_loop fold_left fst snd].
  - intros H; inversion H; reflexivity.
  - destruct (in_cols col META_IDX).
    + destruct (existsb _ _); [discriminate | apply IH].
    + destruct (negb _); [discriminate | apply IH].
Qed.

Section RenameClaims.

Variable U : Utils.

(** C6, as amended.  When the argument [mapping] of a call of [rename]
    and its keyword arguments together name [model] or [scenario] and
    also a data dimension, the call raises and the container is left as
    it was, whatever the other arguments: it raises the
    [ConflictingRenameError] when no column is given both in [mapping]
    and as a keyword argument, and otherwise the [ValueError]
    'conflicting rename args' of the columns given twice, which is
    checked first. *)
Theorem rename_index_and_data_conflict (self : IamDataFrame)
    (mapping : option mapping_t) (inplace append_ check_duplicates : bool)
    (kw : mapping_t) (i c : string) :
  let given := match mapping with Some m => m | None => [] end in
  In i META_IDX -> In i (keys given ++ keys kw) ->
  In c (data_dimensions self) -> in_cols c META_IDX = false ->
  In c (keys given ++ keys kw) ->
  rename U self mapping inplace append_ check_duplicates kw
  = mkOutcome self []
      (Raise (match List.filter (fun col => in_cols col (keys kw))
                                (keys given) with
              | [] => ConflictingRenameError
              | twice => ValueError (conflicting_rename_args twice)
              end)).
Proof.
  intros given Hi Hik Hc Hcm Hck. unfold rename, combine_mapping.
  fold given.
  destruct (List.filter (fun col => in_cols col (keys kw)) (keys given))
    as [|t twice]; [|reflexivity].
  assert (Hkeys : keys (given ++ kw) = keys given ++ keys kw)
    by (unfold keys; apply map_app).
  assert (H : index_and_data self (given ++ kw) = true).
  { unfold index_and_data. rewrite Hkeys. apply andb_true_iff. split.
    - apply existsb_exists. exists i. split; [assumption|].
      apply in_cols_In; assumption.
    - apply existsb_exists. exists c. split; [|apply in_cols_In; assumption].
      unfold data_cols. apply filter_In. split.
      + unfold _LONG_IDX, IAMC_IDX. unfold data_dimensions in Hc.
        simpl in Hc. simpl. tauto.
      + rewrite Hcm. reflexivity. }
  rewrite H. reflexivity.
Qed.

(** C3.  When a call of [rename] with [append=False] completes, the data
    of the result are the partially renamed table merged by
    [groupby(_LONG_IDX).sum()]: no long index occurs twice in them, their
    long indexes are those of the partially renamed rows, each row holds
    the sum of the values of the partially renamed rows of its long index,
    and a partially renamed row whose long index no other row has is a row
    of the result, with its value. *)
Theorem rename_merges_by_sum (self : IamDataFrame)
    (mapping : option mapping_t) (inplace check_duplicates : bool)
    (kw : mapping_t) (ret : IamDataFrame) :
  result_container inplace
    (rename U self mapping inplace false check_duplicates kw) = Some ret ->
  exists combined rows,
    combine_mapping mapping kw = OK combined
    /\ _apply_filters U self (rename_filters combined) = OK (bool_array rows)
    /\ let renamed := renamed_rows self combined rows in
       data ret = groupby_sum renamed
       /\ NoDup (map long_idx (data ret))
       /\ (forall k, In k (map long_idx (data ret))
                     <-> In k (map long_idx renamed))
       /\ (forall r, In r (data ret) ->
                     value r = group_sum renamed (long_idx r))
       /\ (forall r, In r renamed ->
                     List.filter (fun x => idx_eqb (long_idx x) (long_idx r))
                                 renamed = [r] ->
                     In r (data ret)).
Proof.
  unfold rename, result_container.
  destruct (combine_mapping mapping kw) as [combined|e] eqn:Hc; [|discriminate].
  destruct (index_and_data self combined); [discriminate|].
  unfold rename_rows. fold (rename_filters combined).
  destruct (_apply_filters U self (rename_filters combined))
    as [[rows|]|e] eqn:Hr; [|discriminate|discriminate].
  destruct (rename_loop self rows _ combined (meta self) (data self))
    as [[m _data] err] eqn:Hloop.
  destruct err as [e|]; [destruct inplace; discriminate|].
  apply rename_loop_renamed in Hloop. fold (renamed_rows self combined rows) in Hloop.
  intros H.
  assert (Hd : data ret = groupby_sum _data).
  { destruct (if check_duplicates then conflict_rows _data rows else []);
      [|destruct inplace; discriminate].
    destruct inplace; simpl in H; injection H as <-; reflexivity. }
  clear H. subst _data.
  exists combined, rows. split; [reflexivity|]. split; [assumption|].
  cbv zeta. rewrite Hd. split; [reflexivity|].
  split; [apply groupby_sum_NoDup|].
  split; [apply groupby_sum_key_In|].
  split; [apply groupby_sum_value | apply groupby_sum_single].
Qed.

End RenameClaims.

(** A run of the amended C6: [model] and [region] in one call, the second
    as a keyword argument. *)
Lemma rename_index_and_data_conflict_witness :
  rename pyam_utils table_components
         (Some [("model", str_dict [("M", "N")])]) true false true
         [("region", str_dict [("World", "Earth")])]
  = mkOutcome table_components [] (Raise ConflictingRenameError).
Proof.
  apply (rename_index_and_data_conflict pyam_utils table_components
           (Some [("model", str_dict [("M", "N")])]) true false true
           [("region", str_dict [("World", "Earth")])]
           "model" "region");
    simpl; auto.
Defined.

(** C6 as stated fails: a call that names [model] and [region] in
    [mapping] and gives [region] again as a keyword argument does not
    raise the [ConflictingRenameError]; it is refused before that check
    for its conflicting arguments. *)
Lemma rename_conflicting_args_first :
  rename pyam_utils table_components
         (Some [("model", str_dict [("M", "N")]);
                ("region", str_dict [("World", "Earth")])])
         false false true
         [("region", str_dict [("World", "Globe")])]
  = mkOutcome table_components []
              (Raise (ValueError (conflicting_rename_args ["region"])))
  /\ ValueError (conflicting_rename_args ["region"]) <> ConflictingRenameError.
Proof. split; [vm_compute; reflexivity | discriminate]. Defined.

(** A run of C3: the two components renamed to one name are merged into
    one row holding their sum, and the row of [A] keeps its value. *)
Lemma rename_merges_by_sum_witness :
  exists ret,
    result_container false
      (rename pyam_utils table_components None false false false
              [("variable", str_dict [("A|x", "A|z"); ("A|y", "A|z")])])
    = Some ret
    /\ data ret = [ row "M" "S" "World" "A" "U" 2010 5;
                    row "M" "S" "World" "A|z" "U" 2010 5 ]
    /\ NoDup (map long_idx (data ret)).
Proof.
  eexists. split; [vm_compute; reflexivity|]. split; [reflexivity|].
  destruct (rename_merges_by_sum pyam_utils table_components None false false
              [("variable", str_dict [("A|x", "A|z"); ("A|y", "A|z")])]
              _ eq_refl) as (combined & rows & _ & _ & H).
  cbv zeta in H. exact (proj1 (proj2 H)).
Defined.

(** *** Renaming a name and back *)

Lemma nth_error_map_nth {A : Type} (h : A -> A) (i : nat) (l : list A) :
  nth_error (map_nth h i l) i = option_map h (nth_error l i).
Proof.
  revert i. induction l as [|x l IH]; intros [|i]; simpl; auto.
Qed.

Lemma map_nth_fixed {A : Type} (h : A -> A) (i : nat) (l : list A) :
  (forall s, nth_error l i = Some s -> h s = s) -> map_nth h i l = l.
Proof.
  revert i. induction l as [|x l IH]; intros [|i] H; simpl; auto.
  - rewrite (H x eq_refl). reflexivity.
  - rewrite IH; [reflexivity | exact H].
Qed.

Lemma map_nth_twice {A : Type} (h1 h2 : A -> A) (i : nat) (l : list A) :
  map_nth h1 i (map_nth h2 i l) = map_nth (fun s => h1 (h2 s)) i l.
Proof.
  revert i. induction l as [|x l IH]; intros [|i]; simpl; auto.
  rewrite IH. reflexivity.
Qed.

(** The shape of a name dimension: one of the five columns of the
    IAMC index, or an extra column under another name. *)
Lemma name_dimension_cases (df : IamDataFrame) (col : string) :
  name_dimension df col = true ->
  col = "model" \/ col = "scenario" \/ col = "region" \/ col = "variable"
  \/ col = "unit"
  \/ ((col =? "model") = false /\ (col =? "scenario") = false
      /\ (col =? "region") = false /\ (col =? "variable") = false
      /\ (col =? "unit") = false
      /\ (col =? time_name (time_col df)) = false
      /\ (col =? "value") = false
      /\ exists i, index_of col (extra_cols df) = Some i).
Proof.
  unfold name_dimension. rewrite !andb_true_iff, !negb_true_iff.
  intros [[H _] Hn]. simpl in Hn.
  repeat (apply orb_false_iff in Hn; destruct Hn as [? Hn]).
  destruct (col =? "model") eqn:E1; [apply String.eqb_eq in E1; auto|].
  destruct (col =? "scenario") eqn:E2; [apply String.eqb_eq in E2; auto|].
  destruct (col =? "region") eqn:E3; [apply String.eqb_eq in E3; auto|].
  destruct (col =? "variable") eqn:E4; [apply String.eqb_eq in E4; auto 6|].
  destruct (col =? "unit") eqn:E5; [apply String.eqb_eq in E5; auto 6|].
  repeat right. repeat (split; [reflexivity|]).
  split; [destruct (time_col df); assumption|]. split; [assumption|].
  simpl in H. rewrite E1, E2, E3, E4, E5 in H. simpl in H.
  apply in_cols_In in H. clear - H.
  induction (extra_cols df) as [|c l IH]; [destruct H|]. simpl.
  destruct (c =? col) eqn:E; [eexists; reflexivity|].
  destruct H as [-> | H]; [rewrite String.eqb_refl in E; discriminate|].
  destruct (IH H) as [i ->]. eexists; reflexivity.
Qed.

Ltac name_cases H :=
  destruct (name_dimension_cases _ _ H)
    as [-> | [-> | [-> | [-> | [-> |
         (? & ? & ? & ? & ? & ? & ? & ? & ?)]]]]].

Ltac extra_case :=
  unfold name_of, data_cell, replace_in_row, scenario_key, rekey, in_cols;
  simpl;
  repeat match goal with
         | E : (?c =? ?s) = false |- context [?c =? ?s] => rewrite E
         | E : index_of _ _ = Some _ |- _ => rewrite E
         end;
  simpl.

Section NameDimension.

Variables (df : IamDataFrame) (col : string).
Hypothesis Hdim : name_dimension df col = true.

Lemma name_of_cell (r : Row) (x : string) :
  data_cell df col r = CStr x <-> name_of df col r = Some x.
Proof.
  unfold name_of. destruct (data_cell df col r);
    split; intros H; try discriminate; inversion H; reflexivity.
Qed.

Lemma name_of_replace (d : rename_dict) (r : Row) :
  name_of df col (replace_in_row df col d r)
  = option_map (replace_str d) (name_of df col r).
Proof.
  name_cases Hdim; try reflexivity.
  extra_case. rewrite nth_error_map_nth.
  destruct (nth_error (extra r) x); reflexivity.
Qed.

Lemma replace_fixed (d : rename_dict) (r : Row) :
  (forall s, name_of df col r = Some s -> replace_str d s = s) ->
  replace_in_row df col d r = r.
Proof.
  name_cases Hdim;
    try (intros H; unfold name_of, data_cell in H; simpl in H;
         destruct r; unfold replace_in_row; simpl in *;
         rewrite (H _ eq_refl); reflexivity).
  extra_case. intros Hs. rewrite map_nth_fixed; [destruct r; reflexivity|].
  intros s E. apply Hs. rewrite E. reflexivity.
Qed.

Lemma replace_twice (d1 d2 : rename_dict) (r : Row) :
  (forall s, name_of df col r = Some s ->
             replace_str d2 (replace_str d1 s) = s) ->
  replace_in_row df col d2 (replace_in_row df col d1 r) = r.
Proof.
  name_cases Hdim;
    try (intros H; unfold name_of, data_cell in H; simpl in H;
         destruct r; unfold replace_in_row; simpl in *;
         rewrite (H _ eq_refl); reflexivity).
  extra_case. intros Hs. rewrite map_nth_twice.
  rewrite map_nth_fixed; [destruct r; reflexivity|].
  intros s E. apply Hs. rewrite E. reflexivity.
Qed.

Lemma scenario_key_replace (d : rename_dict) (r : Row) :
  scenario_key (replace_in_row df col d r) = rekey col d (scenario_key r).
Proof.
  name_cases Hdim; try reflexivity. extra_case. reflexivity.
Qed.

End NameDimension.

Lemma value_replace (df : IamDataFrame) (col : string) (d : rename_dict)
    (r : Row) :
  value (replace_in_row df col d r) = value r.
Proof.
  unfold replace_in_row.
  repeat match goal with
         | |- context [if ?c then _ else _] => destruct c
         end; try reflexivity.
  destruct (index_of col (extra_cols df)); reflexivity.
Qed.

(** The long index of a renamed row depends on the long index only. *)
Lemma long_idx_replace (df : IamDataFrame) (col : string) (d : rename_dict)
    (r1 r2 : Row) :
  long_idx r1 = long_idx r2 ->
  long_idx (replace_in_row df col d r1) = long_idx (replace_in_row df col d r2).
Proof.
  destruct r1, r2. unfold long_idx. simpl. intros H. inversion H; subst.
  unfold replace_in_row.
  repeat match goal with
         | |- context [if ?c then _ else _] => destruct c
         end; try reflexivity.
  destruct (index_of col (extra_cols df)); reflexivity.
Qed.

Lemma replace_str_single (x y s : string) :
  replace_str (str_dict [(x, y)]) s = if x =? s then y else s.
Proof. unfold replace_str. simpl. destruct (x =? s); reflexivity. Qed.

Lemma unique_by_NoDup_id {A : Type} (eqb : A -> A -> bool) :
  (forall x y, eqb x y = true <-> x = y) ->
  forall l, NoDup l -> unique_by eqb l = l.
Proof.
  intros Heq. induction l as [|x l IH]; intros Hnd; simpl; [reflexivity|].
  inversion Hnd as [|? ? Hx Hl]; subst. rewrite (IH Hl). f_equal.
  apply forallb_filter_id. apply forallb_forall. intros y Hy.
  apply negb_true_iff. destruct (eqb x y) eqn:E; [|reflexivity].
  apply Heq in E. subst. contradiction.
Qed.

Lemma boolean_index_map_fun {A B : Type} (f : A -> B) (l : list A)
    (m : list bool) :
  map f (boolean_index l m) = boolean_index (map f l) m.
Proof.
  revert m. induction l as [|x l IH]; intros [|b m]; simpl; try reflexivity.
  destruct b; simpl; rewrite IH; reflexivity.
Qed.

Lemma boolean_index_split_NoDup {A : Type} (l : list A) (m : list bool) :
  NoDup l -> NoDup (boolean_index l m ++ boolean_index l (logical_not m)).
Proof.
  revert m. induction l as [|x l IH]; intros [|b m] Hnd; simpl;
    try constructor.
  inversion Hnd as [|? ? Hx Hl]; subst.
  assert (Hin : ~ In x (boolean_index l m ++ boolean_index l (logical_not m))).
  { intros H. apply in_app_iff in H.
    destruct H as [H | H]; apply boolean_index_In in H; contradiction. }
  destruct b; simpl.
  - constructor; [assumption | apply IH; assumption].
  - eapply Permutation_NoDup; [apply Permutation_middle|].
    constructor; [assumption | apply IH; assumption].
Qed.

Lemma duplicated_from_none {A : Type} (eqb : A -> A -> bool) :
  (forall x y, eqb x y = true <-> x = y) ->
  forall l seen,
    NoDup l -> (forall x, In x l -> ~ In x seen) ->
    existsb (fun b => b) (duplicated_from eqb seen l) = false.
Proof.
  intros Heq. induction l as [|x l IH]; intros seen Hnd Hseen; simpl;
    [reflexivity|].
  inversion Hnd as [|? ? Hx Hl]; subst.
  destruct (existsb (eqb x) seen) eqn:E.
  - exfalso. apply existsb_exists in E. destruct E as [y [Hy E]].
    apply Heq in E. subst y. apply (Hseen x); [left; reflexivity | assumption].
  - simpl. apply IH; [assumption|].
    intros y Hy [<- | Hs]; [contradiction|].
    apply (Hseen y); [right; assumption | assumption].
Qed.

(** No conflict is reported for a table whose long indexes are
    distinct. *)
Lemma conflict_rows_NoDup (_data : list Row) (rows : list bool) :
  NoDup (map long_idx _data) -> conflict_rows _data rows = [].
Proof.
  intros Hnd. unfold conflict_rows.
  rewrite !boolean_index_map_fun.
  pose proof (boolean_index_split_NoDup _ rows Hnd) as Hs.
  pose proof Hs as Hs2. apply NoDup_app_remove_l in Hs2.
  pose proof Hs as Hs1. apply NoDup_app_remove_r in Hs1.
  rewrite (unique_by_NoDup_id idx_eqb idx_eqb_eq _ Hs1).
  rewrite (unique_by_NoDup_id idx_eqb idx_eqb_eq _ Hs2).
  rewrite (duplicated_NoDup _ Hs). reflexivity.
Qed.

Lemma filter_none {A : Type} (f : A -> bool) (l : list A) :
  (forall y, In y l -> f y = false) -> List.filter f l = [].
Proof.
  induction l as [|x l IH]; intros H; simpl; [reflexivity|].
  rewrite (H x (or_introl eq_refl)). apply IH.
  intros y Hy. apply H. right. assumption.
Qed.

Lemma idx_eqb_neq (a b : LongIdx) : a <> b -> idx_eqb a b = false.
Proof.
  intros H. destruct (idx_eqb a b) eqn:E; [|reflexivity].
  apply idx_eqb_eq in E. contradiction.
Qed.

Lemma filter_key_single (rows : list Row) (r : Row) :
  NoDup (map long_idx rows) -> In r rows ->
  List.filter (fun x => idx_eqb (long_idx x) (long_idx r)) rows = [r].
Proof.
  induction rows as [|x rows IH]; intros Hnd Hin; [destruct Hin|].
  simpl in Hnd. inversion Hnd as [|? ? Hx Hl]; subst. cbn [List.filter].
  destruct Hin as [-> | Hin].
  - rewrite (proj2 (idx_eqb_eq _ _) eq_refl). f_equal.
    apply filter_none. intros y Hy. apply idx_eqb_neq. intros E.
    apply Hx. rewrite <- E. apply in_map. assumption.
  - rewrite idx_eqb_neq; [apply IH; assumption|].
    intros E. apply Hx. rewrite E. apply in_map. assumption.
Qed.

Lemma key_injective (rows : list Row) (a b : Row) :
  NoDup (map long_idx rows) -> In a rows -> In b rows ->
  long_idx a = long_idx b -> a = b.
Proof.
  intros Hnd Ha Hb E.
  pose proof (filter_key_single rows b Hnd Hb) as Hf.
  assert (Hin : In a (List.filter
                        (fun x => idx_eqb (long_idx x) (long_idx b)) rows)).
  { apply filter_In. split; [assumption | apply idx_eqb_eq; assumption]. }
  rewrite Hf in Hin. destruct Hin as [-> | []]. reflexivity.
Qed.

(** When the long indexes are distinct, the merge only reorders. *)
Lemma groupby_sum_perm (rows : list Row) :
  NoDup (map long_idx rows) -> Permutation (groupby_sum rows) rows.
Proof.
  intros Hnd. apply NoDup_Permutation.
  - apply (NoDup_map_inv long_idx), groupby_sum_NoDup.
  - apply (NoDup_map_inv long_idx), Hnd.
  - assert (Hsub : forall r, In r rows -> In r (groupby_sum rows)).
    { intros r Hr. apply groupby_sum_single; [assumption|].
      apply filter_key_single; assumption. }
    intros r. split; [|apply Hsub].
    intros Hr.
    assert (Hk : In (long_idx r) (map long_idx rows)).
    { apply groupby_sum_key_In. apply in_map. assumption. }
    apply in_map_iff in Hk. destruct Hk as [r' [E Hr']].
    rewrite <- (key_injective (groupby_sum rows) r' r
                  (groupby_sum_NoDup rows) (Hsub r' Hr') Hr E).
    assumption.
Qed.

(** A map that can be undone on the long indexes keeps them distinct. *)
Lemma NoDup_long_idx_map (f g : Row -> Row) (rows : list Row) :
  (forall a b, long_idx a = long_idx b -> long_idx (g a) = long_idx (g b)) ->
  (forall r, In r rows -> g (f r) = r) ->
  NoDup (map long_idx rows) ->
  NoDup (map long_idx (map f rows)).
Proof.
  intros Hg Hgf. induction rows as [|x rows IH]; intros Hnd; simpl;
    [constructor|].
  simpl in Hnd. inversion Hnd as [|? ? Hx Hl]; subst.
  constructor.
  - intros Hin. apply Hx. rewrite map_map in Hin.
    apply in_map_iff in Hin. destruct Hin as [y [E Hy]].
    apply Hg in E. rewrite !Hgf in E by (simpl; auto).
    rewrite <- E. apply in_map. assumption.
  - apply IH; [|assumption]. intros r Hr. apply Hgf. right. assumption.
Qed.

Lemma replace_rows_map (df : IamDataFrame) (col : string) (d : rename_dict)
    (sel : Row -> bool) (rows : list Row) :
  (forall r, In r rows -> sel r = false -> replace_in_row df col d r = r) ->
  replace_rows df col d rows (map sel rows)
  = map (replace_in_row df col d) rows.
Proof.
  induction rows as [|x rows IH]; intros H; simpl; [reflexivity|].
  rewrite IH by (intros r Hr; apply H; right; assumption). f_equal.
  destruct (sel x) eqn:E; [reflexivity|].
  symmetry. apply H; [left; reflexivity | assumption].
Qed.

Lemma replace_index_map (col : string) (d : rename_dict) (m : list MetaRow)
    (p : MetaRow -> bool) :
  (forall r, In r m -> p r = false -> rekey col d (meta_key r) = meta_key r) ->
  in_cols col META_IDX = true ->
  replace_index col d m (map p m)
  = map (fun r => mkMeta (rekey col d (meta_key r)) (meta_cells r)) m.
Proof.
  intros H Hc. unfold rekey in *. rewrite Hc in *.
  induction m as [|x m IH]; simpl; [reflexivity|].
  rewrite IH by (intros r Hr; apply H; right; assumption). f_equal.
  destruct (p x) eqn:E; [reflexivity|].
  rewrite (H x (or_introl eq_refl) E). destruct x; reflexivity.
Qed.

Lemma glob_star (p s : string) :
  glob p s = true ->
  (fix star (s : string) : bool :=
     glob p s
     || match s with
        | EmptyString => false
        | String _ s' => star s'
        end) s = true.
Proof. intros H. destruct s; rewrite H; reflexivity. Qed.

Lemma glob_refl (x : string) : glob x x = true.
Proof.
  induction x as [|c x IH]; [reflexivity|].
  cbn [glob]. destruct (Ascii.eqb c "*") eqn:E.
  - apply orb_true_iff. right. apply glob_star. exact IH.
  - rewrite Ascii.eqb_refl, IH. reflexivity.
Qed.

Lemma pyam_utils_matches_itself : matches_itself pyam_utils.
Proof.
  split; [|split].
  - intros x. eexists. split; [reflexivity|].
    simpl. rewrite glob_refl. reflexivity.
  - intros z. eexists. split; [reflexivity|].
    simpl. apply Z.eqb_refl.
  - intros z. eexists. split; [reflexivity|].
    simpl. apply Z.eqb_refl.
Qed.

Lemma logical_and_true_l {A : Type} (f : A -> bool) (l : list A) :
  logical_and (repeat true (List.length l)) (map f l) = map f l.
Proof. induction l; simpl; [reflexivity | f_equal; assumption]. Qed.

(** The first sub-mask applied is the mask, also on a table without
    rows. *)
Lemma np_logical_and_true_l {A : Type} (f : A -> bool) (l : list A) :
  np_logical_and (np_array_True (List.length l)) (map f l)
  = bool_array (map f l).
Proof.
  unfold np_logical_and.
  rewrite entries_np_array_True, logical_and_true_l. reflexivity.
Qed.

Lemma NoDup_map_inj_on {A B : Type} (h : A -> B) (l : list A) :
  (forall a b, In a l -> In b l -> h a = h b -> a = b) ->
  NoDup l -> NoDup (map h l).
Proof.
  induction l as [|x l IH]; intros Hinj Hnd; simpl; [constructor|].
  inversion Hnd as [|? ? Hx Hl]; subst. constructor.
  - intros Hin. apply in_map_iff in Hin. destruct Hin as [y [E Hy]].
    apply Hinj in E; [subst; contradiction | right; assumption
                      | left; reflexivity].
  - apply IH; [|assumption]. intros a b Ha Hb. apply Hinj; right; assumption.
Qed.

Lemma in_cols_app (c : string) (l1 l2 : list string) :
  in_cols c (l1 ++ l2) = in_cols c l1 || in_cols c l2.
Proof. apply existsb_app. Qed.

Lemma index_and_data_single (df : IamDataFrame) (col : string)
    (d : rename_dict) :
  index_and_data df [(col, d)] = false.
Proof.
  unfold index_and_data.
  destruct (existsb (fun i => in_cols i (keys [(col, d)])) META_IDX) eqn:E1;
    [|reflexivity].
  destruct (existsb (fun i => in_cols i (keys [(col, d)])) (data_cols df))
    eqn:E2; [|reflexivity].
  exfalso. apply existsb_exists in E1. destruct E1 as [i [Hi Ei]].
  apply existsb_exists in E2. destruct E2 as [c [Hc Ec]].
  apply in_cols_In in Ei. apply in_cols_In in Ec. simpl in Ei, Ec.
  destruct Ei as [<- | []]. destruct Ec as [<- | []].
  unfold data_cols in Hc. apply filter_In in Hc. destruct Hc as [_ Hc].
  apply in_cols_In in Hi. rewrite Hi in Hc. discriminate.
Qed.

Lemma name_dimension_keys (df : IamDataFrame) (col : string) :
  name_dimension df col = true ->
  in_cols col (meta_columns df) = false
  /\ (col =? "year") = false /\ (col =? "month") = false
  /\ (col =? "day") = false /\ (col =? "hour") = false
  /\ (col =? "time") = false /\ (col =? "level") = false
  /\ (col =? "regexp") = false
  /\ in_cols col (data_columns df) = true
  /\ (in_cols col META_IDX = false -> in_cols col (data_cols df) = true).
Proof.
  unfold name_dimension. rewrite !andb_true_iff, !negb_true_iff.
  intros [[H Hm] Hn]. simpl in Hn.
  repeat (apply orb_false_iff in Hn; destruct Hn as [? Hn]).
  repeat (split; [assumption|]).
  assert (Hl : in_cols col (_LONG_IDX df) = true).
  { unfold _LONG_IDX. rewrite !in_cols_app.
    apply orb_true_iff in H. destruct H as [-> | ->];
      [reflexivity | rewrite !orb_true_r; reflexivity]. }
  split.
  - unfold data_columns. rewrite in_cols_app, Hl. reflexivity.
  - intros Hc. apply in_cols_In. unfold data_cols. apply filter_In.
    split; [apply in_cols_In; assumption | rewrite Hc; reflexivity].
Qed.

Section RoundTrip.

Variable U : Utils.
Hypothesis Hpm : matches_itself U.

(** The rows [rename] selects for one name of a name dimension: decided
    entry by entry, and every row that holds the name is selected. *)
Lemma apply_filters_name (df : IamDataFrame) (col x : string) :
  name_dimension df col = true ->
  exists f,
    _apply_filters U df [(col, PList [PStr x])]
    = OK (bool_array (map (fun r => f (data_cell df col r)) (data df)))
    /\ f (CStr x) = true.
Proof.
  intros Hdim. destruct (proj1 Hpm x) as [f [Hf Hx]]. exists f.
  split; [|assumption].
  destruct (name_dimension_keys df col Hdim)
    as (Hm & Hy & Hmo & Hd & Hh & Ht & Hl & Hr & Hc & _).
  unfold _apply_filters, remove_key. simpl. rewrite Hr. simpl.
  unfold keep_col. rewrite Hm.
  destruct (col =? "variable") eqn:Ev.
  - apply String.eqb_eq in Ev. subst col. simpl. rewrite Hf. simpl.
    rewrite np_logical_and_true_l. reflexivity.
  - rewrite Hy, Hmo, Hd, Hh, Ht, Hl, Hc. simpl. rewrite Hf. simpl.
    rewrite np_logical_and_true_l. reflexivity.
Qed.

(** The rows [rename] selects for one year or timestamp of the time
    column. *)
Lemma apply_filters_time (df : IamDataFrame) (x : Z) :
  in_cols (time_name (time_col df)) (meta_columns df) = false ->
  exists f,
    _apply_filters U df [(time_name (time_col df), PList [PInt x])]
    = OK (bool_array (map (fun r => f (time r)) (data df)))
    /\ f x = true.
Proof.
  intros Hm. unfold _apply_filters, remove_key.
  destruct (time_col df) eqn:Et; cbn [time_name] in *;
    cbn -[in_cols keep_col]; unfold keep_col; rewrite Hm, Et;
    cbn -[in_cols].
  - destruct (proj1 (proj2 Hpm) x) as [f [Hf Hx]]. exists f.
    split; [|assumption]. rewrite Hf. cbn -[in_cols np_array_True].
    rewrite np_logical_and_true_l. reflexivity.
  - destruct (proj2 (proj2 Hpm) x) as [f [Hf Hx]]. exists f.
    split; [|assumption]. rewrite Hf. cbn -[in_cols np_array_True].
    rewrite np_logical_and_true_l. reflexivity.
Qed.

(** Renaming by one dictionary [d] in one column, when the rows that are
    not selected are not changed, the renaming can be undone by a
    dictionary [d'] on the rows of the table, and scenario keys follow the
    rows: the call succeeds, nothing is merged, and the result is again a
    container of distinct long indexes whose [meta] keys are distinct and
    covered by the rows. *)
Lemma rename_single (df : IamDataFrame) (col : string) (d d' : rename_dict)
    (chk : bool) (sel : Row -> bool) :
  _apply_filters U df [(col, dict_keys d)]
  = OK (bool_array (map sel (data df))) ->
  (forall r, sel r = false -> replace_in_row df col d r = r) ->
  (forall r, In r (data df) ->
             replace_in_row df col d' (replace_in_row df col d r) = r) ->
  (forall d0 r, scenario_key (replace_in_row df col d0 r)
                = rekey col d0 (scenario_key r)) ->
  (in_cols col META_IDX = false -> in_cols col (data_cols df) = true) ->
  NoDup (map long_idx (data df)) ->
  NoDup (meta_index df) ->
  meta_covered df ->
  exists mid,
    rename U df None false false chk [(col, d)]
    = mkOutcome df [] (OK (Some mid))
    /\ Permutation (data mid) (map (replace_in_row df col d) (data df))
    /\ time_col mid = time_col df
    /\ extra_cols mid = extra_cols df
    /\ meta_columns mid = meta_columns df
    /\ NoDup (map long_idx (data mid))
    /\ NoDup (meta_index mid)
    /\ meta_covered mid.
Proof.
  intros Hmask Hsel Hgf Hsk Hdc Hnd Hmnd Hcov.
  set (f := replace_in_row df col d) in *.
  set (g := replace_in_row df col d') in *.
  assert (Hkeys : NoDup (map long_idx (map f (data df)))).
  { apply (NoDup_long_idx_map f g); [|assumption|assumption].
    intros a b. apply long_idx_replace. }
  assert (Hrows : replace_rows df col d (data df) (map sel (data df))
                  = map f (data df)).
  { apply replace_rows_map. intros r _. apply Hsel. }
  set (p := fun m : MetaRow =>
              key_in (meta_key m)
                     (_make_index (boolean_index (data df)
                                                 (map sel (data df))))).
  assert (Hp : forall m, In m (meta df) -> p m = false ->
                         rekey col d (meta_key m) = meta_key m).
  { intros m Hm Hpm'. destruct (Hcov (meta_key m)) as [r [Hr Hk]].
    { unfold meta_index. apply in_map. assumption. }
    rewrite <- Hk. rewrite <- Hsk.
    fold f. rewrite Hsel; [reflexivity|].
    destruct (sel r) eqn:E; [|reflexivity].
    exfalso. unfold p in Hpm'.
    assert (Hin : In (meta_key m)
                     (_make_index (boolean_index (data df)
                                                 (map sel (data df))))).
    { apply make_index_In. exists r. split; [|assumption].
      rewrite boolean_index_map. apply filter_In. split; assumption. }
    apply key_in_In in Hin. rewrite Hin in Hpm'. discriminate. }
  assert (Hinj : NoDup (map (rekey col d) (meta_index df))).
  { apply NoDup_map_inj_on; [|assumption].
    intros k1 k2 H1 H2 E.
    destruct (Hcov k1 H1) as [r1 [Hr1 <-]].
    destruct (Hcov k2 H2) as [r2 [Hr2 <-]].
    rewrite <- !Hsk in E. fold f in E.
    assert (E' : scenario_key (g (f r1)) = scenario_key (g (f r2))).
    { unfold g. rewrite !Hsk, E. reflexivity. }
    rewrite !Hgf in E' by assumption. exact E'. }
  assert (Hloop :
            exists m,
              rename_loop df (map sel (data df)) (map p (meta df))
                          [(col, d)] (meta df) (data df)
              = (m, map f (data df), None)
              /\ map meta_key m = map (rekey col d) (meta_index df)).
  { cbn [rename_loop].
    destruct (in_cols col META_IDX) eqn:Hc.
    - rewrite (replace_index_map col d (meta df) p Hp Hc).
      assert (Hk : map meta_key
                       (map (fun r => mkMeta (rekey col d (meta_key r))
                                             (meta_cells r)) (meta df))
                   = map (rekey col d) (meta_index df)).
      { unfold meta_index. rewrite !map_map. reflexivity. }
      rewrite Hk.
      unfold duplicated.
      rewrite (duplicated_from_none key_eqb key_eqb_eq _ [] Hinj)
        by (intros k _ []).
      rewrite Hrows. eexists. split; [reflexivity | exact Hk].
    - rewrite (Hdc eq_refl). simpl. rewrite Hrows.
      eexists. split; [reflexivity|].
      unfold meta_index. rewrite map_map. apply map_ext. intros m.
      unfold rekey. rewrite Hc. reflexivity. }
  destruct Hloop as [m [Hloop Hm]].
  exists (set_meta_rows (set_data df (groupby_sum (map f (data df)))) m).
  assert (Hperm : Permutation (groupby_sum (map f (data df)))
                              (map f (data df)))
    by (apply groupby_sum_perm; assumption).
  split.
  - unfold rename.
    change (combine_mapping None [(col, d)]) with (OK [(col, d)]).
    cbv beta iota. rewrite index_and_data_single. unfold rename_rows.
    change (map (fun cm => (fst cm, dict_keys (snd cm))) [(col, d)])
      with [(col, dict_keys d)].
    rewrite Hmask. fold p. rewrite Hloop.
    rewrite (conflict_rows_NoDup _ _ Hkeys).
    destruct chk; reflexivity.
  - simpl. split; [assumption|].
    do 3 (split; [reflexivity|]).
    split; [apply groupby_sum_NoDup|].
    unfold meta_index. simpl. rewrite Hm.
    split; [assumption|].
    unfold meta_covered, meta_index. simpl. rewrite Hm.
    intros k Hk. apply in_map_iff in Hk. destruct Hk as [k0 [<- Hk0]].
    destruct (Hcov k0 Hk0) as [r [Hr <-]].
    exists (f r). split.
    + eapply Permutation_in; [apply Permutation_sym; exact Hperm|].
      apply in_map. assumption.
    + apply Hsk.
Qed.

Lemma replace_int_single (x y z : Z) :
  replace_int (int_dict [(x, y)]) z = if (x =? z)%Z then y else z.
Proof. unfold replace_int. simpl. destruct (x =? z)%Z; reflexivity. Qed.

Lemma replace_time_row (df : IamDataFrame) (d : rename_dict) (r : Row) :
  replace_in_row df (time_name (time_col df)) d r
  = mkRow (model r) (scenario r) (region r) (variable r) (unit r)
          (replace_int d (time r)) (extra r) (value r).
Proof. unfold replace_in_row. destruct (time_col df); reflexivity. Qed.

Lemma data_cell_time (df : IamDataFrame) (r : Row) :
  data_cell df (time_name (time_col df)) r
  = if is_datetime (time_col df) then CTime (time r) else CInt (time r).
Proof. unfold data_cell. destruct (time_col df); reflexivity. Qed.

Lemma time_in_data_cols (df : IamDataFrame) :
  in_cols (time_name (time_col df)) (data_cols df) = true.
Proof.
  apply in_cols_In. unfold data_cols. apply filter_In. split.
  - unfold _LONG_IDX. apply in_or_app. right. left. reflexivity.
  - destruct (time_col df); reflexivity.
Qed.

(** Renaming the year or timestamp [x] to one that the time column does
    not hold. *)
Lemma rename_time_fresh (df : IamDataFrame) (x y : Z) (chk : bool) :
  in_cols (time_name (time_col df)) (meta_columns df) = false ->
  NoDup (map long_idx (data df)) ->
  (forall r, In r (data df) -> time r <> y) ->
  NoDup (meta_index df) ->
  meta_covered df ->
  let col := time_name (time_col df) in
  exists mid,
    rename U df None false false chk [(col, int_dict [(x, y)])]
    = mkOutcome df [] (OK (Some mid))
    /\ Permutation (data mid)
                   (map (replace_in_row df col (int_dict [(x, y)])) (data df))
    /\ time_col mid = time_col df
    /\ extra_cols mid = extra_cols df
    /\ meta_columns mid = meta_columns df
    /\ NoDup (map long_idx (data mid))
    /\ NoDup (meta_index mid)
    /\ meta_covered mid.
Proof.
  intros Hm Hnd Hfresh Hmnd Hcov col.
  destruct (apply_filters_time df x Hm) as [f0 [Hmask Hf0]].
  apply (rename_single df col (int_dict [(x, y)]) (int_dict [(y, x)]) chk
           (fun r => f0 (time r))); try assumption.
  - intros r Hr. unfold col. rewrite replace_time_row, replace_int_single.
    destruct (x =? time r)%Z eqn:E; [|destruct r; reflexivity].
    apply Z.eqb_eq in E. rewrite <- E, Hf0 in Hr. discriminate.
  - intros r Hr. unfold col. rewrite !replace_time_row.
    cbn [time model scenario region variable unit extra value].
    rewrite !replace_int_single. pose proof (Hfresh r Hr) as Hy.
    destruct (x =? time r)%Z eqn:E.
    + apply Z.eqb_eq in E. rewrite Z.eqb_refl, E. destruct r; reflexivity.
    + destruct (y =? time r)%Z eqn:E2; [|destruct r; reflexivity].
      apply Z.eqb_eq in E2. subst. contradiction.
  - intros d0 r. unfold col. rewrite replace_time_row.
    unfold rekey. destruct (time_col df); reflexivity.
  - intros _. apply time_in_data_cols.
Qed.

(** Renaming the name [x] of a name dimension to a name [y] that the
    column does not hold. *)
Lemma rename_name_fresh (df : IamDataFrame) (col x y : string) (chk : bool) :
  name_dimension df col = true ->
  NoDup (map long_idx (data df)) ->
  (forall r, In r (data df) -> data_cell df col r <> CStr y) ->
  NoDup (meta_index df) ->
  meta_covered df ->
  exists mid,
    rename U df None false false chk [(col, str_dict [(x, y)])]
    = mkOutcome df [] (OK (Some mid))
    /\ Permutation (data mid)
                   (map (replace_in_row df col (str_dict [(x, y)])) (data df))
    /\ time_col mid = time_col df
    /\ extra_cols mid = extra_cols df
    /\ meta_columns mid = meta_columns df
    /\ NoDup (map long_idx (data mid))
    /\ NoDup (meta_index mid)
    /\ meta_covered mid.
Proof.
  intros Hdim Hnd Hfresh Hmnd Hcov.
  destruct (apply_filters_name df col x Hdim) as [f0 [Hmask Hf0]].
  apply (rename_single df col (str_dict [(x, y)]) (str_dict [(y, x)]) chk
           (fun r => f0 (data_cell df col r))); try assumption.
  - intros r Hr. apply (replace_fixed df col Hdim). intros s Hs.
    rewrite replace_str_single.
    destruct (x =? s) eqn:E; [|reflexivity].
    apply String.eqb_eq in E. subst s.
    apply (name_of_cell df col) in Hs. rewrite Hs, Hf0 in Hr. discriminate.
  - intros r Hr. apply (replace_twice df col Hdim). intros s Hs.
    rewrite !replace_str_single.
    assert (Hsy : s <> y).
    { intros ->. apply (name_of_cell df col) in Hs.
      apply (Hfresh r Hr). assumption. }
    destruct (x =? s) eqn:E.
    + apply String.eqb_eq in E. rewrite String.eqb_refl. assumption.
    + destruct (y =? s) eqn:E2; [|reflexivity].
      apply String.eqb_eq in E2. subst. contradiction.
  - intros d0 r. apply (scenario_key_replace df col Hdim).
  - intros Hc. apply (name_dimension_keys df col Hdim). assumption.
Qed.

End RoundTrip.

Lemma replace_in_row_ext (df1 df2 : IamDataFrame) (col : string)
    (d : rename_dict) (r : Row) :
  time_col df1 = time_col df2 -> extra_cols df1 = extra_cols df2 ->
  replace_in_row df1 col d r = replace_in_row df2 col d r.
Proof. intros H1 H2. unfold replace_in_row. rewrite H1, H2. reflexivity. Qed.

Lemma data_cell_ext (df1 df2 : IamDataFrame) (col : string) (r : Row) :
  time_col df1 = time_col df2 -> extra_cols df1 = extra_cols df2 ->
  data_cell df1 col r = data_cell df2 col r.
Proof. intros H1 H2. unfold data_cell. rewrite H1, H2. reflexivity. Qed.

Lemma name_dimension_ext (df1 df2 : IamDataFrame) (col : string) :
  extra_cols df1 = extra_cols df2 -> meta_columns df1 = meta_columns df2 ->
  name_dimension df1 col = name_dimension df2 col.
Proof. intros H1 H2. unfold name_dimension. rewrite H1, H2. reflexivity. Qed.

(** The rows after a renaming and the renaming that undoes it. *)
Lemma round_trip_rows (f g : Row -> Row) (rows mid back : list Row) :
  Permutation mid (map f rows) ->
  Permutation back (map g mid) ->
  (forall r, In r rows -> g (f r) = r) ->
  Permutation back rows.
Proof.
  intros Hm Hb Hgf.
  eapply perm_trans; [exact Hb|].
  eapply perm_trans; [apply Permutation_map; exact Hm|].
  rewrite map_map.
  rewrite (map_ext_in _ (fun r => r)); [rewrite map_id; apply Permutation_refl|].
  exact Hgf.
Qed.

Section RoundTripClaim.

Variable U : Utils.
Hypothesis Hpm : matches_itself U.

Lemma rename_round_trip_name (self : IamDataFrame) (col a b : string)
    (chk1 chk2 : bool) :
  name_dimension self col = true ->
  NoDup (map long_idx (data self)) ->
  NoDup (meta_index self) ->
  meta_covered self ->
  (forall r, In r (data self) -> data_cell self col r <> CStr b) ->
  exists mid back,
    rename U self None false false chk1 [(col, str_dict [(a, b)])]
    = mkOutcome self [] (OK (Some mid))
    /\ rename U mid None false false chk2 [(col, str_dict [(b, a)])]
       = mkOutcome mid [] (OK (Some back))
    /\ Permutation (data back) (data self).
Proof.
  intros Hdim Hnd Hmnd Hcov Hfresh.
  destruct (rename_name_fresh U Hpm self col a b chk1 Hdim Hnd Hfresh Hmnd Hcov)
    as (mid & Hmid & Hperm & Ht & He & Hmc & Hnd' & Hmnd' & Hcov').
  set (f := replace_in_row self col (str_dict [(a, b)])) in *.
  assert (Hdim' : name_dimension mid col = true)
    by (rewrite (name_dimension_ext mid self col He Hmc); assumption).
  assert (Hfresh' : forall r, In r (data mid) -> data_cell mid col r <> CStr a).
  { intros r Hr. rewrite (data_cell_ext mid self col r Ht He).
    apply (Permutation_in _ Hperm) in Hr. apply in_map_iff in Hr.
    destruct Hr as [r0 [<- Hr0]]. intros E.
    apply (name_of_cell self col) in E. unfold f in E.
    rewrite (name_of_replace self col Hdim) in E.
    destruct (name_of self col r0) as [s|] eqn:Es; [|discriminate].
    cbn [option_map] in E. rewrite replace_str_single in E.
    assert (Hsb : s <> b).
    { intros ->. apply (name_of_cell self col) in Es.
      apply (Hfresh r0 Hr0). assumption. }
    destruct (a =? s) eqn:Eas.
    - apply String.eqb_eq in Eas. injection E as E. congruence.
    - injection E as E. subst. rewrite String.eqb_refl in Eas. discriminate. }
  destruct (rename_name_fresh U Hpm mid col b a chk2 Hdim' Hnd' Hfresh' Hmnd'
                              Hcov')
    as (back & Hback & Hperm' & _).
  exists mid, back. split; [assumption|]. split; [assumption|].
  apply (round_trip_rows f (replace_in_row mid col (str_dict [(b, a)]))
           (data self) (data mid) (data back) Hperm Hperm').
  intros r Hr. rewrite (replace_in_row_ext mid self col _ _ Ht He).
  unfold f. apply (replace_twice self col Hdim). intros s Hs.
  rewrite !replace_str_single.
  assert (Hsb : s <> b).
  { intros ->. apply (name_of_cell self col) in Hs.
    apply (Hfresh r Hr). assumption. }
  destruct (a =? s) eqn:E.
  - apply String.eqb_eq in E. rewrite String.eqb_refl. assumption.
  - destruct (b =? s) eqn:E2; [|reflexivity].
    apply String.eqb_eq in E2. subst. contradiction.
Qed.

Lemma rename_round_trip_time (self : IamDataFrame) (a b : Z)
    (chk1 chk2 : bool) :
  in_cols (time_name (time_col self)) (meta_columns self) = false ->
  NoDup (map long_idx (data self)) ->
  NoDup (meta_index self) ->
  meta_covered self ->
  (forall r, In r (data self) -> time r <> b) ->
  exists mid back,
    rename U self None false false chk1
           [(time_name (time_col self), int_dict [(a, b)])]
    = mkOutcome self [] (OK (Some mid))
    /\ rename U mid None false false chk2
              [(time_name (time_col self), int_dict [(b, a)])]
       = mkOutcome mid [] (OK (Some back))
    /\ Permutation (data back) (data self).
Proof.
  intros Hm Hnd Hmnd Hcov Hfresh.
  destruct (rename_time_fresh U Hpm self a b chk1 Hm Hnd Hfresh Hmnd Hcov)
    as (mid & Hmid & Hperm & Ht & He & Hmc & Hnd' & Hmnd' & Hcov').
  cbv zeta in Hmid, Hperm.
  assert (Hm' : in_cols (time_name (time_col mid)) (meta_columns mid) = false)
    by (rewrite Ht, Hmc; assumption).
  assert (Hfresh' : forall r, In r (data mid) -> time r <> a).
  { intros r Hr. apply (Permutation_in _ Hperm) in Hr.
    apply in_map_iff in Hr. destruct Hr as [r0 [<- Hr0]].
    rewrite replace_time_row. cbn [time]. rewrite replace_int_single.
    pose proof (Hfresh r0 Hr0) as Hb.
    destruct (a =? time r0)%Z eqn:E.
    - apply Z.eqb_eq in E. congruence.
    - apply Z.eqb_neq in E. congruence. }
  destruct (rename_time_fresh U Hpm mid b a chk2 Hm' Hnd' Hfresh' Hmnd' Hcov')
    as (back & Hback & Hperm' & _).
  cbv zeta in Hback, Hperm'. rewrite Ht in Hback, Hperm'.
  exists mid, back. split; [assumption|]. split; [assumption|].
  apply (round_trip_rows _ _ (data self) (data mid) (data back) Hperm Hperm').
  intros r Hr.
  rewrite (replace_in_row_ext mid self _ _ _ Ht He), !replace_time_row.
  cbn [time model scenario region variable unit extra value].
  rewrite !replace_int_single. pose proof (Hfresh r Hr) as Hb.
  destruct (a =? time r)%Z eqn:E.
  - apply Z.eqb_eq in E. rewrite Z.eqb_refl, E. destruct r; reflexivity.
  - destruct (b =? time r)%Z eqn:E2; [|destruct r; reflexivity].
    apply Z.eqb_eq in E2. subst. contradiction.
Qed.


End RoundTripClaim.



(** * Further properties *)

(** ** Keyword arguments *)

Lemma get_app {A : Type} (xs ys : list (string * A)) (k : string) :
  get (xs ++ ys) k =
  match get xs k with Some v => Some v | None => get ys k end.
Proof.
  induction xs as [|[k' v] xs IH]; simpl; [reflexivity|].
  destruct (k' =? k); [reflexivity | apply IH].
Qed.

Lemma get_not_in {A : Type} (d : list (string * A)) (k : string) :
  in_cols k (keys d) = false -> get d k = None.
Proof.
  induction d as [|[k' v] d IH]; simpl; [reflexivity|].
  rewrite String.eqb_sym. destruct (k' =? k); simpl; [discriminate | apply IH].
Qed.

Lemma remove_key_app {A : Type} (k : string) (xs ys : list (string * A)) :
  remove_key k (xs ++ ys) = remove_key k xs ++ remove_key k ys.
Proof. apply filter_app. Qed.

Lemma get_remove_key {A : Type} (k k' : string) (d : list (string * A)) :
  k <> k' -> get (remove_key k d) k' = get d k'.
Proof.
  intros Hk. induction d as [|[c v] d IH]; simpl; [reflexivity|].
  destruct (c =? k) eqn:E; simpl.
  - apply String.eqb_eq in E. subst c.
    destruct (k =? k') eqn:E2; [apply String.eqb_eq in E2; contradiction|].
    apply IH.
  - destruct (c =? k'); [reflexivity | apply IH].
Qed.

Lemma keys_remove_key {A : Type} (k k' : string) (d : list (string * A)) :
  k <> k' -> in_cols k' (keys (remove_key k d)) = in_cols k' (keys d).
Proof.
  intros Hk. unfold in_cols, keys, remove_key.
  induction d as [|[c v] d IH]; simpl; [reflexivity|].
  destruct (c =? k) eqn:E; simpl.
  - apply String.eqb_eq in E. subst c.
    destruct (k' =? k) eqn:E2;
      [apply String.eqb_eq in E2; symmetry in E2; contradiction|].
    apply IH.
  - rewrite IH. reflexivity.
Qed.

Lemma in_cols_cons (x c : string) (l : list string) :
  in_cols x (c :: l) = (x =? c) || in_cols x l.
Proof. reflexivity. Qed.

Lemma remove_key_In {A : Type} (k : string) (d : list (string * A)) kv :
  In kv (remove_key k d) -> in_cols (fst kv) (keys d) = true.
Proof.
  intros H. apply filter_In in H. destruct H as [H _].
  apply in_cols_In. apply in_map. assumption.
Qed.

Lemma regexp_arg_app (A B : kwargs) :
  regexp_arg A = regexp_arg B -> regexp_arg (A ++ B) = regexp_arg A.
Proof.
  unfold regexp_arg. rewrite get_app.
  destruct (get A "regexp"); [reflexivity | intros H; symmetry; exact H].
Qed.

(** ** Composition of filters *)

Section FilterComposition.

Variable U : Utils.

(** A sub-mask depends on the other entries of the specification only
    through [level] (for the filter by [variable]) and through the
    presence of [variable] (for the filter by [level]). *)
Lemma keep_col_filters_ext self F1 F2 regexp col values :
  (col = "variable" -> level_arg F1 = level_arg F2) ->
  (col = "level" ->
   in_cols "variable" (keys F1) = in_cols "variable" (keys F2)) ->
  keep_col U self F1 regexp col values = keep_col U self F2 regexp col values.
Proof.
  intros Hl Hv. unfold keep_col.
  destruct (in_cols col (meta_columns self)); [reflexivity|].
  destruct (col =? "variable") eqn:E1.
  { apply String.eqb_eq in E1. specialize (Hl E1). unfold level_arg in Hl.
    rewrite Hl. reflexivity. }
  destruct (col =? "year"); [reflexivity|].
  destruct ((col =? "month") && is_datetime (time_col self)); [reflexivity|].
  destruct ((col =? "day") && is_datetime (time_col self)); [reflexivity|].
  destruct ((col =? "hour") && is_datetime (time_col self)); [reflexivity|].
  destruct ((col =? "time") && is_datetime (time_col self)); [reflexivity|].
  destruct (col =? "level") eqn:E2; [|reflexivity].
  apply String.eqb_eq in E2. rewrite (Hv E2). reflexivity.
Qed.

Lemma apply_loop_filters_ext self F1 F2 regexp items keep :
  (forall col values, In (col, values) items ->
     keep_col U self F1 regexp col values
     = keep_col U self F2 regexp col values) ->
  apply_loop U self F1 regexp items keep
  = apply_loop U self F2 regexp items keep.
Proof.
  revert keep. induction items as [|[col values] rest IH]; intros keep H;
    simpl; [reflexivity|].
  assert (Hrest : forall c v, In (c, v) rest ->
                    keep_col U self F1 regexp c v
                    = keep_col U self F2 regexp c v).
  { intros c v Hin. apply H. right. assumption. }
  destruct (is_None values); [apply IH; assumption|].
  rewrite (H col values (or_introl eq_refl)).
  destruct (keep_col U self F2 regexp col values) as [[m|]|e]; simpl;
    [apply IH | apply IH | reflexivity]; assumption.
Qed.

Lemma apply_loop_skip_None self F regexp xs ys c keep :
  apply_loop U self F regexp (xs ++ (c, PNone) :: ys) keep
  = apply_loop U self F regexp (xs ++ ys) keep.
Proof.
  rewrite !apply_loop_app.
  destruct (apply_loop U self F regexp xs keep); reflexivity.
Qed.

Lemma apply_filters_None_entry self pre post c :
  c <> "variable" -> c <> "regexp" -> ~ In c (keys (pre ++ post)) ->
  _apply_filters U self (pre ++ (c, PNone) :: post)
  = _apply_filters U self (pre ++ post).
Proof.
  intros Hv Hr Hc. unfold _apply_filters.
  assert (Er : (c =? "regexp") = false) by (apply String.eqb_neq; assumption).
  assert (Eg : get (pre ++ (c, PNone) :: post) "regexp"
               = get (pre ++ post) "regexp").
  { rewrite !get_app. simpl. rewrite Er. reflexivity. }
  rewrite Eg. rewrite !remove_key_app.
  assert (Ek : remove_key "regexp" ((c, PNone) :: post)
               = (c, PNone) :: remove_key "regexp" post).
  { unfold remove_key. simpl. rewrite Er. reflexivity. }
  rewrite Ek. rewrite apply_loop_skip_None.
  apply apply_loop_filters_ext. intros col values _.
  apply keep_col_filters_ext.
  - intros _. unfold level_arg. rewrite !get_app. simpl.
    destruct (get (remove_key "regexp" pre) "level"); [reflexivity|].
    destruct (c =? "level") eqn:El; [|reflexivity].
    apply String.eqb_eq in El. subst c.
    rewrite get_remove_key by discriminate.
    rewrite get_not_in; [reflexivity|].
    destruct (in_cols "level" (keys post)) eqn:E; [|reflexivity].
    exfalso. apply Hc. unfold keys. rewrite map_app. apply in_or_app. right.
    apply in_cols_In. exact E.
  - intros _. unfold keys. rewrite !map_app, !in_cols_app.
    cbn [map fst]. rewrite in_cols_cons.
    assert (Ev : ("variable" =? c) = false).
    { apply String.eqb_neq. intros E. apply Hv. symmetry. exact E. }
    rewrite Ev. reflexivity.
Qed.

(** X1.  An entry whose value is [None] is no filter: for every key other
    than [variable] and [regexp] that the call does not already hold,
    [filter] with the added entry [key=None] behaves exactly as without
    it (same container after the call, same log, same result or
    exception), whatever the key is, even one that names no column. *)
Theorem filter_ignores_None_entry self keep inplace pre post c :
  c <> "variable" -> c <> "regexp" -> ~ In c (keys (pre ++ post)) ->
  filter U self keep inplace (pre ++ (c, PNone) :: post)
  = filter U self keep inplace (pre ++ post).
Proof.
  intros Hv Hr Hc. unfold filter.
  rewrite (apply_filters_None_entry self pre post c Hv Hr Hc). reflexivity.
Qed.

End FilterComposition.

(** A run of X1 on the components table: [foo=None] beside a filter by
    [variable]. *)
Lemma filter_ignores_None_entry_witness :
  filter pyam_utils table_components (PBool true) false
         ([("variable", PStr "A|*")] ++ ("foo", PNone) :: [])
  = filter pyam_utils table_components (PBool true) false
           ([("variable", PStr "A|*")] ++ []).
Proof.
  apply filter_ignores_None_entry.
  - discriminate.
  - discriminate.
  - simpl. intros [H | []]. discriminate.
Defined.

(** ** Filtering a filtered container *)

Lemma filter_and_ext {A : Type} (g f f' : A -> bool) (l : list A) :
  (forall x, In x l -> g x = true -> f x = f' x) ->
  List.filter (fun x => g x && f x) l = List.filter f' (List.filter g l).
Proof.
  induction l as [|x l IH]; intros H; simpl; [reflexivity|].
  assert (Hl : forall y, In y l -> g y = true -> f y = f' y).
  { intros y Hy. apply H. right. assumption. }
  destruct (g x) eqn:E; simpl.
  - rewrite (H x (or_introl eq_refl) E).
    destruct (f' x); rewrite (IH Hl); reflexivity.
  - apply IH. assumption.
Qed.

Lemma filter_all {A : Type} (f : A -> bool) (l : list A) :
  (forall x, In x l -> f x = true) -> List.filter f l = l.
Proof.
  induction l as [|x l IH]; intros H; simpl; [reflexivity|].
  rewrite (H x (or_introl eq_refl)). f_equal. apply IH.
  intros y Hy. apply H. right. assumption.
Qed.

(** The rows [meta.loc[idx]] returns are the rows of [meta] at the keys
    of [idx]. *)
Lemma meta_loc_In (m : list MetaRow) (idx : list Key) (rows : list MetaRow) :
  meta_loc m idx = OK rows ->
  forall x, In x rows <-> In x m /\ In (meta_key x) idx.
Proof.
  revert rows. induction idx as [|k idx IH]; intros rows; simpl.
  - intros H; injection H as <-. simpl. tauto.
  - remember (List.filter (fun r => key_eqb (meta_key r) k) m) as found eqn:E.
    destruct found as [|y found]; [discriminate|].
    destruct (meta_loc m idx) as [tl|e]; [|discriminate].
    unfold bind. intros H; injection H as <-. intros x.
    change (y :: found ++ tl) with ((y :: found) ++ tl).
    rewrite in_app_iff, (IH tl eq_refl x), E, filter_In, key_eqb_eq.
    split.
    + intros [[H1 H2] | [H1 H2]]; split; auto.
    + intros [H1 [H2 | H2]]; [left | right]; split; auto.
Qed.

Lemma meta_loc_filter (m : list MetaRow) (idx : list Key) (rows : list MetaRow) :
  meta_loc m idx = OK rows -> NoDup idx ->
  forall k, In k idx ->
    List.filter (fun r => key_eqb (meta_key r) k) rows
    = List.filter (fun r => key_eqb (meta_key r) k) m.
Proof.
  revert rows. induction idx as [|k0 idx IH]; intros rows; simpl;
    [intros _ _ k []|].
  pose proof (meta_loc_In m idx) as Hin.
  remember (List.filter (fun r => key_eqb (meta_key r) k0) m) as found eqn:E.
  destruct found as [|y found]; [discriminate|].
  destruct (meta_loc m idx) as [tl|e]; [|discriminate].
  unfold bind. intros H; injection H as <-. intros Hnd k Hk.
  inversion Hnd as [|? ? Hk0 Hidx]; subst.
  change (y :: found ++ tl) with ((y :: found) ++ tl).
  rewrite filter_app.
  destruct (key_eqb k0 k) eqn:Ek.
  - apply key_eqb_eq in Ek. subst k.
    rewrite (filter_none _ tl).
    + rewrite app_nil_r, E. apply filter_all.
      intros x Hx. apply filter_In in Hx. apply Hx.
    + intros x Hx. apply (Hin tl eq_refl) in Hx. destruct Hx as [_ Hx].
      destruct (key_eqb (meta_key x) k0) eqn:E2; [|reflexivity].
      apply key_eqb_eq in E2. rewrite E2 in Hx. contradiction.
  - destruct Hk as [Hk | Hk].
    { subst k. rewrite key_eqb_refl in Ek. discriminate. }
    rewrite (filter_none _ (y :: found)).
    + simpl. apply (IH tl eq_refl Hidx k Hk).
    + intros x Hx. rewrite E in Hx. apply filter_In in Hx.
      destruct Hx as [_ Hx]. apply key_eqb_eq in Hx.
      destruct (key_eqb (meta_key x) k) eqn:E2; [|reflexivity].
      apply key_eqb_eq in E2. rewrite Hx in E2. subst k.
      rewrite key_eqb_refl in Ek. discriminate.
Qed.

(** Selecting keys from a selection of [meta] is selecting them from
    [meta]. *)
Lemma meta_loc_sub (m : list MetaRow) (idx1 idx : list Key)
    (rows : list MetaRow) :
  meta_loc m idx1 = OK rows -> NoDup idx1 ->
  (forall k, In k idx -> In k idx1) ->
  meta_loc rows idx = meta_loc m idx.
Proof.
  intros H1 Hnd. induction idx as [|k idx IH]; intros Hsub; simpl;
    [reflexivity|].
  rewrite (meta_loc_filter m idx1 rows H1 Hnd k (Hsub k (or_introl eq_refl))).
  rewrite IH; [reflexivity|].
  intros k' Hk'. apply Hsub. right. assumption.
Qed.

Lemma make_index_NoDup (rows : list Row) : NoDup (_make_index rows).
Proof. apply (unique_by_NoDup key_eqb key_eqb_eq). Qed.

Section Restriction.

Variable U : Utils.
Variable self : IamDataFrame.
Variable sel : Row -> bool.
Variable m1 : list MetaRow.

(** The rows of [m1] at the key of a selected row are those of [meta]. *)
Hypothesis Hm1 :
  forall r, In r (data self) -> sel r = true ->
  forall m, In m m1 /\ meta_key m = scenario_key r
            <-> In m (meta self) /\ meta_key m = scenario_key r.

(** On the restricted container every sub-mask raises the same exception
    or decides the selected rows as it does on the whole table. *)
Lemma keep_col_restrict F rx col v :
  match keep_col U self F rx col v,
        keep_col U (set_meta_rows
                      (set_data self (List.filter sel (data self))) m1)
                 F rx col v with
  | OK (Some m), OK (Some m') =>
      exists f f',
        m = map f (data self)
        /\ m' = map f' (List.filter sel (data self))
        /\ forall r, In r (data self) -> sel r = true -> f r = f' r
  | OK None, OK None => True
  | Raise e, Raise e' => e = e'
  | _, _ => False
  end.
Proof.
  unfold keep_col, data_columns, _LONG_IDX, data_cell, meta_cell.
  cbn [set_meta_rows set_data data meta time_col extra_cols meta_columns].
  destruct (in_cols col (meta_columns self)).
  { destruct (pattern_match U v PNone rx) as [matches|e]; simpl;
      [|reflexivity].
    eexists _, _. split; [reflexivity|]. split; [reflexivity|].
    intros r Hr Hs. apply Bool.eq_iff_eq_true.
    rewrite !key_in_In, !in_map_iff.
    split; intros [m [Hk Hin]]; apply filter_In in Hin;
      destruct Hin as [Hin HP]; exists m; (split; [assumption|]);
      apply filter_In; (split; [|assumption]);
      apply (Hm1 r Hr Hs m); split; assumption. }
  repeat match goal with
         | |- context [if ?c then _ else _] => destruct c
         end;
    repeat match goal with
           | |- context [bind ?c _] => destruct c; simpl
           end;
    first [ reflexivity | exact I
          | eexists _, _; split; [reflexivity|]; split; [reflexivity|];
            intros; reflexivity ].
Qed.

Lemma apply_loop_restrict F rx items :
  forall h h',
  match apply_loop U self F rx items (bool_array (map h (data self))),
        apply_loop U (set_meta_rows
                        (set_data self (List.filter sel (data self))) m1)
                   F rx items
                   (bool_array (map h' (List.filter sel (data self)))) with
  | OK m, OK m' =>
      exists f f',
        m = bool_array (map (fun r => h r && f r) (data self))
        /\ m' = bool_array (map (fun r => h' r && f' r)
                                (List.filter sel (data self)))
        /\ forall r, In r (data self) -> sel r = true -> f r = f' r
  | Raise e, Raise e' => e = e'
  | _, _ => False
  end.
Proof.
  induction items as [|[col v] rest IH]; intros h h'.
  - simpl. exists (fun _ => true), (fun _ => true).
    split; [f_equal; apply map_ext; intros; rewrite andb_true_r; reflexivity|].
    split; [f_equal; apply map_ext; intros; rewrite andb_true_r; reflexivity|].
    reflexivity.
  - cbn [apply_loop]. destruct (is_None v); [apply IH|].
    pose proof (keep_col_restrict F rx col v) as K.
    destruct (keep_col U self F rx col v) as [[m|]|e];
      destruct (keep_col U _ F rx col v) as [[m'|]|e'];
      try contradiction; cbn [bind].
    + destruct K as (f & f' & -> & -> & Hff).
      unfold np_logical_and. cbn [entries]. rewrite !logical_and_map.
      specialize (IH (fun r => h r && f r) (fun r => h' r && f' r)).
      destruct (apply_loop U self F rx rest _) as [k|e];
        destruct (apply_loop U _ F rx rest _) as [k'|e'];
        try exact IH.
      destruct IH as (f2 & f2' & -> & -> & H2).
      exists (fun r => f r && f2 r), (fun r => f' r && f2' r).
      split; [f_equal; apply map_ext; intros; rewrite andb_assoc;
              reflexivity|].
      split; [f_equal; apply map_ext; intros; rewrite andb_assoc;
              reflexivity|].
      intros r Hr Hs. rewrite (Hff r Hr Hs), (H2 r Hr Hs). reflexivity.
    + apply IH.
    + exact K.
Qed.

(** The restricted container has a sub-mask for the entries for which the
    whole table has one. *)
Lemma sub_masks_restrict F rx items :
  match sub_masks U self F rx items,
        sub_masks U (set_meta_rows
                       (set_data self (List.filter sel (data self))) m1)
                  F rx items with
  | OK a, OK b => List.length a = List.length b
  | Raise e, Raise e' => e = e'
  | _, _ => False
  end.
Proof.
  induction items as [|[col v] rest IH]; [reflexivity|].
  cbn [sub_masks]. destruct (is_None v); [exact IH|].
  pose proof (keep_col_restrict F rx col v) as K.
  destruct (keep_col U self F rx col v) as [[m|]|e];
    destruct (keep_col U _ F rx col v) as [[m'|]|e'];
    try contradiction; cbn [bind]; try exact K;
    destruct (sub_masks U self F rx rest) as [a|e];
    destruct (sub_masks U _ F rx rest) as [b|e'];
    try contradiction; cbn [bind]; try exact IH.
  simpl. f_equal. exact IH.
Qed.

End Restriction.

Section FilterTwice.

Variable U : Utils.

(** What a successful [filter] on a copy was built from. *)
Lemma filter_returned self (keep : bool) F ret :
  returned (filter U self (PBool keep) false F) = OK (Some ret) <->
  exists mask m,
    _apply_filters U self F = OK (bool_array mask)
    /\ meta_loc (meta self)
                (_make_index
                   (boolean_index (data self)
                      (if keep then mask else logical_not mask))) = OK m
    /\ ret = set_meta_rows
               (set_data self
                  (boolean_index (data self)
                     (if keep then mask else logical_not mask))) m.
Proof.
  unfold filter. cbn [isinstance_bool negb truthy].
  destruct (_apply_filters U self F) as [[mask|]|e]; cbn [returned].
  - cbn [set_data data meta].
    destruct (meta_loc (meta self) _) as [m|e] eqn:E; cbn [returned].
    + split.
      * intros H. injection H as <-. exists mask, m. auto.
      * intros (mask' & m' & Hm & Hl & ->). injection Hm as <-.
        rewrite E in Hl. injection Hl as <-. reflexivity.
    + split; [discriminate|].
      intros (mask' & m' & Hm & Hl & _). injection Hm as <-.
      rewrite E in Hl. discriminate.
  - split; [destruct keep; discriminate|].
    intros (mask' & m' & Hm & _). discriminate.
  - split; [discriminate|]. intros (mask' & m' & Hm & _). discriminate.
Qed.

Lemma selected_meta self (g : Row -> bool) m1 :
  meta_loc (meta self) (_make_index (List.filter g (data self))) = OK m1 ->
  forall r, In r (data self) -> g r = true ->
  forall m, In m m1 /\ meta_key m = scenario_key r
            <-> In m (meta self) /\ meta_key m = scenario_key r.
Proof.
  intros H r Hr Hg m. rewrite (meta_loc_In _ _ _ H m). split.
  - intros [[H1 _] H2]. auto.
  - intros [H1 H2]. repeat split; try assumption.
    rewrite H2. apply make_index_In. exists r. split; [|reflexivity].
    apply filter_In. auto.
Qed.

(** X2.  Filters compose: when two specifications take the same [regexp]
    flag and do not split [level] from [variable], filtering by the first
    and then filtering the result by the second returns the very
    container (rows in order, columns and [meta]) that one call with both
    specifications returns. *)
Theorem filter_then_filter self A B ret1 ret2 :
  regexp_arg A = regexp_arg B ->
  unsplit A B = true ->
  returned (filter U self (PBool true) false A) = OK (Some ret1) ->
  returned (filter U ret1 (PBool true) false B) = OK (Some ret2) ->
  returned (filter U self (PBool true) false (A ++ B)) = OK (Some ret2).
Proof.
  intros Hrx Hsplit H1 H2.
  apply filter_returned in H1. destruct H1 as (mA & m1 & EA & EM1 & ->).
  destruct (apply_filters_pointwise _ _ _ _ EA) as [g ->].
  rewrite boolean_index_map in *.
  apply filter_returned in H2. destruct H2 as (mB & m2 & EB & EM2 & ->).
  cbn [set_meta_rows set_data data meta] in EM2.
  apply andb_true_iff in Hsplit. destruct Hsplit as [S1 S2].
  apply negb_true_iff in S1, S2.
  (* the mask of the joint call *)
  pose proof (apply_loop_restrict U self g m1 (selected_meta self g m1 EM1)
                (filter_items B) (regexp_arg B) (filter_items B)
                g (fun _ => true)) as R.
  apply apply_filters_mask in EB.
  cbn [set_meta_rows set_data data] in EB.
  rewrite repeat_true_map in EB. rewrite EB in R.
  destruct (apply_loop U self (filter_items B) (regexp_arg B)
                       (filter_items B) (bool_array (map g (data self))))
    as [mAB|e] eqn:EAB; [|contradiction].
  destruct R as (f & f' & -> & Hf' & Hff).
  injection Hf' as ->.
  assert (Hjoint : _apply_filters U self (A ++ B)
                   = OK (bool_array (map (fun r => g r && f r) (data self)))).
  { unfold _apply_filters. fold (regexp_arg (A ++ B)).
    rewrite (regexp_arg_app A B Hrx). rewrite remove_key_app.
    fold (filter_items A). fold (filter_items B).
    rewrite apply_loop_app.
    assert (EA' : apply_loop U self (filter_items A ++ filter_items B)
                    (regexp_arg A) (filter_items A)
                    (np_array_True (List.length (data self)))
                  = OK (bool_array (map g (data self)))).
    { rewrite <- EA. unfold _apply_filters. fold (regexp_arg A).
      fold (filter_items A).
      apply apply_loop_filters_ext. intros col v Hin.
      apply remove_key_In in Hin. cbn [fst] in Hin.
      apply keep_col_filters_ext.
      - intros ->. unfold level_arg. rewrite get_app.
        destruct (get (filter_items A) "level"); [reflexivity|].
        rewrite get_not_in; [reflexivity|]. unfold filter_items.
        rewrite keys_remove_key by discriminate.
        rewrite Hin in S2. exact S2.
      - intros ->. unfold keys. rewrite map_app, in_cols_app.
        fold (keys (filter_items A)). fold (keys (filter_items B)).
        unfold filter_items at 2. rewrite keys_remove_key by discriminate.
        rewrite Hin in S1. cbn [andb] in S1. rewrite S1.
        apply orb_false_r. }
    rewrite EA'. cbn [bind]. rewrite <- EAB. rewrite Hrx.
    apply apply_loop_filters_ext. intros col v Hin.
    apply remove_key_In in Hin. cbn [fst] in Hin.
    apply keep_col_filters_ext.
    - intros ->. unfold level_arg. rewrite get_app.
      rewrite (get_not_in (filter_items A) "level"); [reflexivity|].
      unfold filter_items. rewrite keys_remove_key by discriminate.
      rewrite Hin, andb_true_r in S1. exact S1.
    - intros ->. unfold keys. rewrite map_app, in_cols_app.
      fold (keys (filter_items A)). fold (keys (filter_items B)).
      unfold filter_items at 1. rewrite keys_remove_key by discriminate.
      rewrite Hin, andb_true_r in S2. rewrite S2. reflexivity. }
  apply filter_returned. eexists. eexists. split; [exact Hjoint|].
  rewrite !boolean_index_map in *.
  rewrite (filter_and_ext g f (fun r => true && f' r) (data self)).
  2:{ intros r Hr Hg. rewrite (Hff r Hr Hg). reflexivity. }
  split; [|reflexivity].
  rewrite <- EM2. symmetry.
  apply (meta_loc_sub (meta self)
           (_make_index (List.filter g (data self)))); 
    [assumption | apply make_index_NoDup |].
  intros k Hk. apply make_index_In in Hk. destruct Hk as [r [Hr <-]].
  apply filter_In in Hr. destruct Hr as [Hr _].
  apply make_index_In. exists r. split; [assumption | reflexivity].
Qed.

(** On the container a call of [filter] returned, the loop of the same
    specification raises nothing and builds a mask under which every row
    is one the call with the same [keep] selects; the rows of [meta] are
    the ones the index of the data selects; and after [keep=True] the
    array of [_apply_filters] is a mask. *)
Lemma filter_again_loop self (keep : bool) F ret :
  returned (filter U self (PBool keep) false F) = OK (Some ret) ->
  exists f',
    apply_loop U ret (filter_items F) (regexp_arg F) (filter_items F)
               (bool_array (repeat true (List.length (data ret))))
    = OK (bool_array (map f' (data ret)))
    /\ (forall r, In r (data ret) ->
                  (if keep then f' r else negb (f' r)) = true)
    /\ meta_loc (meta ret) (_make_index (data ret)) = OK (meta ret)
    /\ (keep = true -> _apply_filters U ret F <> OK float64_empty).
Proof.
  intros H1.
  apply filter_returned in H1. destruct H1 as (mA & m1 & EA & EM1 & ->).
  destruct (apply_filters_pointwise _ _ _ _ EA) as [g Hg]. subst mA.
  set (sel := fun r => if keep then g r else negb (g r)).
  assert (Hsel : boolean_index (data self)
                   (if keep then map g (data self)
                    else logical_not (map g (data self)))
                 = List.filter sel (data self)).
  { unfold sel. destruct keep; [apply boolean_index_map|].
    unfold logical_not. rewrite map_map. apply boolean_index_map. }
  rewrite Hsel in *.
  pose proof (apply_loop_restrict U self sel m1
                (selected_meta self sel m1 EM1)
                (filter_items F) (regexp_arg F) (filter_items F)
                (fun _ => true) (fun _ => true)) as R.
  pose proof (apply_filters_mask U _ _ _ EA) as EL.
  rewrite repeat_true_map in EL. rewrite EL in R.
  set (ret := set_meta_rows (set_data self (List.filter sel (data self))) m1)
    in *.
  destruct (apply_loop U ret (filter_items F) (regexp_arg F) (filter_items F)
                       (bool_array
                          (map (fun _ => true) (List.filter sel (data self)))))
    as [mB|e] eqn:EB; [|contradiction].
  destruct R as (f & f' & Hf & -> & Hff).
  injection Hf as Hf.
  assert (Hfg : forall r, In r (data self) -> g r = f r).
  { intros r Hr.
    assert (Hmap : forall a, In a (data self) ->
                     g a = (fun r => true && f r) a).
    { apply map_ext_in_iff. exact Hf. }
    apply (Hmap r Hr). }
  exists (fun r => true && f' r).
  split; [|split; [|split]].
  - unfold ret at 2 3. cbn [set_meta_rows set_data data].
    rewrite repeat_true_map. exact EB.
  - unfold ret. cbn [set_meta_rows set_data data].
    intros r Hr. apply filter_In in Hr. destruct Hr as [Hr Hs].
    cbn [andb]. rewrite <- (Hff r Hr Hs), <- (Hfg r Hr). exact Hs.
  - unfold ret. cbn [set_meta_rows set_data data meta].
    rewrite (meta_loc_sub (meta self)
               (_make_index (List.filter sel (data self))) _ m1 EM1
               (make_index_NoDup _) (fun k H => H)).
    exact EM1.
  - intros -> ER.
    pose proof (proj1 (apply_filters_float U ret F) ER) as [Hd Hs].
    pose proof (sub_masks_restrict U self sel m1
                  (selected_meta self sel m1 EM1)
                  (filter_items F) (regexp_arg F) (filter_items F)) as S.
    fold ret in S. rewrite Hs in S.
    rewrite apply_filters_sub_masks in EA.
    destruct (sub_masks U self (filter_items F) (regexp_arg F)
                        (filter_items F)) as [[|m subs]|e];
      [|discriminate S|contradiction].
    simpl in EA. injection EA as EA.
    apply np_array_True_bool in EA. destruct EA as [Hn EA].
    unfold ret in Hd. cbn [set_meta_rows set_data data] in Hd.
    assert (Hall : List.filter sel (data self) = data self).
    { apply filter_all. intros r Hr. unfold sel.
      rewrite repeat_true_map in EA.
      assert (Hmap : forall a, In a (data self) ->
                       g a = (fun _ => true) a).
      { apply map_ext_in_iff. exact EA. }
      apply (Hmap r Hr). }
    rewrite Hall in Hd. rewrite Hd in Hn. apply Hn. reflexivity.
Qed.

(** X3.  [filter] is idempotent wherever [_apply_filters] yields a mask
    on the result: filtering the container a call returned with the same
    specification and the same [keep] returns that container again,
    unchanged, whether the call kept the matching rows or dropped them.
    The one exception is the float64 array: [_apply_filters] yields it on
    the result only when the call was made with [keep=False] and left no
    row, and the second call then raises the [TypeError] of [~_keep]. *)
Theorem filter_idempotent self (keep : bool) F ret :
  returned (filter U self (PBool keep) false F) = OK (Some ret) ->
  match _apply_filters U ret F with
  | OK float64_empty =>
      keep = false /\ data ret = []
      /\ filter U ret (PBool keep) false F
         = mkOutcome ret [] (Raise InvertTypeError)
  | _ => returned (filter U ret (PBool keep) false F) = OK (Some ret)
  end.
Proof.
  intros H1.
  destruct (filter_again_loop self keep F ret H1)
    as (f' & Hloop & Hall & Hmeta & Hfl).
  destruct (_apply_filters U ret F) as [[mask|]|e] eqn:ER.
  - (* a mask: the second call selects every row *)
    pose proof (apply_filters_mask U ret F mask ER) as ER'.
    assert (Em : mask = map f' (data ret))
      by (rewrite Hloop in ER'; congruence).
    rewrite Em in ER. clear Em ER'.
    apply filter_returned. exists (map f' (data ret)), (meta ret).
    assert (Hkeep : boolean_index (data ret)
                      (if keep then map f' (data ret)
                       else logical_not (map f' (data ret)))
                    = data ret).
    { destruct keep.
      - rewrite boolean_index_map. apply filter_all.
        intros r Hr. apply (Hall r Hr).
      - unfold logical_not. rewrite map_map, boolean_index_map.
        apply filter_all. intros r Hr. apply (Hall r Hr). }
    rewrite Hkeep. split; [exact ER|]. split; [exact Hmeta|].
    destruct ret; reflexivity.
  - (* the float64 array *)
    pose proof (proj1 (apply_filters_float U ret F) ER) as [Hd Hs].
    assert (Hk : keep = false).
    { destruct keep; [|reflexivity]. exfalso. apply Hfl; reflexivity. }
    split; [exact Hk|]. split; [exact Hd|].
    rewrite (filter_float U ret keep false F ER). rewrite Hk. reflexivity.
  - (* the loop on the result does not raise *)
    apply apply_filters_raise in ER. rewrite Hloop in ER. discriminate.
Qed.

End FilterTwice.

(** A run of X2: the components of [A] in 2010, by two calls and by one. *)
Lemma filter_then_filter_witness :
  exists ret1 ret2,
    returned (filter pyam_utils table_components (PBool true) false
                     [("variable", PStr "A|*")]) = OK (Some ret1)
    /\ returned (filter pyam_utils ret1 (PBool true) false
                        [("year", PInt 2010)]) = OK (Some ret2)
    /\ returned (filter pyam_utils table_components (PBool true) false
                        ([("variable", PStr "A|*")] ++ [("year", PInt 2010)]))
       = OK (Some ret2).
Proof.
  eexists. eexists.
  assert (H1 : returned (filter pyam_utils table_components (PBool true) false
                                [("variable", PStr "A|*")])
               = OK (Some (set_data table_components
                             [ row "M" "S" "World" "A|x" "U" 2010 2;
                               row "M" "S" "World" "A|y" "U" 2010 3 ])))
    by (vm_compute; reflexivity).
  assert (H2 : returned (filter pyam_utils
                           (set_data table_components
                              [ row "M" "S" "World" "A|x" "U" 2010 2;
                                row "M" "S" "World" "A|y" "U" 2010 3 ])
                           (PBool true) false [("year", PInt 2010)])
               = OK (Some (set_data table_components
                             [ row "M" "S" "World" "A|x" "U" 2010 2;
                               row "M" "S" "World" "A|y" "U" 2010 3 ])))
    by (vm_compute; reflexivity).
  split; [exact H1|]. split; [exact H2|].
  exact (filter_then_filter pyam_utils table_components
           [("variable", PStr "A|*")] [("year", PInt 2010)] _ _
           eq_refl eq_refl H1 H2).
Defined.

(** A run of X3 on the rows that are not components of [A]. *)
Lemma filter_idempotent_witness :
  exists ret,
    returned (filter pyam_utils table_components (PBool false) false
                     [("variable", PStr "A|*")]) = OK (Some ret)
    /\ returned (filter pyam_utils ret (PBool false) false
                        [("variable", PStr "A|*")]) = OK (Some ret).
Proof.
  eexists.
  assert (H1 : returned (filter pyam_utils table_components (PBool false) false
                                [("variable", PStr "A|*")])
               = OK (Some (set_data table_components
                             [ row "M" "S" "World" "A" "U" 2010 5 ])))
    by (vm_compute; reflexivity).
  split; [exact H1|].
  exact (filter_idempotent pyam_utils table_components false _ _ H1).
Defined.

(** ** Required variables *)

Lemma filter_nil_all {A : Type} (f : A -> bool) (l : list A) :
  List.filter f l = [] -> forall x, In x l -> f x = false.
Proof.
  intros H x Hx. destruct (f x) eqn:E; [|reflexivity].
  assert (Hin : In x (List.filter f l)) by (apply filter_In; auto).
  rewrite H in Hin. destruct Hin.
Qed.

Lemma index_difference_In (index other : list Key) (k : Key) :
  In k (index_difference index other) <-> In k index /\ ~ In k other.
Proof.
  unfold index_difference.
  rewrite sort_by_In, (unique_by_In key_eqb key_eqb_eq), filter_In.
  rewrite negb_true_iff, <- not_true_iff_false, (key_in_In k other).
  reflexivity.
Qed.

Lemma index_difference_NoDup (index other : list Key) :
  NoDup (index_difference index other).
Proof.
  unfold index_difference.
  eapply Permutation_NoDup;
    [apply Permutation_sym, sort_by_perm
    | apply (unique_by_NoDup key_eqb key_eqb_eq)].
Qed.

(** [self.meta.loc[idx, col] = v] leaves the rows at the other keys as
    they are. *)
Lemma meta_loc_set_frame (self self' : IamDataFrame) (idx : list Key)
    (col : string) (v : cell) :
  meta_loc_set self idx col v = OK self' ->
  forall m, In m (meta self') -> ~ In (meta_key m) idx -> In m (meta self).
Proof.
  unfold meta_loc_set.
  destruct (List.find _ idx); [discriminate|].
  destruct (index_of col (meta_columns self));
    intros H; injection H as <-; cbn [meta]; intros m Hm Hk;
    apply in_map_iff in Hm; destruct Hm as [m0 [E Hm0]];
    destruct (key_in (meta_key m0) idx) eqn:Ek;
    try (subst m; assumption);
    subst m; cbn [meta_key] in Hk; apply key_in_In in Ek; contradiction.
Qed.

Section RequirementProperties.

Variable U : Utils.

(** X4.  When the filter for the required variable (with the unit and the
    year, if given) can be evaluated, [require_variable] returns [None]
    exactly when every scenario of [meta] has a row that passes it;
    otherwise it returns, without repeats, exactly the scenarios of
    [meta] with no such row.  The data and the index of [meta] never
    change; without [exclude_on_fail] nothing changes, and with it the
    returned scenarios hold [exclude = True] while the rows of [meta] of
    all other scenarios are left as they were. *)
Theorem require_variable_outcome self variable unit year ex keep :
  _apply_filters U self (require_criteria variable unit year)
  = OK (bool_array keep) ->
  let o := require_variable U self variable unit year ex in
  let missing k := In k (meta_index self) /\ ~ has_row self keep k in
  (returned o = OK None
   <-> forall k, In k (meta_index self) -> has_row self keep k)
  /\ (exists idx,
        returned o = OK (if (List.length idx =? 0)%nat then None else Some idx)
        /\ NoDup idx
        /\ (forall k, In k idx <-> missing k)
        /\ forall m, In m (meta (self_after o)) ->
             if ex
             then (In (meta_key m) idx ->
                   meta_cell (self_after o) "exclude" m = CBool true)
                  /\ (~ In (meta_key m) idx -> In m (meta self))
             else True)
  /\ data (self_after o) = data self
  /\ meta_index (self_after o) = meta_index self
  /\ (ex = false -> self_after o = self).
Proof.
  intros Hk o missing. subst o. unfold require_variable. rewrite Hk.
  set (idx := index_difference (meta_index self)
                (_meta_idx (map scenario_key
                              (boolean_index (data self) keep)))).
  assert (Hidx : forall k, In k idx <-> missing k).
  { intros k. unfold idx, missing, has_row, _meta_idx.
    rewrite index_difference_In, (unique_by_In key_eqb key_eqb_eq),
      in_map_iff.
    split; intros [H1 H2]; (split; [assumption|]); intros [r [Ha Hb]];
      apply H2; exists r; auto. }
  assert (Hdec : forall k, In k (meta_index self) ->
                   has_row self keep k \/ ~ has_row self keep k).
  { intros k _. unfold has_row.
    destruct (key_in k (map scenario_key (boolean_index (data self) keep)))
      eqn:E.
    - left. apply key_in_In, in_map_iff in E. destruct E as [r [E Hr]].
      exists r. auto.
    - right. intros [r [Hr E2]].
      assert (Hin : In k (map scenario_key (boolean_index (data self) keep))).
      { apply in_map_iff. exists r. auto. }
      apply key_in_In in Hin. rewrite Hin in E. discriminate. }
  destruct (meta_loc_set_ok self idx "exclude" (CBool true)) as
    (self' & Hset & Hd & Hi & Hc).
  { intros k Hin. apply Hidx in Hin. apply Hin. }
  destruct idx as [|k0 idx0] eqn:Eidx; cbn [List.length Nat.eqb].
  - cbn [returned self_after]. split.
    + split; [|reflexivity]. intros _ k Hin.
      destruct (Hdec k Hin) as [H | H]; [assumption|].
      exfalso. apply (proj2 (Hidx k)). split; assumption.
    + split.
      * exists []. cbn [List.length Nat.eqb]. split; [reflexivity|].
        split; [constructor|]. split; [exact Hidx|].
        intros m Hm. destruct ex; [|exact I]. split; [intros []|].
        intros _. exact Hm.
      * repeat split; reflexivity.
  - destruct ex.
    + rewrite Hset. cbn [returned self_after]. split.
      * split; [discriminate|]. intros Hall. exfalso.
        destruct (proj1 (Hidx k0) (or_introl eq_refl)) as [Hin Hno].
        apply Hno, Hall, Hin.
      * split.
        { exists (k0 :: idx0). cbn [List.length Nat.eqb].
          split; [reflexivity|]. split.
          - rewrite <- Eidx. apply index_difference_NoDup.
          - split; [exact Hidx|]. intros m Hm. split.
            + intros Hin. apply Hc; assumption.
            + intros Hnot. eapply meta_loc_set_frame; eassumption. }
        split; [assumption|]. split; [assumption|]. discriminate.
    + cbn [returned self_after]. split.
      * split; [discriminate|]. intros Hall. exfalso.
        destruct (proj1 (Hidx k0) (or_introl eq_refl)) as [Hin Hno].
        apply Hno, Hall, Hin.
      * split.
        { exists (k0 :: idx0). cbn [List.length Nat.eqb].
          split; [reflexivity|]. split.
          - rewrite <- Eidx. apply index_difference_NoDup.
          - split; [exact Hidx|]. intros m Hm. exact I. }
        repeat split; reflexivity.
Qed.

End RequirementProperties.

(** A run of X4: the variable [B] is in no scenario of the table. *)
Lemma require_variable_outcome_witness :
  exists idx,
    returned (require_variable pyam_utils table_three (PStr "B") PNone PNone
                               true)
    = OK (if (List.length idx =? 0)%nat then None else Some idx)
    /\ NoDup idx
    /\ forall k, In k idx <->
         In k (meta_index table_three)
         /\ ~ has_row table_three [false; false; false] k.
Proof.
  destruct (require_variable_outcome pyam_utils table_three (PStr "B") PNone
              PNone true [false; false; false] eq_refl)
    as (_ & (idx & H1 & H2 & H3 & _) & _).
  exists idx. auto.
Defined.

(** ** Validation by criteria *)

Lemma mem_In (i : nat) (s : list nat) : mem i s = true <-> In i s.
Proof.
  unfold mem. rewrite existsb_exists. split.
  - intros [x [Hx E]]. apply Nat.eqb_eq in E. subst; assumption.
  - intros H. exists i. split; [assumption | apply Nat.eqb_refl].
Qed.

Lemma set_of_In (i : nat) (l : list nat) : In i (set_of l) <-> In i l.
Proof. apply (unique_by_In Nat.eqb Nat.eqb_eq). Qed.

Lemma set_and_In (i : nat) (a b : list nat) :
  In i (set_and a b) <-> In i a /\ In i b.
Proof. unfold set_and. rewrite filter_In, mem_In. reflexivity. Qed.

Lemma set_or_In (i : nat) (a b : list nat) :
  In i (set_or a b) <-> In i a \/ In i b.
Proof.
  unfold set_or. rewrite in_app_iff, filter_In, negb_true_iff. split.
  - intros [H | [H _]]; auto.
  - intros [H | H]; [left; assumption|].
    destruct (mem i a) eqn:E; [left; apply mem_In; assumption | right; auto].
Qed.

Lemma set_eqb_iff (a b : list nat) :
  set_eqb a b = true <-> forall i, In i a <-> In i b.
Proof.
  unfold set_eqb. rewrite andb_true_iff, !forallb_forall. split.
  - intros [H1 H2] i. split; intros H; apply mem_In; auto.
  - intros H. split; intros i Hi; apply mem_In, H; assumption.
Qed.

Lemma labels_unique {A : Type} (l : list (nat * A)) (i : nat) (a b : A) :
  NoDup (map fst l) -> In (i, a) l -> In (i, b) l -> a = b.
Proof.
  induction l as [|[j x] l IH]; simpl; intros Hnd Ha Hb; [destruct Ha|].
  inversion Hnd as [|? ? Hj Hl]; subst.
  destruct Ha as [Ha | Ha], Hb as [Hb | Hb].
  - congruence.
  - exfalso. injection Ha as -> _. apply Hj.
    apply (in_map fst) in Hb. exact Hb.
  - exfalso. injection Hb as -> _. apply Hj.
    apply (in_map fst) in Ha. exact Ha.
  - apply IH; assumption.
Qed.

Lemma labels_filter_NoDup {A : Type} (f : nat * A -> bool) (l : list (nat * A)) :
  NoDup (map fst l) -> NoDup (map fst (List.filter f l)).
Proof.
  induction l as [|x l IH]; simpl; intros Hnd; [constructor|].
  inversion Hnd as [|? ? Hx Hl]; subst.
  destruct (f x); simpl; [|apply IH; assumption].
  constructor; [|apply IH; assumption].
  intros Hin. apply Hx. apply in_map_iff in Hin.
  destruct Hin as [y [E Hy]]. apply filter_In in Hy.
  apply in_map_iff. exists y. split; [assumption | apply Hy].
Qed.

Lemma combine_seq_fst {A : Type} (l : list A) (s : nat) :
  map fst (combine (seq s (List.length l)) l) = seq s (List.length l).
Proof.
  revert s. induction l as [|x l IH]; intros s; simpl; [reflexivity|].
  rewrite IH. reflexivity.
Qed.

Lemma combine_seq_In {A : Type} (l : list A) (s : nat) (x : A) :
  In x l <-> exists i, In (i, x) (combine (seq s (List.length l)) l).
Proof.
  revert s. induction l as [|y l IH]; intros s; simpl.
  - split; [intros [] | intros [i []]].
  - rewrite (IH (S s)). split.
    + intros [-> | [i H]]; [exists s; left; reflexivity | exists i; right; exact H].
    + intros [i [H | H]]; [left; congruence | right; exists i; exact H].
Qed.

Lemma label_rows_NoDup (df : list Row) : NoDup (map fst (label_rows df)).
Proof. unfold label_rows. rewrite combine_seq_fst. apply seq_NoDup. Qed.

Lemma label_rows_In (df : list Row) (r : Row) :
  In r df <-> exists i, In (i, r) (label_rows df).
Proof. apply combine_seq_In. Qed.

Lemma loc_In (rows : labelled) (idx : list nat) (i : nat) (r : Row) :
  In (i, r) (loc rows idx) <-> In (i, r) rows /\ In i idx.
Proof.
  unfold loc. rewrite in_flat_map. split.
  - intros [j [Hj H]]. apply filter_In in H. destruct H as [H E].
    apply Nat.eqb_eq in E. simpl in E. subst j. auto.
  - intros [H Hi]. exists i. split; [assumption|].
    apply filter_In. split; [assumption | apply Nat.eqb_refl].
Qed.

Lemma index_where_In (cond : Row -> bool) (rows : labelled) (i : nat) :
  In i (index_where cond rows)
  <-> exists r, In (i, r) rows /\ cond r = true.
Proof.
  unfold index_where. rewrite set_of_In, in_map_iff. split.
  - intros [[j r] [E H]]. simpl in E. subst j. apply filter_In in H.
    exists r. exact H.
  - intros [r [H1 H2]]. exists (i, r). split; [reflexivity|].
    apply filter_In. auto.
Qed.

Lemma get_in_keys {A : Type} (d : list (string * A)) (k : string) :
  in_cols k (keys d) = true <-> exists v, get d k = Some v.
Proof.
  unfold keys. induction d as [|[k' v] d IH]; cbn [map fst get].
  - split; [discriminate | intros [v H]; discriminate].
  - rewrite in_cols_cons, String.eqb_sym.
    destruct (k' =? k); cbn [orb]; [|exact IH].
    split; [intros _; exists v; reflexivity | reflexivity].
Qed.

Section CriteriaProperties.

Variable U : Utils.
Variable tc : time_col_t.

(** The set [where_idx] of [_check_rows]. *)
Lemma where_idx_In (rows : labelled) (check : check_t) (i : nat) :
  In i (match get check "year" with
        | Some y =>
            index_where (fun r => Qeq_bool (inject_Z (year_of U tc r)) y) rows
        | None => set_of (map fst rows)
        end)
  <-> exists r, In (i, r) rows /\ in_year U tc check r = true.
Proof.
  unfold in_year. destruct (get check "year") as [y|].
  - apply index_where_In.
  - rewrite set_of_In, in_map_iff. split.
    + intros [[j r] [E H]]. simpl in E. subst j. exists r. auto.
    + intros [r [H _]]. exists (i, r). auto.
Qed.

(** Out of range, any: the labels of the rows of the group that are in
    the year and out of bounds. *)
Lemma check_rows_any (rows : labelled) (check : check_t) :
  well_formed check = true -> NoDup (map fst rows) ->
  exists s,
    _check_rows U tc rows check false "any" = inr s
    /\ forall i, In i s <->
         exists r, In (i, r) rows /\ in_year U tc check r = true
                   /\ out_of_bounds check r = true.
Proof.
  intros Hwf Hnd. apply andb_true_iff in Hwf. destruct Hwf as [Hv Hb].
  unfold _check_rows. rewrite Hv. cbn [negb].
  set (where_idx := match get check "year" with
                    | Some y => index_where _ rows
                    | None => set_of (map fst rows)
                    end).
  assert (Hw : forall i, In i where_idx <->
                 exists r, In (i, r) rows /\ in_year U tc check r = true)
    by (intros i; apply where_idx_In).
  assert (Hloc : forall (cond : Row -> bool) i,
            In i where_idx /\ In i (index_where cond (loc rows where_idx))
            <-> exists r, In (i, r) rows /\ in_year U tc check r = true
                          /\ cond r = true).
  { intros cond i. rewrite index_where_In. split.
    - intros [Hi [r [Hr Hc]]]. apply loc_In in Hr. destruct Hr as [Hr _].
      apply Hw in Hi. destruct Hi as [r' [Hr' Hy]].
      pose proof (labels_unique rows i r r' Hnd Hr Hr') as E. subst r'.
      exists r. auto.
    - intros [r [Hr [Hy Hc]]].
      assert (Hi : In i where_idx) by (apply Hw; exists r; auto).
      split; [assumption|]. exists r. split; [|assumption].
      apply loc_In. auto. }
  unfold out_of_bounds.
  apply orb_true_iff in Hb.
  destruct (get check "up") as [up|] eqn:Eup;
    destruct (get check "lo") as [lo|] eqn:Elo; cbn [app fold_left].
  - eexists. split; [reflexivity|]. intros i.
    rewrite set_and_In, set_or_In. split.
    + intros [Hi [H | H]].
      * destruct (proj1 (Hloc _ i) (conj Hi H)) as [r [Hr [Hy Hc]]].
        exists r. split; [assumption|]. split; [assumption|].
        rewrite Hc. reflexivity.
      * destruct (proj1 (Hloc _ i) (conj Hi H)) as [r [Hr [Hy Hc]]].
        exists r. split; [assumption|]. split; [assumption|].
        rewrite Hc. apply orb_true_r.
    + intros [r [Hr [Hy Hc]]]. apply orb_true_iff in Hc.
      destruct Hc as [Hc | Hc].
      * destruct (proj2 (Hloc (fun r => negb (Qle_bool (value r) up)) i))
          as [Hi H]; [exists r; auto|]. auto.
      * destruct (proj2 (Hloc (fun r => negb (Qle_bool lo (value r))) i))
          as [Hi H]; [exists r; auto|]. auto.
  - eexists. split; [reflexivity|]. intros i. rewrite set_and_In.
    rewrite Hloc. split; intros [r [Hr [Hy Hc]]]; exists r;
      (split; [assumption|]); (split; [assumption|]).
    + rewrite Hc. reflexivity.
    + rewrite orb_false_r in Hc. exact Hc.
  - eexists. split; [reflexivity|]. intros i. rewrite set_and_In.
    rewrite Hloc. split; intros [r [Hr [Hy Hc]]]; exists r;
      (split; [assumption|]); (split; [assumption|]); exact Hc.
  - exfalso. destruct Hb as [Hb | Hb]; apply get_in_keys in Hb;
      destruct Hb as [v Hb]; congruence.
Qed.

Lemma groupby_meta_In (rows : labelled) (lr : nat * Row) :
  In lr rows <-> exists g, In g (groupby_meta rows) /\ In lr g.
Proof.
  unfold groupby_meta. split.
  - intros H. eexists. split.
    + apply in_map_iff. exists (scenario_key (snd lr)). split; [reflexivity|].
      apply sort_by_In, (unique_by_In key_eqb key_eqb_eq).
      apply in_map_iff. exists lr. auto.
    + apply filter_In. split; [assumption | apply key_eqb_refl].
  - intros [g [Hg H]]. apply in_map_iff in Hg. destruct Hg as [k [<- _]].
    apply filter_In in H. apply H.
Qed.

Lemma groupby_meta_NoDup (rows : labelled) (g : labelled) :
  NoDup (map fst rows) -> In g (groupby_meta rows) -> NoDup (map fst g).
Proof.
  intros Hnd Hg. unfold groupby_meta in Hg. apply in_map_iff in Hg.
  destruct Hg as [k [<- _]]. apply labels_filter_NoDup. assumption.
Qed.

Lemma check_groups_any (groups : list labelled) (check : check_t) :
  well_formed check = true ->
  (forall g, In g groups -> NoDup (map fst g)) ->
  exists idxs,
    check_groups U tc groups check false "any" = inr idxs
    /\ forall i, In i (List.concat idxs) <->
         exists g r, In g groups /\ In (i, r) g
                     /\ in_year U tc check r = true
                     /\ out_of_bounds check r = true.
Proof.
  intros Hwf. induction groups as [|g groups IH]; intros Hnd.
  - exists []. split; [reflexivity|]. intros i. simpl. split; [intros []|].
    intros (g & r & [] & _).
  - destruct (check_rows_any g check Hwf (Hnd g (or_introl eq_refl)))
      as [s [Hs Hin]].
    destruct IH as [idxs [Hi Hall]];
      [intros g' Hg'; apply Hnd; right; assumption|].
    exists (s :: idxs). cbn [check_groups]. rewrite Hs, Hi.
    split; [reflexivity|]. intros i. cbn [List.concat].
    rewrite in_app_iff, Hin, Hall. split.
    + intros [[r H] | (g' & r & Hg' & H)].
      * exists g, r. split; [left; reflexivity | exact H].
      * exists g', r. split; [right; assumption | exact H].
    + intros (g' & r & [<- | Hg'] & H).
      * left. exists r. exact H.
      * right. exists g', r. auto.
Qed.

Lemma criteria_loop_any (df : labelled) (criteria : criteria_t) :
  forallb (fun c => well_formed (snd c)) criteria = true ->
  NoDup (map fst df) ->
  exists idxs,
    criteria_loop U tc df criteria false "any" = inr idxs
    /\ forall i, In i (List.concat idxs) <->
         exists r, In (i, r) df /\ fails U tc criteria r.
Proof.
  intros Hwf Hnd. induction criteria as [|[var check] rest IH].
  - exists []. split; [reflexivity|]. intros i. simpl. split; [intros []|].
    intros (r & _ & check & [] & _).
  - cbn [forallb snd] in Hwf. apply andb_true_iff in Hwf.
    destruct Hwf as [Hc Hrest].
    destruct (IH Hrest) as [tl [Htl Hin]].
    set (_df := List.filter (fun lr => variable (snd lr) =? var) df).
    destruct (check_groups_any (groupby_meta _df) check Hc)
      as [idxs [Hi Hall]].
    { intros g Hg. apply (groupby_meta_NoDup _df); [|assumption].
      apply labels_filter_NoDup. assumption. }
    exists (idxs ++ tl). cbn [criteria_loop]. fold _df. rewrite Hi, Htl.
    split; [reflexivity|]. intros i.
    rewrite concat_app, in_app_iff, Hall, Hin. split.
    + intros [(g & r & Hg & Hr & Hy & Hb) | (r & Hr & check' & H1 & H2)].
      * assert (Hdf : In (i, r) _df)
          by (apply groupby_meta_In; exists g; auto).
        apply filter_In in Hdf. destruct Hdf as [Hdf Ev].
        apply String.eqb_eq in Ev. cbn [snd] in Ev.
        exists r. split; [assumption|]. exists check.
        split; [left; rewrite Ev; reflexivity | auto].
      * exists r. split; [assumption|]. exists check'.
        split; [right; assumption | assumption].
    + intros (r & Hr & check' & [E | H1] & H2).
      * injection E as Ev <-. left.
        assert (Hdf : In (i, r) _df).
        { apply filter_In. split; [assumption|]. cbn [snd].
          apply String.eqb_eq. symmetry. exact Ev. }
        apply groupby_meta_In in Hdf. destruct Hdf as [g [Hg Hgr]].
        exists g, r. tauto.
      * right. exists r. split; [assumption|]. exists check'. auto.
Qed.

Lemma apply_criteria_any (df : list Row) (criteria : criteria_t) :
  forallb (fun c => well_formed (snd c)) criteria = true ->
  exists rows,
    _apply_criteria U tc df criteria false "any" = inr rows
    /\ forall r, In r rows <-> In r df /\ fails U tc criteria r.
Proof.
  intros Hwf.
  destruct (criteria_loop_any (label_rows df) criteria Hwf
              (label_rows_NoDup df)) as [idxs [Hi Hin]].
  unfold _apply_criteria. rewrite Hi. eexists. split; [reflexivity|].
  intros r. rewrite in_map_iff. split.
  - intros [[i r'] [E H]]. simpl in E. subst r'. apply loc_In in H.
    destruct H as [Hr Hidx]. apply Hin in Hidx.
    destruct Hidx as [r' [Hr' Hf]].
    rewrite (labels_unique _ i r r' (label_rows_NoDup df) Hr Hr').
    split; [|assumption]. apply label_rows_In. exists i. assumption.
  - intros [Hr Hf]. apply label_rows_In in Hr. destruct Hr as [i Hr].
    exists (i, r). split; [reflexivity|]. apply loc_In.
    split; [assumption|]. apply Hin. exists r. auto.
Qed.

End CriteriaProperties.

Section ValidateProperties.

Variable U : Utils.

(** X5.  For criteria whose checks name only [up], [lo] and [year] and
    give a bound, [validate] never raises and reports exactly the rows of
    the data that fail: the rows whose variable has a check, that are in
    the year of the check (if it names one) and whose value is above [up]
    or below [lo]; it returns [None] when there is none.  The data and
    the index of [meta] never change; without [exclude_on_fail] nothing
    changes, and with it the scenarios of the reported rows hold
    [exclude = True] while the rows of [meta] of the other scenarios are
    left as they were. *)
Theorem validate_reports self criteria ex :
  forallb (fun c => well_formed (snd c)) criteria = true ->
  keys_in_meta self = true ->
  let o := validate U self criteria ex in
  exists df,
    (forall r, In r df <->
       In r (data self) /\ fails U (time_col self) criteria r)
    /\ result_of o = inr (match df with [] => None | _ => Some df end)
    /\ data (after o) = data self
    /\ meta_index (after o) = meta_index self
    /\ (ex = false -> after o = self)
    /\ (ex = true ->
        forall m, In m (meta (after o)) ->
          ((exists r, In r df /\ scenario_key r = meta_key m) ->
           meta_cell (after o) "exclude" m = CBool true)
          /\ (~ (exists r, In r df /\ scenario_key r = meta_key m) ->
              In m (meta self))).
Proof.
  intros Hwf Hinv o. subst o.
  destruct (apply_criteria_any U (time_col self) (data self) criteria Hwf)
    as [df [Hdf Hin]].
  exists df. split; [exact Hin|].
  unfold validate. rewrite Hdf.
  destruct df as [|r0 df'].
  - cbn [result_of after]. repeat split; try reflexivity.
    + intros [r [[] _]].
    + intros _. assumption.
  - cbv beta iota.
    change (0 <? List.length (r0 :: df'))%nat with true.
    rewrite andb_true_r.
    remember (r0 :: df') as rows eqn:Erows. clear Erows.
    assert (Hidx : forall k, In k (_meta_idx (map scenario_key rows)) <->
                     exists r, In r rows /\ scenario_key r = k).
    { intros k. unfold _meta_idx.
      rewrite (unique_by_In key_eqb key_eqb_eq), in_map_iff.
      split; intros [r [H1 H2]]; exists r; auto. }
    destruct ex.
    + destruct (meta_loc_set_ok self (_meta_idx (map scenario_key rows))
                  "exclude" (CBool true)) as (self' & Hset & Hd & Hi & Hc).
      { intros k Hk. apply Hidx in Hk. destruct Hk as [r [Hr <-]].
        apply Hin in Hr. destruct Hr as [Hr _].
        unfold keys_in_meta in Hinv. rewrite forallb_forall in Hinv.
        apply key_in_In. apply Hinv. assumption. }
      unfold _exclude_on_fail. rewrite Hset. cbn [returned self_after].
      cbn [result_of after].
      split; [reflexivity|]. split; [assumption|]. split; [assumption|].
      split; [discriminate|]. intros _ m Hm. split.
      * intros Hex. apply Hc; [assumption|]. apply Hidx. assumption.
      * intros Hno. apply (meta_loc_set_frame _ _ _ _ _ Hset m Hm).
        intros Hk. apply Hno. apply Hidx. assumption.
    + cbn [result_of after].
      repeat split; try reflexivity; discriminate.
Qed.

Lemma check_rows_malformed tc rows check in_range :
  well_formed check = false ->
  _check_rows U tc rows check in_range "any"
  = inl (if forallb (fun k => in_cols k ["up"; "lo"; "year"]) (keys check)
         then no_set_given
         else unknown_checking_type
                (List.filter (fun k => negb (in_cols k ["up"; "lo"; "year"]))
                             (keys check))).
Proof.
  intros Hwf. unfold well_formed in Hwf. unfold _check_rows.
  destruct (forallb _ (keys check)); cbn [negb]; [|reflexivity].
  cbn [andb] in Hwf. apply orb_false_iff in Hwf. destruct Hwf as [H1 H2].
  rewrite (get_not_in check "up" H1), (get_not_in check "lo" H2).
  reflexivity.
Qed.

Lemma criteria_loop_app tc df (xs ys : criteria_t) in_range return_test :
  criteria_loop U tc df (xs ++ ys) in_range return_test
  = match criteria_loop U tc df xs in_range return_test with
    | inl e => inl e
    | inr a =>
        match criteria_loop U tc df ys in_range return_test with
        | inl e => inl e
        | inr b => inr (a ++ b)
        end
    end.
Proof.
  induction xs as [|[var check] xs IH]; cbn [criteria_loop app].
  - destruct (criteria_loop U tc df ys in_range return_test); reflexivity.
  - destruct (check_groups U tc _ check in_range return_test) as [e|idxs];
      [reflexivity|].
    rewrite IH.
    destruct (criteria_loop U tc df xs in_range return_test) as [e|a];
      [reflexivity|].
    destruct (criteria_loop U tc df ys in_range return_test) as [e|b];
      [reflexivity|].
    rewrite app_assoc. reflexivity.
Qed.

(** X6.  A malformed check (one that names something other than [up],
    [lo] and [year], or that gives no bound) is only noticed when the
    data has a row of its variable.  Then, the checks before it in the
    criteria being well formed, [validate] raises (the [ValueError] for
    an unknown name, otherwise the [TypeError] of the union of no set)
    and leaves the container as it was.  When no row has the variable,
    the call is the call without that check, whatever the other checks
    are: alone, the malformed check makes [validate] return [None] as if
    every row had passed. *)
Theorem validate_malformed_check self before var check after ex :
  well_formed check = false ->
  (if existsb (fun r => variable r =? var) (data self)
   then
     forallb (fun c => well_formed (snd c)) before = true ->
     validate U self (before ++ (var, check) :: after) ex
     = mkCriteriaOutcome self []
         (inl (if forallb (fun k => in_cols k ["up"; "lo"; "year"])
                          (keys check)
               then no_set_given
               else unknown_checking_type
                      (List.filter
                         (fun k => negb (in_cols k ["up"; "lo"; "year"]))
                         (keys check))))
   else
     validate U self (before ++ (var, check) :: after) ex
     = validate U self (before ++ after) ex)
  /\ validate U self [] ex = mkCriteriaOutcome self [] (inr None).
Proof.
  intros Hwf. split; [|reflexivity].
  set (_df := List.filter (fun lr => variable (snd lr) =? var)
                          (label_rows (data self))).
  destruct (existsb (fun r => variable r =? var) (data self)) eqn:E.
  - intros Hbefore.
    destruct (criteria_loop_any U (time_col self) (label_rows (data self))
                before Hbefore (label_rows_NoDup (data self)))
      as [idxs [Hb _]].
    unfold validate, _apply_criteria.
    rewrite criteria_loop_app, Hb. cbn [criteria_loop]. fold _df.
    apply existsb_exists in E. destruct E as [r [Hr Ev]].
    apply label_rows_In in Hr. destruct Hr as [i Hr].
    assert (Hdf : In (i, r) _df) by (apply filter_In; auto).
    apply groupby_meta_In in Hdf. destruct Hdf as [g [Hg _]].
    destruct (groupby_meta _df) as [|g0 gs]; [destruct Hg|].
    cbn [check_groups]. rewrite (check_rows_malformed _ _ _ _ Hwf).
    reflexivity.
  - assert (Hnil : _df = []).
    { apply filter_none. intros [i r] Hir. cbn [snd].
      assert (Hr : In r (data self)) by (apply label_rows_In; exists i; auto).
      destruct (variable r =? var) eqn:Ev; [|reflexivity].
      assert (Hex : existsb (fun r => variable r =? var) (data self) = true)
        by (apply existsb_exists; exists r; auto).
      rewrite Hex in E. discriminate. }
    assert (Hloop : criteria_loop U (time_col self) (label_rows (data self))
                      (before ++ (var, check) :: after) false "any"
                    = criteria_loop U (time_col self) (label_rows (data self))
                        (before ++ after) false "any").
    { rewrite !criteria_loop_app. cbn [criteria_loop]. fold _df.
      rewrite Hnil. cbn [groupby_meta check_groups].
      destruct (criteria_loop U (time_col self) (label_rows (data self))
                              before false "any") as [e|a]; [reflexivity|].
      change (check_groups U (time_col self) (groupby_meta []) check false
                           "any") with (@inr criteria_exn _ (@nil (list nat))).
      destruct (criteria_loop U (time_col self) (label_rows (data self))
                              after false "any"); reflexivity. }
    unfold validate, _apply_criteria. rewrite Hloop. reflexivity.
Qed.

End ValidateProperties.

(** A run of X5: the bound [up = 4] on the variable [A] of the components
    table is broken by its only row. *)
Lemma validate_reports_witness :
  exists df,
    (forall r, In r df <->
       In r (data table_components)
       /\ fails pyam_utils year_col [("A", [("up", 4%Q)])] r)
    /\ result_of (validate pyam_utils table_components
                           [("A", [("up", 4%Q)])] true)
       = inr (match df with [] => None | _ => Some df end).
Proof.
  destruct (validate_reports pyam_utils table_components
              [("A", [("up", 4%Q)])] true eq_refl eq_refl)
    as (df & H1 & H2 & _).
  exists df. auto.
Defined.

(** A run of X6: a check that gives only a year, after a well-formed
    check; on the variable [A] it raises, on the variable [B], which no
    row has, the call is the call with the first check alone. *)
Lemma validate_malformed_check_witness :
  validate pyam_utils table_components
           ([("A|x", [("up", 1%Q)])] ++ ("A", [("year", 2010%Q)]) :: []) false
  = mkCriteriaOutcome table_components [] (inl no_set_given)
  /\ validate pyam_utils table_components
              ([("A|x", [("up", 1%Q)])] ++ ("B", [("year", 2010%Q)]) :: [])
              false
     = validate pyam_utils table_components ([("A|x", [("up", 1%Q)])] ++ [])
                false.
Proof.
  split.
  - exact (proj1 (validate_malformed_check pyam_utils table_components
                    [("A|x", [("up", 1%Q)])] "A" [("year", 2010%Q)] [] false
                    eq_refl) eq_refl).
  - exact (proj1 (validate_malformed_check pyam_utils table_components
                    [("A|x", [("up", 1%Q)])] "B" [("year", 2010%Q)] [] false
                    eq_refl)).
Defined.

Section CategorizeProperties.

Variable U : Utils.
Variable tc : time_col_t.

Lemma checked_set_In (rows : labelled) (check : check_t) (cond : Row -> bool)
    (i : nat) :
  NoDup (map fst rows) ->
  let where_idx :=
    match get check "year" with
    | Some y =>
        index_where (fun r => Qeq_bool (inject_Z (year_of U tc r)) y) rows
    | None => set_of (map fst rows)
    end in
  In i (index_where cond (loc rows where_idx))
  <-> exists r, In (i, r) rows /\ in_year U tc check r = true
                /\ cond r = true.
Proof.
  intros Hnd where_idx.
  assert (Hw : forall i, In i where_idx <->
                 exists r, In (i, r) rows /\ in_year U tc check r = true)
    by (intros j; apply where_idx_In).
  rewrite index_where_In. split.
  - intros [r [Hr Hc]]. apply loc_In in Hr. destruct Hr as [Hr Hi].
    apply Hw in Hi. destruct Hi as [r' [Hr' Hy]].
    pose proof (labels_unique rows i r r' Hnd Hr Hr') as E. subst r'.
    exists r. auto.
  - intros [r [Hr [Hy Hc]]]. exists r. split; [|assumption].
    apply loc_In. split; [assumption|]. apply Hw. exists r. auto.
Qed.

(** In range, all: the labels of the rows of the group in the year, when
    all of them are within the bounds, and no label otherwise. *)
Lemma check_rows_all (rows : labelled) (check : check_t) :
  well_formed check = true -> NoDup (map fst rows) ->
  exists s,
    _check_rows U tc rows check true "all" = inr s
    /\ forall i, In i s <->
         (exists r, In (i, r) rows /\ in_year U tc check r = true)
         /\ (forall j r, In (j, r) rows -> in_year U tc check r = true ->
                         within_bounds check r = true).
Proof.
  intros Hwf Hnd. apply andb_true_iff in Hwf. destruct Hwf as [Hv Hb].
  unfold _check_rows. rewrite Hv. cbn [negb].
  change ("all" =? "any") with false. change ("all" =? "all") with true.
  cbv iota.
  pose proof (fun cond i => checked_set_In rows check cond i Hnd) as Hset.
  cbv zeta in Hset.
  pose proof (where_idx_In U tc rows check) as Hw.
  set (where_idx := match get check "year" with
                    | Some y => index_where _ rows
                    | None => set_of (map fst rows)
                    end) in *.
  assert (Hfin : forall X : list nat,
             (forall i, In i X <->
                exists r, In (i, r) rows /\ in_year U tc check r = true
                          /\ within_bounds check r = true) ->
             forall i,
               In i (if set_eqb where_idx X then where_idx else []) <->
               (exists r, In (i, r) rows /\ in_year U tc check r = true)
               /\ (forall j r, In (j, r) rows ->
                     in_year U tc check r = true ->
                     within_bounds check r = true)).
  { intros X HX i.
    assert (Heq : set_eqb where_idx X = true <->
                  forall j r, In (j, r) rows ->
                    in_year U tc check r = true ->
                    within_bounds check r = true).
    { rewrite set_eqb_iff. split.
      - intros H j r Hr Hy.
        assert (Hj : In j X) by (apply H, Hw; exists r; auto).
        apply HX in Hj. destruct Hj as [r' [Hr' [_ Hc]]].
        pose proof (labels_unique rows j r r' Hnd Hr Hr') as E. subst r'.
        exact Hc.
      - intros H j. rewrite Hw, HX. split.
        + intros [r [Hr Hy]]. exists r. split; [assumption|].
          split; [assumption|]. apply (H j r Hr Hy).
        + intros [r [Hr [Hy _]]]. exists r. auto. }
    destruct (set_eqb where_idx X) eqn:E.
    - rewrite Hw. split; [intros H; split; [exact H | apply Heq; reflexivity]|].
      intros [H _]. exact H.
    - split; [intros []|]. intros [_ H]. apply Heq in H. discriminate. }
  unfold within_bounds in *. apply orb_true_iff in Hb.
  destruct (get check "up") as [up|] eqn:Eup;
    destruct (get check "lo") as [lo|] eqn:Elo; cbn [app fold_left].
  - eexists. split; [reflexivity|]. apply Hfin. intros i.
    rewrite set_and_In, !Hset. split.
    + intros [[r [Hr [Hy Hc]]] [r' [Hr' [_ Hc']]]].
      pose proof (labels_unique rows i r r' Hnd Hr Hr') as E. subst r'.
      exists r. split; [assumption|]. split; [assumption|].
      rewrite Hc, Hc'. reflexivity.
    + intros [r [Hr [Hy Hc]]]. apply andb_true_iff in Hc.
      destruct Hc as [Hc Hc']. split; exists r; auto.
  - eexists. split; [reflexivity|]. apply Hfin. intros i. rewrite Hset.
    split; intros [r [Hr [Hy Hc]]]; exists r;
      (split; [assumption|]); (split; [assumption|]).
    + rewrite Hc. reflexivity.
    + rewrite andb_true_r in Hc. exact Hc.
  - eexists. split; [reflexivity|]. apply Hfin. intros i. rewrite Hset.
    split; intros [r [Hr [Hy Hc]]]; exists r;
      (split; [assumption|]); (split; [assumption|]); exact Hc.
  - exfalso. destruct Hb as [Hb | Hb]; apply get_in_keys in Hb;
      destruct Hb as [v Hb]; congruence.
Qed.

Lemma check_groups_all (groups : list labelled) (check : check_t) :
  well_formed check = true ->
  (forall g, In g groups -> NoDup (map fst g)) ->
  exists idxs,
    check_groups U tc groups check true "all" = inr idxs
    /\ forall i, In i (List.concat idxs) <->
         exists g, In g groups
           /\ (exists r, In (i, r) g /\ in_year U tc check r = true)
           /\ (forall j r, In (j, r) g -> in_year U tc check r = true ->
                           within_bounds check r = true).
Proof.
  intros Hwf. induction groups as [|g groups IH]; intros Hnd.
  - exists []. split; [reflexivity|]. intros i. simpl. split; [intros []|].
    intros (g & [] & _).
  - destruct (check_rows_all g check Hwf (Hnd g (or_introl eq_refl)))
      as [s [Hs Hin]].
    destruct IH as [idxs [Hi Hall]];
      [intros g' Hg'; apply Hnd; right; assumption|].
    exists (s :: idxs). cbn [check_groups]. rewrite Hs, Hi.
    split; [reflexivity|]. intros i. cbn [List.concat].
    rewrite in_app_iff, Hin, Hall. split.
    + intros [H | (g' & Hg' & H)].
      * exists g. split; [left; reflexivity | exact H].
      * exists g'. split; [right; assumption | exact H].
    + intros (g' & [<- | Hg'] & H).
      * left. exact H.
      * right. exists g'. auto.
Qed.

(** The rows [categorize] selects: the rows in the year of a check of
    their variable, in scenarios all of whose rows of that variable in
    that year are within the bounds. *)
Lemma criteria_loop_all (df : labelled) (criteria : criteria_t) :
  forallb (fun c => well_formed (snd c)) criteria = true ->
  NoDup (map fst df) ->
  exists idxs,
    criteria_loop U tc df criteria true "all" = inr idxs
    /\ forall i, In i (List.concat idxs) <->
         exists r check,
           In (i, r) df /\ In (variable r, check) criteria
           /\ in_year U tc check r = true
           /\ forall j r', In (j, r') df ->
                scenario_key r' = scenario_key r ->
                variable r' = variable r ->
                in_year U tc check r' = true ->
                within_bounds check r' = true.
Proof.
  intros Hwf Hnd. induction criteria as [|[var check] rest IH].
  - exists []. split; [reflexivity|]. intros i. simpl. split; [intros []|].
    intros (r & check & _ & [] & _).
  - cbn [forallb snd] in Hwf. apply andb_true_iff in Hwf.
    destruct Hwf as [Hc Hrest].
    destruct (IH Hrest) as [tl [Htl Hin]].
    set (_df := List.filter (fun lr => variable (snd lr) =? var) df).
    destruct (check_groups_all (groupby_meta _df) check Hc)
      as [idxs [Hi Hall]].
    { intros g Hg. apply (groupby_meta_NoDup _df); [|assumption].
      apply labels_filter_NoDup. assumption. }
    assert (Hgrp : forall g i r, In g (groupby_meta _df) -> In (i, r) g ->
              forall j r', In (j, r') g <->
                In (j, r') df /\ variable r' = var
                /\ scenario_key r' = scenario_key r).
    { intros g i r Hg Hr j r'. unfold groupby_meta in Hg.
      apply in_map_iff in Hg. destruct Hg as [k [<- _]].
      apply filter_In in Hr. destruct Hr as [_ Hk]. cbn [snd] in Hk.
      apply key_eqb_eq in Hk. subst k.
      unfold _df. rewrite !filter_In. cbn [snd].
      rewrite key_eqb_eq, String.eqb_eq. tauto. }
    exists (idxs ++ tl). cbn [criteria_loop]. fold _df. rewrite Hi, Htl.
    split; [reflexivity|]. intros i.
    rewrite concat_app, in_app_iff, Hall, Hin. split.
    + intros [(g & Hg & [r [Hr Hy]] & Hw) | (r & c & H1 & H2 & H3)].
      * pose proof (Hgrp g i r Hg Hr) as Hg'.
        destruct (proj1 (Hg' i r) Hr) as [Hdf [Ev _]].
        exists r, check. split; [assumption|].
        split; [left; rewrite Ev; reflexivity|]. split; [assumption|].
        intros j r' Hr' Hk Hv' Hy'. apply (Hw j r'); [|assumption].
        apply Hg'. rewrite Hv', Ev. auto.
      * exists r, c. split; [assumption|].
        split; [right; assumption | assumption].
    + intros (r & c & Hr & [E | H1] & Hy & Hw).
      * injection E as Ev <-. left.
        assert (Hdf : In (i, r) _df).
        { apply filter_In. split; [assumption|]. cbn [snd].
          apply String.eqb_eq. symmetry. exact Ev. }
        apply groupby_meta_In in Hdf. destruct Hdf as [g [Hg Hgr]].
        exists g. split; [assumption|]. split; [exists r; auto|].
        intros j r' Hr' Hy'.
        destruct (proj1 (Hgrp g i r Hg Hgr j r') Hr') as [H1 [H2 H3]].
        apply (Hw j r'); try assumption. rewrite H2. exact Ev.
      * right. exists r, c. auto.
Qed.

Lemma apply_criteria_all (df : list Row) (criteria : criteria_t) :
  forallb (fun c => well_formed (snd c)) criteria = true ->
  exists rows,
    _apply_criteria U tc df criteria true "all" = inr rows
    /\ forall k, In k (_meta_idx (map scenario_key rows)) <->
                 meets_one U tc criteria df k.
Proof.
  intros Hwf.
  destruct (criteria_loop_all (label_rows df) criteria Hwf
              (label_rows_NoDup df)) as [idxs [Hi Hin]].
  unfold _apply_criteria. rewrite Hi. eexists. split; [reflexivity|].
  intros k. unfold _meta_idx, meets_one.
  rewrite (unique_by_In key_eqb key_eqb_eq), in_map_iff. split.
  - intros [r [Hk Hr]]. apply in_map_iff in Hr.
    destruct Hr as [[i r'] [E H]]. simpl in E. subst r'.
    apply loc_In in H. destruct H as [Hr Hidx]. apply Hin in Hidx.
    destruct Hidx as (r' & check & Hr' & Hc & Hy & Hw).
    pose proof (labels_unique _ i r r' (label_rows_NoDup df) Hr Hr') as E.
    subst r'. exists (variable r), check. split; [assumption|]. split.
    + exists r. split; [apply label_rows_In; exists i; assumption|]. auto.
    + intros r' Hr'' Hk' Hv' Hy'. apply label_rows_In in Hr''.
      destruct Hr'' as [j Hj]. apply (Hw j r' Hj); try assumption.
      rewrite Hk'. symmetry. exact Hk.
  - intros (var & check & Hc & (r & Hr & Hk & Hv & Hy) & Hw).
    exists r. split; [assumption|]. apply label_rows_In in Hr.
    destruct Hr as [i Hr]. apply in_map_iff. exists (i, r).
    split; [reflexivity|]. apply loc_In. split; [assumption|].
    apply Hin. exists r, check. split; [assumption|].
    split; [rewrite Hv; assumption|]. split; [assumption|].
    intros j r' Hr' Hk' Hv' Hy'. apply Hw; try assumption.
    + apply label_rows_In. exists j. assumption.
    + rewrite Hk'. exact Hk.
    + rewrite Hv'. exact Hv.
Qed.

End CategorizeProperties.

Section CategorizeClaims.

Variable U : Utils.

(** X7.  For criteria whose checks name only [up], [lo] and [year] and
    give a bound, [categorize] never raises and assigns the category to
    exactly the scenarios that meet one of the checks: some variable of
    the criteria has rows of the scenario in the year of its check, and
    all of these rows are within the bounds.  One such variable is
    enough, whatever the rows of the other variables are.  The data and
    the index of [meta] never change, and the rows of [meta] of the
    scenarios that meet no check are left as they were. *)
Theorem categorize_assigns self name value criteria :
  forallb (fun c => well_formed (snd c)) criteria = true ->
  keys_in_meta self = true ->
  let o := categorize U self name value criteria in
  result_of o = inr tt
  /\ data (after o) = data self
  /\ meta_index (after o) = meta_index self
  /\ forall m, In m (meta (after o)) ->
       (meets_one U (time_col self) criteria (data self) (meta_key m) ->
        meta_cell (after o) name m = value)
       /\ (~ meets_one U (time_col self) criteria (data self) (meta_key m) ->
           In m (meta self)).
Proof.
  intros Hwf Hinv o. subst o.
  destruct (apply_criteria_all U (time_col self) (data self) criteria Hwf)
    as [rows [Hrows Hidx]].
  unfold categorize. rewrite Hrows.
  destruct (_meta_idx (map scenario_key rows)) as [|k0 idx0] eqn:E.
  - cbn [result_of after].
    split; [reflexivity|]. split; [reflexivity|]. split; [reflexivity|].
    intros m Hm. split.
    + intros Hx. apply Hidx in Hx. destruct Hx.
    + intros _. exact Hm.
  - rewrite <- E in *.
    destruct (meta_loc_set_ok self (_meta_idx (map scenario_key rows))
                name value) as (self' & Hset & Hd & Hi & Hc).
    { intros k Hk. apply Hidx in Hk.
      destruct Hk as (var & check & _ & (r & Hr & <- & _) & _).
      unfold keys_in_meta in Hinv. rewrite forallb_forall in Hinv.
      apply key_in_In. apply Hinv. assumption. }
    rewrite Hset. cbn [result_of after].
    split; [reflexivity|]. split; [assumption|]. split; [assumption|].
    intros m Hm. split.
    + intros H. apply Hc; [assumption|]. apply Hidx. assumption.
    + intros Hno. apply (meta_loc_set_frame _ _ _ _ _ Hset m Hm).
      intros Hk. apply Hno. apply Hidx. assumption.
Qed.

End CategorizeClaims.

(** A run of X7: the component [A|x] is within [up = 2], the variable [A]
    is not within [up = 4], and the scenario is categorised. *)
Lemma categorize_assigns_witness :
  result_of (categorize pyam_utils table_components "cat" (CStr "low")
                        [("A", [("up", 4%Q)]); ("A|x", [("up", 2%Q)])])
  = inr tt
  /\ map (meta_cell (after (categorize pyam_utils table_components "cat"
                              (CStr "low")
                              [("A", [("up", 4%Q)]); ("A|x", [("up", 2%Q)])]))
                    "cat")
         (meta (after (categorize pyam_utils table_components "cat"
                         (CStr "low")
                         [("A", [("up", 4%Q)]); ("A|x", [("up", 2%Q)])])))
     = [CStr "low"].
Proof.
  split.
  - apply (categorize_assigns pyam_utils table_components "cat" (CStr "low")
             [("A", [("up", 4%Q)]); ("A|x", [("up", 2%Q)])] eq_refl eq_refl).
  - vm_compute. reflexivity.
Defined.

(** ** Merging renamed rows *)

Lemma fold_left_Qplus (l : list Q) (a : Q) :
  (fold_left Qplus l a == a + fold_right Qplus 0 l)%Q.
Proof.
  revert a. induction l as [|x l IH]; intros a; cbn [fold_left fold_right].
  - ring.
  - rewrite IH. ring.
Qed.

Lemma group_sum_nil (k : LongIdx) : group_sum [] k = 0%Q.
Proof. reflexivity. Qed.

Lemma group_sum_cons (r : Row) (rows : list Row) (k : LongIdx) :
  (group_sum (r :: rows) k
   == (if idx_eqb (long_idx r) k then value r else 0) + group_sum rows k)%Q.
Proof.
  unfold group_sum. cbn [List.filter].
  destruct (idx_eqb (long_idx r) k); cbn [map fold_left].
  - rewrite !fold_left_Qplus. ring.
  - ring.
Qed.

Lemma sum_indicator (ks : list LongIdx) (k0 : LongIdx) (v : Q) :
  NoDup ks ->
  (fold_right Qplus 0
     (map (fun k => if idx_eqb k0 k then v else 0) ks)
   == if existsb (idx_eqb k0) ks then v else 0)%Q.
Proof.
  induction ks as [|k ks IH]; intros Hnd; cbn [map fold_right existsb];
    [reflexivity|].
  inversion Hnd as [|? ? Hk Hks]; subst. rewrite (IH Hks).
  destruct (idx_eqb k0 k) eqn:E; cbn [orb].
  - apply idx_eqb_eq in E. subst k0.
    destruct (existsb (idx_eqb k) ks) eqn:E2; [|ring].
    exfalso. apply Hk. apply existsb_exists in E2.
    destruct E2 as [x [Hx E2]]. apply idx_eqb_eq in E2. subst x. assumption.
  - ring.
Qed.

Lemma sum_group_sums_cons (r : Row) (rows : list Row) (ks : list LongIdx) :
  (fold_right Qplus 0 (map (group_sum (r :: rows)) ks)
   == fold_right Qplus 0
        (map (fun k => if idx_eqb (long_idx r) k then value r else 0) ks)
      + fold_right Qplus 0 (map (group_sum rows) ks))%Q.
Proof.
  induction ks as [|k ks IH]; cbn [map fold_right]; [ring|].
  rewrite IH, group_sum_cons. ring.
Qed.

Lemma sum_group_sums (rows : list Row) (ks : list LongIdx) :
  NoDup ks -> (forall r, In r rows -> In (long_idx r) ks) ->
  (fold_right Qplus 0 (map (group_sum rows) ks) == total rows)%Q.
Proof.
  intros Hnd. induction rows as [|r rows IH]; intros Hin.
  - unfold total. cbn [map fold_right]. clear Hnd Hin.
    induction ks as [|k ks IH]; cbn [map fold_right]; [reflexivity|].
    rewrite IH, group_sum_nil. ring.
  - rewrite sum_group_sums_cons, (sum_indicator ks _ _ Hnd).
    rewrite IH by (intros x Hx; apply Hin; right; assumption).
    assert (E : existsb (idx_eqb (long_idx r)) ks = true).
    { apply existsb_exists. exists (long_idx r).
      split; [apply Hin; left; reflexivity | apply idx_eqb_eq; reflexivity]. }
    rewrite E. unfold total. cbn [map fold_right]. reflexivity.
Qed.

(** [groupby(...).sum()] keeps the sum of the values. *)
Lemma groupby_sum_total (rows : list Row) :
  (total (groupby_sum rows) == total rows)%Q.
Proof.
  unfold groupby_sum, total at 1. rewrite map_map.
  rewrite (map_ext _ (group_sum rows))
    by (intros k; apply value_row_of_idx).
  apply sum_group_sums.
  - eapply Permutation_NoDup;
      [apply Permutation_sym, sort_by_perm
      | apply (unique_by_NoDup idx_eqb idx_eqb_eq)].
  - intros r Hr. apply sort_by_In, (unique_by_In idx_eqb idx_eqb_eq).
    apply in_map. assumption.
Qed.

Lemma replace_rows_values (df : IamDataFrame) (col : string) (d : rename_dict)
    (rows : list Row) (mask : list bool) :
  map value (replace_rows df col d rows mask) = map value rows.
Proof.
  revert mask. induction rows as [|r rows IH]; intros [|b mask]; simpl;
    try reflexivity.
  rewrite IH. destruct b; [rewrite value_replace|]; reflexivity.
Qed.

Lemma renamed_rows_values (self : IamDataFrame) (mapping : mapping_t)
    (rows : list bool) :
  map value (renamed_rows self mapping rows) = map value (data self).
Proof.
  unfold renamed_rows. generalize (data self) as d.
  induction mapping as [|[col mp] mapping IH]; intros d; simpl;
    [reflexivity|].
  rewrite IH. apply replace_rows_values.
Qed.

(** The order of the long index is total. *)
Lemma lex_antisym (a b a' b' : comparison) :
  a = CompOpp a' -> b = CompOpp b' -> lex a b = CompOpp (lex a' b').
Proof. intros -> ->. destruct a', b'; reflexivity. Qed.

Lemma strings_compare_antisym (a b : list string) :
  strings_compare a b = CompOpp (strings_compare b a).
Proof.
  revert b. induction a as [|x a IH]; intros [|y b]; simpl; try reflexivity.
  apply lex_antisym; [apply String.compare_antisym | apply IH].
Qed.

Lemma idx_compare_antisym (a b : LongIdx) :
  idx_compare a b = CompOpp (idx_compare b a).
Proof.
  destruct a as [[[[[[m1 s1] r1] v1] u1] t1] e1].
  destruct b as [[[[[[m2 s2] r2] v2] u2] t2] e2].
  unfold idx_compare.
  repeat (apply lex_antisym; [apply String.compare_antisym|]).
  apply lex_antisym; [apply Z.compare_antisym | apply strings_compare_antisym].
Qed.

Lemma leb_idx_total (a b : LongIdx) :
  leb_of idx_compare a b = false -> leb_of idx_compare b a = true.
Proof.
  unfold leb_of. rewrite (idx_compare_antisym b a).
  destruct (idx_compare a b); simpl; [discriminate | discriminate | reflexivity].
Qed.

Section Sorting.

Context {A : Type} (leb : A -> A -> bool).
Hypothesis leb_total : forall a b, leb a b = false -> leb b a = true.

Lemma insert_sorted_head (x : A) (l : list A) :
  match insert_sorted leb x l with
  | [] => False
  | h :: _ => h = x \/ match l with [] => False | y :: _ => h = y end
  end.
Proof.
  destruct l as [|y l]; simpl; [left; reflexivity|].
  destruct (leb x y); [left | right]; reflexivity.
Qed.

Lemma insert_sorted_sorted (x : A) (l : list A) :
  is_sorted leb l = true -> is_sorted leb (insert_sorted leb x l) = true.
Proof.
  induction l as [|y l IH]; intros Hs; [reflexivity|].
  cbn [insert_sorted]. destruct (leb x y) eqn:E.
  - cbn [is_sorted]. rewrite E. exact Hs.
  - assert (Hl : is_sorted leb l = true).
    { cbn [is_sorted] in Hs. destruct l as [|z l]; [reflexivity|].
      apply andb_true_iff in Hs. apply Hs. }
    specialize (IH Hl). pose proof (insert_sorted_head x l) as Hh.
    cbn [is_sorted]. destruct (insert_sorted leb x l) as [|h t];
      [destruct Hh|].
    rewrite IH, andb_true_r. destruct Hh as [-> | Hh].
    + apply leb_total. assumption.
    + destruct l as [|z l]; [destruct Hh|]. subst h.
      cbn [is_sorted] in Hs. apply andb_true_iff in Hs. apply Hs.
Qed.

Lemma sort_by_sorted (l : list A) : is_sorted leb (sort_by leb l) = true.
Proof.
  induction l as [|x l IH]; [reflexivity|].
  apply insert_sorted_sorted. exact IH.
Qed.

End Sorting.

(** ** Duplicates *)

Section Duplicates.

Context {A : Type} (eqb : A -> A -> bool).
Hypothesis eqb_eq : forall x y, eqb x y = true <-> x = y.

(** The entries [duplicated()] marks: those that repeat an earlier one. *)
Lemma duplicated_from_In (l seen : list A) (x : A) :
  In x (boolean_index l (duplicated_from eqb seen l))
  <-> exists l1 l2, l = l1 ++ x :: l2 /\ (In x seen \/ In x l1).
Proof.
  revert seen. induction l as [|y l IH]; intros seen.
  - simpl. split; [intros [] | intros (l1 & l2 & H & _)].
    destruct l1; discriminate.
  - cbn [duplicated_from boolean_index].
    assert (Htail : In x (boolean_index l (duplicated_from eqb (y :: seen) l))
                    <-> exists l1 l2, y :: l = (y :: l1) ++ x :: l2
                                      /\ (In x seen \/ In x (y :: l1))).
    { rewrite IH. split.
      - intros (l1 & l2 & -> & H). exists l1, l2. split; [reflexivity|].
        simpl in *. tauto.
      - intros (l1 & l2 & H & H2). exists l1, l2. simpl in H.
        injection H as ->. simpl in *. tauto. }
    split.
    + intros H.
      assert (Hcase : (x = y /\ In x seen)
                      \/ In x (boolean_index l
                                 (duplicated_from eqb (y :: seen) l))).
      { destruct (existsb (eqb y) seen) eqn:E; [|right; exact H].
        destruct H as [<- | H]; [left | right; exact H].
        split; [reflexivity|]. apply existsb_exists in E.
        destruct E as [z [Hz E]]. apply eqb_eq in E. subst z. assumption. }
      destruct Hcase as [[-> Hs] | Ht].
      * exists [], l. split; [reflexivity | left; assumption].
      * apply Htail in Ht. destruct Ht as (l1 & l2 & H1 & H2).
        exists (y :: l1), l2. auto.
    + intros (l1 & l2 & H1 & H2). destruct l1 as [|z l1].
      * simpl in H1. injection H1 as -> ->.
        destruct H2 as [H2 | []].
        assert (E : existsb (eqb x) seen = true).
        { apply existsb_exists. exists x. split; [assumption|].
          apply eqb_eq. reflexivity. }
        rewrite E. left. reflexivity.
      * simpl in H1. injection H1 as -> ->.
        assert (Hin : In x (boolean_index (l1 ++ x :: l2)
                              (duplicated_from eqb (z :: seen)
                                               (l1 ++ x :: l2)))).
        { apply Htail. exists l1, l2. split; [reflexivity | exact H2]. }
        destruct (existsb (eqb z) seen); [right|]; exact Hin.
Qed.

Lemma duplicated_none_NoDup (l seen : list A) :
  boolean_index l (duplicated_from eqb seen l) = [] ->
  NoDup l /\ forall x, In x l -> ~ In x seen.
Proof.
  revert seen. induction l as [|y l IH]; intros seen; simpl.
  - intros _. split; [constructor | intros x []].
  - destruct (existsb (eqb y) seen) eqn:E; [discriminate|].
    intros H. destruct (IH _ H) as [Hnd Hseen]. split.
    + constructor; [|assumption]. intros Hy.
      apply (Hseen y Hy). left. reflexivity.
    + intros x [<- | Hx] Hs.
      * assert (E2 : existsb (eqb y) seen = true).
        { apply existsb_exists. exists y. split; [assumption|].
          apply eqb_eq. reflexivity. }
        rewrite E2 in E. discriminate.
      * apply (Hseen x Hx). right. assumption.
Qed.

Lemma twice_in_app (a b l1 l2 : list A) (x : A) :
  NoDup a -> NoDup b -> a ++ b = l1 ++ x :: l2 -> In x l1 ->
  In x a /\ In x b.
Proof.
  revert l1. induction a as [|y a IH]; intros l1 Ha Hb E Hx.
  - simpl in E. subst b. exfalso.
    apply NoDup_remove_2 in Hb. apply Hb. apply in_or_app. left. assumption.
  - destruct l1 as [|z l1]; [destruct Hx|].
    simpl in E. injection E as <- E.
    inversion Ha as [|? ? Hy Ha']; subst.
    destruct Hx as [<- | Hx].
    + split; [left; reflexivity|].
      assert (Hin : In y (a ++ b))
        by (rewrite E; apply in_or_app; right; left; reflexivity).
      apply in_app_or in Hin. destruct Hin; [contradiction | assumption].
    + destruct (IH l1 Ha' Hb E Hx) as [H1 H2]. split; [right|]; assumption.
Qed.

End Duplicates.

(** The rows the check for duplicates of [rename] reports: the long
    indexes that a selected row and a row that is not selected share. *)
Lemma conflict_rows_In (_data : list Row) (rows : list bool) (k : LongIdx) :
  In k (conflict_rows _data rows)
  <-> In k (map long_idx (boolean_index _data rows))
      /\ In k (map long_idx (boolean_index _data (logical_not rows))).
Proof.
  unfold conflict_rows.
  set (a := unique_by idx_eqb (map long_idx (boolean_index _data rows))).
  set (b := unique_by idx_eqb
              (map long_idx (boolean_index _data (logical_not rows)))).
  rewrite (unique_by_In idx_eqb idx_eqb_eq).
  unfold duplicated. rewrite (duplicated_from_In idx_eqb idx_eqb_eq).
  rewrite <- (unique_by_In idx_eqb idx_eqb_eq k
                (map long_idx (boolean_index _data rows))).
  rewrite <- (unique_by_In idx_eqb idx_eqb_eq k
                (map long_idx (boolean_index _data (logical_not rows)))).
  fold a. fold b. split.
  - intros (l1 & l2 & E & [[] | H]).
    apply (twice_in_app a b l1 l2 k); try assumption;
      apply (unique_by_NoDup idx_eqb idx_eqb_eq).
  - intros [Ha Hb]. apply in_split in Hb. destruct Hb as (b1 & b2 & Hb).
    exists (a ++ b1), b2. split.
    + rewrite Hb, app_assoc. reflexivity.
    + right. apply in_or_app. left. assumption.
Qed.

Section RenameProperties.

Variable U : Utils.

(** The data of the container a completed [rename] builds. *)
Lemma rename_result_data (self : IamDataFrame) (mapping : option mapping_t)
    (inplace check_duplicates : bool) (kw : mapping_t) (ret : IamDataFrame) :
  result_container inplace
    (rename U self mapping inplace false check_duplicates kw) = Some ret ->
  exists combined rows,
    combine_mapping mapping kw = OK combined
    /\ _apply_filters U self (rename_filters combined) = OK (bool_array rows)
    /\ data ret = groupby_sum (renamed_rows self combined rows).
Proof.
  unfold rename, result_container.
  destruct (combine_mapping mapping kw) as [combined|e] eqn:Hc; [|discriminate].
  destruct (index_and_data self combined); [discriminate|].
  unfold rename_rows. fold (rename_filters combined).
  destruct (_apply_filters U self (rename_filters combined))
    as [[rows|]|e] eqn:Hr; [|discriminate|discriminate].
  destruct (rename_loop self rows _ combined (meta self) (data self))
    as [[m _data] err] eqn:Hloop.
  destruct err as [e|]; [destruct inplace; discriminate|].
  apply rename_loop_renamed in Hloop.
  fold (renamed_rows self combined rows) in Hloop.
  intros H. exists combined, rows. split; [reflexivity|].
  split; [assumption|]. subst _data.
  destruct (if check_duplicates
            then conflict_rows (renamed_rows self combined rows) rows
            else []);
    [|destruct inplace; discriminate].
  destruct inplace; simpl in H; injection H as <-; reflexivity.
Qed.

(** X8.  A completed [rename] (without [append]) neither loses nor
    invents value: whatever rows it renames and merges, the sum of the
    values of the resulting table is the sum of the values of the table
    it started from. *)
Theorem rename_conserves_total (self : IamDataFrame)
    (mapping : option mapping_t) (inplace check_duplicates : bool)
    (kw : mapping_t) (ret : IamDataFrame) :
  result_container inplace
    (rename U self mapping inplace false check_duplicates kw) = Some ret ->
  (total (data ret) == total (data self))%Q.
Proof.
  intros H. apply rename_result_data in H.
  destruct H as (combined & rows & _ & _ & ->).
  rewrite groupby_sum_total. unfold total.
  rewrite renamed_rows_values. reflexivity.
Qed.

(** X9.  The table of a completed [rename] (without [append]) is in the
    order of the long index: model, scenario, region, variable, unit,
    time and the extra columns, compared in this order. *)
Theorem rename_sorts_rows (self : IamDataFrame)
    (mapping : option mapping_t) (inplace check_duplicates : bool)
    (kw : mapping_t) (ret : IamDataFrame) :
  result_container inplace
    (rename U self mapping inplace false check_duplicates kw) = Some ret ->
  is_sorted (leb_of idx_compare) (map long_idx (data ret)) = true.
Proof.
  intros H. apply rename_result_data in H.
  destruct H as (combined & rows & _ & _ & ->).
  rewrite groupby_sum_keys. apply sort_by_sorted. exact leb_idx_total.
Qed.

Lemma rename_loop_data_cols (df : IamDataFrame) (rows idx : list bool)
    (items : mapping_t) (m : list MetaRow) (d : list Row) :
  (forall col, In col (keys items) -> in_cols col (data_cols df) = true) ->
  rename_loop df rows idx items m d
  = (m, fold_left (fun d cm => replace_rows df (fst cm) (snd cm) d rows)
                  items d, None).
Proof.
  revert d. induction items as [|[col mp] items IH]; intros d H;
    cbn [rename_loop fold_left fst snd]; [reflexivity|].
  assert (Hc : in_cols col (data_cols df) = true)
    by (apply H; left; reflexivity).
  assert (Hm : in_cols col META_IDX = false).
  { apply in_cols_In in Hc. unfold data_cols in Hc. apply filter_In in Hc.
    destruct Hc as [_ Hc]. apply negb_true_iff in Hc. exact Hc. }
  rewrite Hm, Hc. cbn [negb]. apply IH.
  intros c Hin. apply H. right. assumption.
Qed.

Lemma index_and_data_data_cols (df : IamDataFrame) (mapping : mapping_t) :
  (forall col, In col (keys mapping) -> in_cols col (data_cols df) = true) ->
  index_and_data df mapping = false.
Proof.
  intros H. unfold index_and_data.
  assert (E : existsb (fun i => in_cols i (keys mapping)) META_IDX = false).
  { destruct (existsb (fun i => in_cols i (keys mapping)) META_IDX) eqn:E;
      [|reflexivity].
    apply existsb_exists in E. destruct E as [i [Hi E]].
    apply in_cols_In, H, in_cols_In in E. unfold data_cols in E.
    apply filter_In in E. destruct E as [_ E]. apply negb_true_iff in E.
    apply in_cols_In in Hi. rewrite Hi in E. discriminate. }
  rewrite E. reflexivity.
Qed.

(** X10.  What [check_duplicates=True] checks.  For a renaming in data
    columns whose filter can be evaluated, [rename] raises 'Duplicated
    rows between original and renamed data!' exactly when a renamed
    selected row has the long index of a row that was not selected, and
    then leaves the container as it was.  Rows that collide only with
    other selected rows are not reported: the call then completes and
    merges them. *)
Theorem rename_detects_collisions (self : IamDataFrame)
    (mapping : option mapping_t) (inplace : bool) (kw combined : mapping_t)
    (rows : list bool) :
  combine_mapping mapping kw = OK combined ->
  (forall col, In col (keys combined) ->
               in_cols col (data_cols self) = true) ->
  _apply_filters U self (rename_filters combined) = OK (bool_array rows) ->
  let renamed := renamed_rows self combined rows in
  let collides k :=
    In k (map long_idx (boolean_index renamed rows))
    /\ In k (map long_idx (boolean_index renamed (logical_not rows))) in
  let o := rename U self mapping inplace false true kw in
  ((exists k, collides k) ->
   exists dup,
     returned o = Raise (ValueError (rename_duplicated_rows dup))
     /\ self_after o = self)
  /\ ((forall k, ~ collides k) ->
      exists ret,
        result_container inplace o = Some ret
        /\ data ret = groupby_sum renamed).
Proof.
  intros Hc Hcols Hr renamed collides o. subst o.
  unfold rename. rewrite Hc, (index_and_data_data_cols self combined Hcols).
  unfold rename_rows. fold (rename_filters combined). rewrite Hr.
  rewrite (rename_loop_data_cols self rows _ combined _ _ Hcols).
  fold (renamed_rows self combined rows). fold renamed.
  pose proof (conflict_rows_In renamed rows) as Hin.
  destruct (conflict_rows renamed rows) as [|k0 dup] eqn:E.
  - split.
    + intros [k Hk]. apply Hin in Hk. destruct Hk.
    + intros _. destruct inplace; eexists; split; reflexivity.
  - split.
    + intros _. exists (k0 :: dup). cbn [returned self_after].
      split; [reflexivity|].
      destruct inplace; [destruct self|]; reflexivity.
    + intros Hno. exfalso. apply (Hno k0). apply Hin. left. reflexivity.
Qed.

End RenameProperties.

(** A run of X8 and X9: the two components of [A] renamed to one name are
    merged into one row with the sum of their values. *)
Lemma rename_conserves_total_witness :
  exists ret,
    result_container false
      (rename pyam_utils table_components None false false false
              [("variable", str_dict [("A|x", "A|z"); ("A|y", "A|z")])])
    = Some ret
    /\ List.length (data ret) = 2%nat
    /\ (total (data ret) == total (data table_components))%Q.
Proof.
  eexists. split; [vm_compute; reflexivity|]. split; [reflexivity|].
  apply (rename_conserves_total pyam_utils table_components None false false
           [("variable", str_dict [("A|x", "A|z"); ("A|y", "A|z")])]).
  vm_compute. reflexivity.
Defined.

Lemma rename_sorts_rows_witness :
  exists ret,
    result_container false
      (rename pyam_utils table_regions None false false true
              [("region", str_dict [("South", "Asia")])])
    = Some ret
    /\ is_sorted (leb_of idx_compare) (map long_idx (data ret)) = true.
Proof.
  eexists. split; [vm_compute; reflexivity|].
  apply (rename_sorts_rows pyam_utils table_regions None false true
           [("region", str_dict [("South", "Asia")])]).
  vm_compute. reflexivity.
Defined.

(** A run of X10: renaming the component [A|x] to [A|y] collides with the
    row of [A|y]. *)
Lemma rename_detects_collisions_witness :
  exists dup,
    returned (rename pyam_utils table_components None false false true
                     [("variable", str_dict [("A|x", "A|y")])])
    = Raise (ValueError (rename_duplicated_rows dup)).
Proof.
  destruct (rename_detects_collisions pyam_utils table_components None false
              [("variable", str_dict [("A|x", "A|y")])]
              [("variable", str_dict [("A|x", "A|y")])]
              [false; true; false] eq_refl) as [H _].
  - intros col [<- | []]. reflexivity.
  - vm_compute. reflexivity.
  - destruct H as (dup & H1 & _).
    + exists ("M", "S", "World", "A|y", "U", 2010%Z, []).
      split; vm_compute; auto.
    + exists dup. exact H1.
Defined.

(** ** Appending rows *)

Section AppendProperties.

Variable U : Utils.

(** The container on which [append] appends the data: [self] with the
    merged [meta]. *)
Lemma append_merged (self other : IamDataFrame)
    (ignore_meta_conflict inplace : bool) :
  time_col_eqb (time_col self) (time_col other) = true ->
  meta_agrees self other = true \/ ignore_meta_conflict = true ->
  exists ret,
    data ret = data self /\ time_col ret = time_col self
    /\ extra_cols ret = extra_cols self
    /\ append U self other ignore_meta_conflict inplace
       = if negb (list_eqb String.eqb (extra_cols ret) (extra_cols other))
         then mkOutcome (if inplace then ret else self) []
                        (Raise (Unmodelled "append with other extra columns"))
         else
           match boolean_index
                   (map long_idx (data ret ++ data other))
                   (duplicated idx_eqb (map long_idx (data ret ++ data other)))
           with
           | _ :: _ =>
               mkOutcome (if inplace then ret else self) []
                 (Raise (DuplicateRowError
                           (unique_by idx_eqb
                              (boolean_index
                                 (map long_idx (data ret ++ data other))
                                 (duplicated idx_eqb
                                    (map long_idx (data ret ++ data other)))))))
           | [] =>
               if inplace
               then mkOutcome
                      (set_data ret (sort_data U (data ret ++ data other)
                                               (_LONG_IDX ret)))
                      [] (OK None)
               else mkOutcome self []
                      (OK (Some (set_data ret
                                   (sort_data U (data ret ++ data other)
                                              (_LONG_IDX ret)))))
           end.
Proof.
  intros Htime Hok. unfold append. rewrite Htime. cbn [negb].
  fold (shared_keys self other).
  assert (Hc : negb ignore_meta_conflict && negb (meta_agrees self other)
               = false).
  { destruct Hok as [-> | ->]; simpl; [apply andb_false_r | reflexivity]. }
  destruct (shared_keys self other) as [|k0 ks] eqn:Ek.
  - match goal with
    | |- context [match ?d with [] => ?a | _ :: _ => ?b end] =>
        exists (match d with [] => a | _ :: _ => b end)
    end.
    split; [destruct (sort_by _ _); reflexivity|].
    split; [destruct (sort_by _ _); reflexivity|].
    split; [destruct (sort_by _ _); reflexivity|].
    reflexivity.
  - rewrite <- Ek. fold (shared_columns self other).
    fold (meta_agrees self other). rewrite Hc.
    match goal with
    | |- context [match ?d with [] => ?a | _ :: _ => ?b end] =>
        exists (match d with [] => a | _ :: _ => b end)
    end.
    split; [destruct (sort_by _ _); reflexivity|].
    split; [destruct (sort_by _ _); reflexivity|].
    split; [destruct (sort_by _ _); reflexivity|].
    reflexivity.
Qed.

(** X11.  When the time formats and the extra columns of two containers
    are the same and their [meta] agree on the shared scenarios (or
    conflicts are ignored), [append] succeeds exactly when no long index
    occurs twice in the rows of both: it then holds the rows of both, as
    [sort_data] orders them; otherwise it raises the [ValueError] of
    overlapping index values, which lists without repeats exactly the
    long indexes that occur more than once, and the data of [self] are
    unchanged. *)
Theorem append_duplicate_rows (self other : IamDataFrame)
    (ignore_meta_conflict inplace : bool) :
  time_col_eqb (time_col self) (time_col other) = true ->
  meta_agrees self other = true \/ ignore_meta_conflict = true ->
  list_eqb String.eqb (extra_cols self) (extra_cols other) = true ->
  let o := append U self other ignore_meta_conflict inplace in
  let l := map long_idx (data self ++ data other) in
  (NoDup l ->
   exists ret,
     result_container inplace o = Some ret
     /\ data ret = sort_data U (data self ++ data other) (_LONG_IDX self))
  /\ (~ NoDup l ->
      exists rows,
        returned o = Raise (DuplicateRowError rows)
        /\ rows <> [] /\ NoDup rows
        /\ (forall k, In k rows <-> occurs_twice k l)
        /\ data (self_after o) = data self
        /\ (inplace = false -> self_after o = self)).
Proof.
  intros Htime Hok Hextra o l. subst o l.
  destruct (append_merged self other ignore_meta_conflict inplace Htime Hok)
    as (ret & Hd & Ht & He & ->).
  rewrite He, Hextra, Hd. cbn [negb]. unfold _LONG_IDX. rewrite He, Ht.
  set (l := map long_idx (data self ++ data other)).
  destruct (boolean_index l (duplicated idx_eqb l)) as [|k0 dup] eqn:E.
  - split.
    + intros _. destruct inplace; eexists; split; reflexivity.
    + intros Hnd. exfalso. apply Hnd.
      apply (duplicated_none_NoDup idx_eqb idx_eqb_eq l [] E).
  - split.
    + intros Hnd. rewrite (duplicated_NoDup l Hnd) in E. discriminate.
    + intros _. eexists. cbn [returned self_after].
      split; [reflexivity|]. split.
      { cbn [unique_by]. discriminate. }
      split; [apply (unique_by_NoDup idx_eqb idx_eqb_eq)|].
      split.
      { intros k. rewrite (unique_by_In idx_eqb idx_eqb_eq), <- E.
        unfold duplicated.
        rewrite (duplicated_from_In idx_eqb idx_eqb_eq). unfold occurs_twice.
        split; intros (l1 & l2 & H1 & H2); exists l1, l2;
          (split; [assumption|]); [destruct H2 as [[] | H2] | right];
          assumption. }
      split; [destruct inplace; [assumption | reflexivity]|].
      intros ->. reflexivity.
Qed.

End AppendProperties.

(** A run of X11: a container appended to itself. *)
Lemma append_duplicate_rows_witness :
  exists rows,
    returned (append pyam_utils table_regions table_regions false false)
    = Raise (DuplicateRowError rows)
    /\ rows <> [] /\ NoDup rows.
Proof.
  destruct (append_duplicate_rows pyam_utils table_regions table_regions
              false false eq_refl (or_introl eq_refl) eq_refl) as [_ H].
  destruct H as (rows & H1 & H2 & H3 & _).
  - vm_compute. intros H. inversion H as [|? ? Hx _]; subst.
    apply Hx. right. left. reflexivity.
  - exists rows. auto.
Defined.

(** ** Merging meta *)

Lemma index_of_In (c : string) (cols : list string) :
  In c cols ->
  exists i, index_of c cols = Some i /\ nth_error cols i = Some c.
Proof.
  induction cols as [|x cols IH]; intros H; [destruct H|].
  cbn [index_of]. destruct (x =? c) eqn:E.
  - apply String.eqb_eq in E. subst x. exists O. auto.
  - destruct H as [-> | H]; [rewrite String.eqb_refl in E; discriminate|].
    destruct (IH H) as [i [H1 H2]]. exists (S i). rewrite H1. auto.
Qed.

Lemma index_of_app_l (c : string) (cols more : list string) (i : nat) :
  index_of c cols = Some i -> index_of c (cols ++ more) = Some i.
Proof.
  revert i. induction cols as [|x cols IH]; intros i; cbn [index_of app];
    [discriminate|].
  destruct (x =? c); [auto|].
  destruct (index_of c cols) as [j|]; [|discriminate].
  intros H. rewrite (IH j eq_refl). exact H.
Qed.

(** An entry of a row built column by column. *)
Lemma meta_cell_built (d : list Row) (tc : time_col_t) (ec cols more : list string)
    (rows : list MetaRow) (k : Key) (f : string -> cell) (rest : list cell)
    (c : string) :
  In c cols ->
  meta_cell (mkDf d tc ec (cols ++ more) rows) c
            (mkMeta k (map f cols ++ rest)) = f c.
Proof.
  intros H. destruct (index_of_In c cols H) as [i [H1 H2]].
  unfold meta_cell. cbn [meta_columns meta_cells].
  rewrite (index_of_app_l _ _ more _ H1).
  assert (Hi : (i < List.length cols)%nat)
    by (apply nth_error_Some; rewrite H2; discriminate).
  rewrite app_nth1 by (rewrite length_map; exact Hi).
  rewrite (nth_indep _ CNaN (f c)) by (rewrite length_map; exact Hi).
  rewrite List.map_nth. f_equal. apply nth_error_nth. exact H2.
Qed.

Lemma meta_cell_built_all (d : list Row) (tc : time_col_t) (ec cols : list string)
    (rows : list MetaRow) (k : Key) (f : string -> cell) (c : string) :
  In c cols ->
  meta_cell (mkDf d tc ec cols rows) c (mkMeta k (map f cols)) = f c.
Proof.
  intros H.
  pose proof (meta_cell_built d tc ec cols [] rows k f [] c H) as E.
  rewrite !app_nil_r in E. exact E.
Qed.

Lemma meta_kept_refl (A : IamDataFrame) : meta_kept A A.
Proof.
  split; [auto|]. split.
  - intros m Hm. exists m. auto.
  - intros m Hm _. exists m. auto.
Qed.

Lemma meta_kept_trans (A B C : IamDataFrame) :
  (forall k, In k (meta_index B) -> In k (meta_index A)) ->
  meta_kept A B -> meta_kept B C -> meta_kept A C.
Proof.
  intros Hidx HAB HBC.
  destruct HAB as (Hc1 & Hf1 & Hb1). destruct HBC as (Hc2 & Hf2 & Hb2).
  split; [auto|]. split.
  - intros m Hm. destruct (Hf1 m Hm) as (m1 & Hm1 & E1 & Hcell1).
    destruct (Hf2 m1 Hm1) as (m2 & Hm2 & E2 & Hcell2).
    exists m2. split; [assumption|]. split; [congruence|].
    intros c Hcol. rewrite Hcell2 by auto. auto.
  - intros m2 Hm2 Hk.
    assert (HkB : In (meta_key m2) (meta_index B)).
    { unfold meta_index in *. apply in_map_iff in Hk.
      destruct Hk as [m [E Hm]]. destruct (Hf1 m Hm) as (m1 & Hm1 & E1 & _).
      apply in_map_iff. exists m1. split; [congruence | assumption]. }
    destruct (Hb2 m2 Hm2 HkB) as (m1 & Hm1 & E1 & Hcell1).
    assert (HkA : In (meta_key m1) (meta_index A)) by (rewrite E1; exact Hk).
    destruct (Hb1 m1 Hm1 HkA) as (m & Hm & E & Hcell).
    exists m. split; [assumption|]. split; [congruence|].
    intros c Hcol. rewrite Hcell1 by auto. auto.
Qed.

Lemma merge_shared_kept (ret other : IamDataFrame) :
  meta_kept ret (merge_shared ret other)
  /\ forall k, In k (meta_index (merge_shared ret other))
               <-> In k (meta_index ret).
Proof.
  unfold merge_shared. cbv zeta.
  set (g := fun m => mkMeta (meta_key m) _).
  assert (Hrows : forall m', In m' (sort_by
                    (fun a b => leb_of key_compare (meta_key a) (meta_key b))
                    (map g (meta ret)))
                  <-> exists m, In m (meta ret) /\ m' = g m).
  { intros m'. rewrite sort_by_In, in_map_iff.
    split; intros [m [H1 H2]]; exists m; auto. }
  assert (Hcell : forall m c, In c (meta_columns ret) ->
            meta_cell (mkDf (data ret) (time_col ret) (extra_cols ret)
                            (meta_columns ret ++ new_columns ret other)
                            (sort_by
                               (fun a b => leb_of key_compare (meta_key a)
                                                  (meta_key b))
                               (map g (meta ret))))
                      c (g m)
            = meta_cell ret c m).
  { intros m c Hc. unfold g.
    apply (meta_cell_built _ _ _ _ _ _ _
             (fun c => meta_cell ret c m) _ c Hc). }
  split; [split; [|split]|].
  - intros c Hc. cbn [meta_columns]. apply in_or_app. left. assumption.
  - intros m Hm. exists (g m). cbn [meta]. split; [apply Hrows; eauto|].
    split; [reflexivity|]. intros c Hc. apply Hcell. assumption.
  - intros m' Hm' _. cbn [meta] in Hm'. apply Hrows in Hm'.
    destruct Hm' as [m [Hm ->]]. exists m. split; [assumption|].
    split; [reflexivity|]. intros c Hc. apply Hcell. assumption.
  - intros k. unfold meta_index. cbn [meta]. rewrite !in_map_iff. split.
    + intros [m' [E Hm']]. apply Hrows in Hm'. destruct Hm' as [m [Hm ->]].
      exists m. auto.
    + intros [m [E Hm]]. exists (g m). split; [exact E|].
      apply Hrows. eauto.
Qed.

Lemma meta_loc_cols_In (df : IamDataFrame) (idx : list Key)
    (cols : list string) (kc : Key * list cell) :
  In kc (meta_loc_cols df idx cols)
  <-> exists m, In m (meta df) /\ In (meta_key m) idx
                /\ kc = (meta_key m, map (fun c => meta_cell df c m) cols).
Proof.
  unfold meta_loc_cols. rewrite in_flat_map. split.
  - intros [k [Hk H]]. apply in_map_iff in H. destruct H as [m [<- Hm]].
    apply filter_In in Hm. destruct Hm as [Hm E]. apply key_eqb_eq in E.
    exists m. rewrite E. auto.
  - intros [m [Hm [Hk ->]]]. exists (meta_key m). split; [assumption|].
    apply in_map_iff. exists m. split; [reflexivity|].
    apply filter_In. split; [assumption | apply key_eqb_refl].
Qed.

Lemma join_new_kept (ret other : IamDataFrame) (diff : list Key) :
  (forall k, In k diff -> ~ In k (meta_index ret)) ->
  meta_kept ret (join_new ret other diff)
  /\ meta_joined ret other (join_new ret other diff)
  /\ forall k, In k (meta_index (join_new ret other diff))
               <-> In k (meta_index ret)
                   \/ (In k diff /\ In k (meta_index other)).
Proof.
  intros Hdiff. unfold join_new. cbv zeta.
  set (cols := meta_columns ret ++ new_columns ret other).
  set (h := fun m => mkMeta (meta_key m)
                            (map (fun c => meta_cell ret c m) cols)).
  set (rows := map h (meta ret)
               ++ map (fun kc => mkMeta (fst kc) (snd kc))
                      (meta_loc_cols other diff cols)).
  assert (Hrows : forall m', In m' rows <->
            (exists m, In m (meta ret) /\ m' = h m)
            \/ (exists o, In o (meta other) /\ In (meta_key o) diff
                  /\ m' = mkMeta (meta_key o)
                                 (map (fun c => meta_cell other c o) cols))).
  { intros m'. unfold rows. rewrite in_app_iff, !in_map_iff. split.
    - intros [[m [E Hm]] | [kc [E Hkc]]].
      + left. exists m. auto.
      + right. apply meta_loc_cols_In in Hkc.
        destruct Hkc as [o [Ho [Hk ->]]]. exists o. auto.
    - intros [[m [Hm ->]] | [o [Ho [Hk ->]]]].
      + left. exists m. auto.
      + right. eexists. split; [|apply meta_loc_cols_In; exists o; eauto].
        reflexivity. }
  assert (Hcols : forall c, In c (meta_columns ret) -> In c cols)
    by (intros c Hc; apply in_or_app; left; assumption).
  assert (Hcell : forall k f c, In c cols ->
            meta_cell (mkDf (data ret) (time_col ret) (extra_cols ret)
                            cols rows) c (mkMeta k (map f cols)) = f c)
    by (intros; apply meta_cell_built_all; assumption).
  split; [split; [|split]|split].
  - exact Hcols.
  - intros m Hm. exists (h m). cbn [meta].
    split; [apply Hrows; left; eauto|]. split; [reflexivity|].
    intros c Hc. unfold h. rewrite Hcell by auto. reflexivity.
  - intros m' Hm' Hk. cbn [meta] in Hm'. apply Hrows in Hm'.
    destruct Hm' as [[m [Hm ->]] | [o [Ho [Hd ->]]]].
    + exists m. split; [assumption|]. split; [reflexivity|].
      intros c Hc. unfold h. rewrite Hcell by auto. reflexivity.
    + exfalso. cbn [meta_key] in Hk. apply (Hdiff _ Hd Hk).
  - intros m' Hm' Hk. cbn [meta] in Hm'. apply Hrows in Hm'.
    destruct Hm' as [[m [Hm ->]] | [o [Ho [Hd ->]]]].
    + exfalso. apply Hk. unfold meta_index. cbn [h meta_key].
      apply in_map. assumption.
    + exists o. split; [assumption|]. split; [reflexivity|].
      intros c Hc. rewrite Hcell; [reflexivity|].
      unfold cols, new_columns.
      destruct (in_cols c (meta_columns ret)) eqn:E.
      * apply in_or_app. left. apply in_cols_In. exact E.
      * apply in_or_app. right. apply filter_In. rewrite E. auto.
  - intros k. unfold meta_index at 1. cbn [meta]. rewrite in_map_iff. split.
    + intros [m' [E Hm']]. apply Hrows in Hm'.
      destruct Hm' as [[m [Hm ->]] | [o [Ho [Hd ->]]]].
      * left. unfold meta_index. apply in_map_iff. exists m. auto.
      * right. cbn [meta_key] in E. subst k. split; [assumption|].
        unfold meta_index. apply in_map. assumption.
    + intros [Hk | [Hd Hk]].
      * unfold meta_index in Hk. apply in_map_iff in Hk.
        destruct Hk as [m [E Hm]]. exists (h m). split; [exact E|].
        apply Hrows. left. eauto.
      * unfold meta_index in Hk. apply in_map_iff in Hk.
        destruct Hk as [o [E Ho]]. subst k. eexists.
        split; [|apply Hrows; right; exists o; eauto]. reflexivity.
Qed.

Lemma new_keys_In (self other : IamDataFrame) (k : Key) :
  In k (new_keys self other)
  <-> In k (meta_index other) /\ ~ In k (meta_index self).
Proof.
  unfold new_keys.
  rewrite sort_by_In, (unique_by_In key_eqb key_eqb_eq), filter_In.
  rewrite negb_true_iff, <- not_true_iff_false,
    (key_in_In k (meta_index self)).
  reflexivity.
Qed.

Section AppendMeta.

Variable U : Utils.

(** The [meta] of the container a completed [append] returns. *)
Lemma append_result_meta (self other : IamDataFrame)
    (ignore_meta_conflict inplace : bool) (ret : IamDataFrame) :
  result_container inplace (append U self other ignore_meta_conflict inplace)
  = Some ret ->
  let X := match shared_keys self other with
           | [] => self
           | _ :: _ => merge_shared self other
           end in
  let R := match new_keys self other with
           | [] => X
           | _ :: _ => join_new X other (new_keys self other)
           end in
  meta ret = meta R /\ meta_columns ret = meta_columns R.
Proof.
  unfold append, result_container.
  destruct (time_col_eqb (time_col self) (time_col other));
    cbn [negb]; [|discriminate].
  fold (shared_keys self other). fold (new_keys self other).
  destruct (shared_keys self other) as [|k0 ks].
  - destruct (new_keys self other) as [|d0 ds];
      match goal with
      | |- context [if ?c then _ else _] => destruct c
      end;
      try (destruct inplace; discriminate);
      match goal with
      | |- context [match ?c with [] => _ | _ :: _ => _ end] => destruct c
      end;
      try (destruct inplace; discriminate);
      destruct inplace; cbn [returned self_after];
      intros H; injection H as <-; split; reflexivity.
  - destruct (negb ignore_meta_conflict && _); [discriminate|].
    destruct (new_keys self other) as [|d0 ds];
      match goal with
      | |- context [if ?c then _ else _] => destruct c
      end;
      try (destruct inplace; discriminate);
      match goal with
      | |- context [match ?c with [] => _ | _ :: _ => _ end] => destruct c
      end;
      try (destruct inplace; discriminate);
      destruct inplace; cbn [returned self_after];
      intros H; injection H as <-; split; reflexivity.
Qed.

(** X12.  How a completed [append] merges [meta].  The scenarios of the
    result are those of [self] and those of [other].  Every row of
    [self.meta] is kept with its entries in the columns of [self.meta],
    and the result has no other row at a scenario of [self]: values of
    [self] are never overwritten, also when conflicts are ignored.  The
    rows at the scenarios that only [other] has are rows of [other.meta],
    with their entries in the columns of [other.meta]. *)
Theorem append_merges_meta (self other : IamDataFrame)
    (ignore_meta_conflict inplace : bool) (ret : IamDataFrame) :
  result_container inplace (append U self other ignore_meta_conflict inplace)
  = Some ret ->
  (forall k, In k (meta_index ret)
             <-> In k (meta_index self) \/ In k (meta_index other))
  /\ meta_kept self ret
  /\ meta_joined self other ret.
Proof.
  intros H. apply append_result_meta in H. cbv zeta in H.
  set (X := match shared_keys self other with
            | [] => self
            | _ :: _ => merge_shared self other
            end) in H.
  set (R := match new_keys self other with
            | [] => X
            | _ :: _ => join_new X other (new_keys self other)
            end) in H.
  destruct H as [Hm Hc].
  assert (HX : meta_kept self X
               /\ forall k, In k (meta_index X) <-> In k (meta_index self)).
  { subst X. destruct (shared_keys self other).
    - split; [apply meta_kept_refl | tauto].
    - apply merge_shared_kept. }
  destruct HX as [HXk HXi].
  assert (Hdec : forall k, In k (meta_index self) \/ ~ In k (meta_index self)).
  { intros k. destruct (key_in k (meta_index self)) eqn:E.
    - left. apply key_in_In. exact E.
    - right. intros Hin. apply key_in_In in Hin. rewrite Hin in E.
      discriminate. }
  assert (HR : (forall k, In k (meta_index R)
                          <-> In k (meta_index self) \/ In k (meta_index other))
               /\ meta_kept self R /\ meta_joined self other R).
  { subst R. destruct (new_keys self other) as [|d0 ds] eqn:Ed.
    - split; [|split].
      + intros k. rewrite HXi. split; [auto|]. intros [Hk | Hk]; [assumption|].
        destruct (Hdec k) as [Hs | Hs]; [assumption|]. exfalso.
        assert (Hn : In k (new_keys self other))
          by (apply new_keys_In; auto).
        rewrite Ed in Hn. destruct Hn.
      + exact HXk.
      + intros m' Hm' Hk. exfalso. apply Hk. apply HXi.
        unfold meta_index. apply in_map. assumption.
    - rewrite <- Ed.
      destruct (join_new_kept X other (new_keys self other))
        as (Hk & Hj & Hi).
      { intros k Hk Hin. apply new_keys_In in Hk. apply (proj2 Hk).
        apply HXi. assumption. }
      split; [|split].
      + intros k. rewrite Hi, HXi, new_keys_In. split.
        * intros [Hs | [[Ho _] _]]; auto.
        * intros [Hs | Ho]; [left; assumption|].
          destruct (Hdec k) as [Hs | Hs]; [left | right]; auto.
      + apply (meta_kept_trans self X); try assumption.
        intros k Hin. apply HXi. assumption.
      + intros m' Hm' Hno. apply Hj; [assumption|].
        intros Hin. apply Hno. apply HXi. assumption. }
  destruct HR as (H1 & H2 & H3).
  assert (Hcell : forall c m, meta_cell ret c m = meta_cell R c m).
  { intros c m. unfold meta_cell. rewrite Hc. reflexivity. }
  split; [|split].
  - intros k. unfold meta_index at 1. rewrite Hm. apply H1.
  - destruct H2 as (Ha & Hb & Hd). split; [|split].
    + intros c Hin. rewrite Hc. auto.
    + intros m Hin. destruct (Hb m Hin) as (m' & Hm' & E & Hcells).
      exists m'. rewrite Hm. split; [assumption|]. split; [assumption|].
      intros c Hcol. rewrite Hcell. auto.
    + intros m' Hin Hk. rewrite Hm in Hin.
      destruct (Hd m' Hin Hk) as (m & Hm' & E & Hcells).
      exists m. split; [assumption|]. split; [assumption|].
      intros c Hcol. rewrite Hcell. auto.
  - intros m' Hin Hk. rewrite Hm in Hin.
    destruct (H3 m' Hin Hk) as (o & Ho & E & Hcells).
    exists o. split; [assumption|]. split; [assumption|].
    intros c Hcol. rewrite Hcell. auto.
Qed.

End AppendMeta.

(** A run of X12: the two containers of three scenarios, whose [meta]
    disagree, appended with the conflict ignored. *)
Lemma append_merges_meta_witness :
  exists ret,
    result_container false
      (append pyam_utils table_three table_three_other true false) = Some ret
    /\ meta_kept table_three ret.
Proof.
  eexists. split; [vm_compute; reflexivity|].
  apply (append_merges_meta pyam_utils table_three table_three_other true
           false).
  vm_compute. reflexivity.
Defined.

(** ** Comparing containers *)

Lemma duplicated_from_false (l seen : list LongIdx) :
  existsb (fun b => b) (duplicated_from idx_eqb seen l) = false ->
  boolean_index l (duplicated_from idx_eqb seen l) = nil.
Proof.
  revert seen. induction l as [|x l IH]; intros seen H; simpl in *;
    [reflexivity|].
  apply orb_false_iff in H. destruct H as [H1 H2]. rewrite H1.
  apply IH. exact H2.
Qed.

Lemma existsb_duplicated_NoDup (l : list LongIdx) :
  existsb (fun b => b) (duplicated idx_eqb l) = false <-> NoDup l.
Proof.
  split.
  - intros H.
    apply (duplicated_none_NoDup idx_eqb idx_eqb_eq l []).
    apply duplicated_from_false. exact H.
  - intros H. apply (duplicated_from_none idx_eqb idx_eqb_eq); [assumption|].
    intros x _ [].
Qed.

Lemma to_series_keys (rows : list Row) :
  map fst (to_series rows) = map long_idx rows.
Proof. unfold to_series. rewrite map_map. reflexivity. Qed.

Lemma series_get_row (rows : list Row) (r : Row) :
  NoDup (map long_idx rows) -> In r rows ->
  series_get (to_series rows) (long_idx r) = Some (value r).
Proof.
  unfold series_get, to_series.
  induction rows as [|x rows IH]; intros Hnd Hr; [destruct Hr|].
  cbn [map List.find fst]. inversion Hnd as [|? ? Hx Hrows]; subst.
  destruct (idx_eqb (long_idx x) (long_idx r)) eqn:E.
  - apply idx_eqb_eq in E. destruct Hr as [-> | Hr]; [reflexivity|].
    exfalso. apply Hx. rewrite E. apply in_map. assumption.
  - destruct Hr as [-> | Hr].
    + rewrite (proj2 (idx_eqb_eq _ _) eq_refl) in E. discriminate.
    + apply IH; assumption.
Qed.

Lemma series_get_some (rows : list Row) (k : LongIdx) :
  In k (map long_idx rows) ->
  exists r, In r rows /\ long_idx r = k.
Proof.
  intros H. apply in_map_iff in H. destruct H as [r [E Hr]]. exists r. auto.
Qed.

Lemma cell_eqb_refl (c : cell) : cell_eqb c c = true.
Proof.
  destruct c; simpl; try reflexivity.
  - apply Bool.eqb_reflx.
  - apply Z.eqb_refl.
  - apply Qeq_bool_iff. reflexivity.
  - apply String.eqb_refl.
  - apply Z.eqb_refl.
Qed.

Lemma list_eqb_refl {A : Type} (eqb : A -> A -> bool) (l : list A) :
  (forall x, eqb x x = true) -> list_eqb eqb l l = true.
Proof.
  intros H. induction l as [|x l IH]; simpl; [reflexivity|].
  rewrite H, IH. reflexivity.
Qed.

(** The [meta] table of a container equals itself. *)
Lemma meta_equals_refl (df : IamDataFrame) : meta_equals df df = true.
Proof.
  unfold meta_equals, frame_equals.
  rewrite (list_eqb_refl String.eqb _ String.eqb_refl).
  apply list_eqb_refl. intros [k cells]. cbn [fst snd].
  rewrite key_eqb_refl. apply list_eqb_refl. apply cell_eqb_refl.
Qed.

(** When [compare] finds no row to report. *)
Lemma compare_empty (self other : IamDataFrame) (kw : isclose_kwargs) :
  equal_nan kw = false ->
  time_col_eqb (time_col self) (time_col other) = true ->
  list_eqb String.eqb (extra_cols self) (extra_cols other) = true ->
  NoDup (map long_idx (data self)) ->
  NoDup (map long_idx (data other)) ->
  exists c,
    compare self other true kw = OK c
    /\ (c = [] <-> same_data kw self other).
Proof.
  intros Hnan Ht He Hs Ho. unfold compare. rewrite Ht, He. cbn [andb negb].
  rewrite (proj2 (existsb_duplicated_NoDup _) Hs).
  rewrite (proj2 (existsb_duplicated_NoDup _) Ho). cbn [orb].
  eexists. split; [reflexivity|].
  set (R := to_series (data other)). set (L := to_series (data self)).
  assert (Hall : List.filter (fun '(_, r, l) => negb (isclose kw l r))
                             (align R L) = []
                 <-> forall k, In k (union_index R L) ->
                       isclose kw (series_get L k) (series_get R k) = true).
  { unfold align. split.
    - intros H k Hk.
      pose proof (filter_nil_all _ _ H (k, series_get R k, series_get L k))
        as Hf.
      cbv beta iota in Hf. apply negb_false_iff. apply Hf.
      apply in_map_iff. exists k. auto.
    - intros H. apply filter_none. intros [[k r] l] Hin.
      apply in_map_iff in Hin. destruct Hin as [k' [E Hk']].
      injection E as -> <- <-. apply negb_false_iff. apply H. assumption. }
  rewrite Hall. clear Hall.
  assert (HgetL : forall r, In r (data self) ->
                    series_get L (long_idx r) = Some (value r))
    by (intros r Hr; apply series_get_row; assumption).
  assert (HgetR : forall r, In r (data other) ->
                    series_get R (long_idx r) = Some (value r))
    by (intros r Hr; apply series_get_row; assumption).
  assert (HnoneL : forall k, ~ In k (map long_idx (data self)) ->
                     series_get L k = None).
  { intros k Hk. apply series_get_None. unfold L. rewrite to_series_keys.
    assumption. }
  assert (HnoneR : forall k, ~ In k (map long_idx (data other)) ->
                     series_get R k = None).
  { intros k Hk. apply series_get_None. unfold R. rewrite to_series_keys.
    assumption. }
  assert (Hunion : forall k, In k (union_index R L) <->
                     In k (map long_idx (data other))
                     \/ In k (map long_idx (data self))).
  { intros k. rewrite union_index_In. unfold R, L.
    rewrite !to_series_keys. reflexivity. }
  assert (HdecL : forall k, In k (map long_idx (data self))
                            \/ ~ In k (map long_idx (data self))).
  { intros k. destruct (existsb (idx_eqb k) (map long_idx (data self))) eqn:E.
    - left. apply existsb_exists in E. destruct E as [x [Hx E]].
      apply idx_eqb_eq in E. subst x. assumption.
    - right. intros Hin.
      assert (E2 : existsb (idx_eqb k) (map long_idx (data self)) = true).
      { apply existsb_exists. exists k. split; [assumption|].
        apply idx_eqb_eq. reflexivity. }
      rewrite E2 in E. discriminate. }
  assert (HdecR : forall k, In k (map long_idx (data other))
                            \/ ~ In k (map long_idx (data other))).
  { intros k. destruct (existsb (idx_eqb k) (map long_idx (data other))) eqn:E.
    - left. apply existsb_exists in E. destruct E as [x [Hx E]].
      apply idx_eqb_eq in E. subst x. assumption.
    - right. intros Hin.
      assert (E2 : existsb (idx_eqb k) (map long_idx (data other)) = true).
      { apply existsb_exists. exists k. split; [assumption|].
        apply idx_eqb_eq. reflexivity. }
      rewrite E2 in E. discriminate. }
  unfold same_data. split.
  - intros H. split.
    + intros k. split; intros Hk.
      * destruct (HdecR k) as [Hr | Hr]; [assumption|]. exfalso.
        specialize (H k (proj2 (Hunion k) (or_intror Hk))).
        rewrite (HnoneR k Hr) in H.
        destruct (series_get_some _ _ Hk) as [r [Hin <-]].
        rewrite (HgetL r Hin) in H. discriminate.
      * destruct (HdecL k) as [Hl | Hl]; [assumption|]. exfalso.
        specialize (H k (proj2 (Hunion k) (or_introl Hk))).
        rewrite (HnoneL k Hl) in H.
        destruct (series_get_some _ _ Hk) as [r [Hin <-]].
        rewrite (HgetR r Hin) in H. cbn [isclose] in H.
        discriminate.
    + intros r r' Hr Hr' E.
      assert (Hk : In (long_idx r) (union_index R L)).
      { apply Hunion. right. apply in_map. assumption. }
      specialize (H _ Hk). rewrite (HgetL r Hr) in H.
      rewrite E, (HgetR r' Hr') in H. cbn [isclose] in H.
      apply Qle_bool_iff. exact H.
  - intros [Hkeys Hval] k Hk.
    assert (HkL : In k (map long_idx (data self))).
    { apply Hunion in Hk. destruct Hk as [Hk | Hk]; [apply Hkeys|]; assumption. }
    assert (HkR : In k (map long_idx (data other))) by (apply Hkeys; assumption).
    destruct (series_get_some _ _ HkL) as [r [Hr E]].
    destruct (series_get_some _ _ HkR) as [r' [Hr' E']].
    rewrite <- E at 1. rewrite (HgetL r Hr).
    rewrite <- E'. rewrite (HgetR r' Hr'). cbn [isclose].
    apply Qle_bool_iff. apply Hval; try assumption. congruence.
Qed.

(** X13.  For two containers with the same index columns in which no
    long index is repeated, [equals] returns [True] exactly when both
    tables hold the same long indexes, the value of [self] is close to
    the value of [other] at each of them
    ([abs(v - v') <= 1e-8 + 1e-5 * abs(v')]) and the [meta] tables are
    equal; it returns [False] otherwise.  The rows are matched by their
    long index, not by their position. *)
Theorem equals_same_data (self other : IamDataFrame) :
  time_col_eqb (time_col self) (time_col other) = true ->
  list_eqb String.eqb (extra_cols self) (extra_cols other) = true ->
  NoDup (map long_idx (data self)) ->
  NoDup (map long_idx (data other)) ->
  exists b,
    equals self other = OK b
    /\ (b = true <->
        same_data isclose_defaults self other
        /\ meta_equals self other = true).
Proof.
  intros Ht He Hs Ho.
  destruct (compare_empty self other isclose_defaults eq_refl Ht He Hs Ho)
    as [c [Hc Hiff]].
  unfold equals. rewrite Hc. cbn [bind]. eexists. split; [reflexivity|].
  destruct c as [|x c].
  - split.
    + intros H. split; [apply Hiff; reflexivity | exact H].
    + intros [_ H]. exact H.
  - split; [discriminate|]. intros [H _]. apply Hiff in H. discriminate.
Qed.

(** X14.  [equals] does not depend on the order of the rows: two
    containers with the same index columns and equal [meta] tables whose
    data are the same rows in any order, no long index repeated, are
    equal.  In particular a container equals itself. *)
Theorem equals_any_order (self other : IamDataFrame) :
  time_col_eqb (time_col self) (time_col other) = true ->
  list_eqb String.eqb (extra_cols self) (extra_cols other) = true ->
  NoDup (map long_idx (data self)) ->
  Permutation (data self) (data other) ->
  meta_equals self other = true ->
  equals self other = OK true.
Proof.
  intros Ht He Hs Hperm Hmeta.
  assert (Ho : NoDup (map long_idx (data other))).
  { eapply Permutation_NoDup; [apply Permutation_map; exact Hperm | exact Hs]. }
  destruct (compare_empty self other isclose_defaults eq_refl Ht He Hs Ho)
    as [c [Hc Hiff]].
  unfold equals. rewrite Hc. cbn [bind].
  assert (Hsame : same_data isclose_defaults self other).
  { split.
    - intros k. split; apply Permutation_in; apply Permutation_map;
        [exact Hperm | apply Permutation_sym; exact Hperm].
    - intros r r' Hr Hr' E.
      assert (Hr2 : In r' (data self))
        by (eapply Permutation_in; [apply Permutation_sym; exact Hperm|];
            assumption).
      assert (Err : r = r').
      { clear - Hs Hr Hr2 E. induction (data self) as [|x l IH];
          [destruct Hr|].
        inversion Hs as [|? ? Hx Hl]; subst.
        destruct Hr as [-> | Hr], Hr2 as [-> | Hr2].
        - reflexivity.
        - exfalso. apply Hx. rewrite E. apply in_map. assumption.
        - exfalso. apply Hx. rewrite <- E. apply in_map. assumption.
        - apply IH; assumption. }
      subst r'.
      assert (Ez : (value r - value r == 0)%Q) by ring.
      rewrite Ez. cbn [Qabs Qnum Z.abs]. cbn [isclose_defaults atol rtol].
      apply Qle_trans with (y := (0 + 0)%Q); [discriminate|].
      apply Qplus_le_compat; [discriminate|].
      apply Qmult_le_0_compat; [discriminate | apply Qabs_nonneg]. }
  apply Hiff in Hsame. subst c. rewrite Hmeta. reflexivity.
Qed.

(** A run of X13: the components table and the table of the gap differ. *)
Lemma equals_same_data_witness :
  equals table_components table_gap = OK false.
Proof.
  destruct (equals_same_data table_components table_gap eq_refl eq_refl)
    as [b [Hb _]].
  - simpl. repeat constructor; simpl; intuition discriminate.
  - simpl. repeat constructor; simpl; intuition discriminate.
  - rewrite Hb. vm_compute in Hb. injection Hb as <-. reflexivity.
Defined.

(** A run of X14: the regions table and the same rows in the other
    order. *)
Lemma equals_any_order_witness :
  equals table_regions table_regions_swapped = OK true.
Proof.
  apply (equals_any_order table_regions table_regions_swapped eq_refl eq_refl).
  - simpl. repeat constructor; simpl; intuition discriminate.
  - apply perm_swap.
  - reflexivity.
Defined.

(** ** Interpolation *)

Lemma long_idx_in_dec (k : LongIdx) (rows : list Row) :
  existsb (fun r => idx_eqb (long_idx r) k) rows = true
  <-> In k (map long_idx rows).
Proof.
  rewrite existsb_exists, in_map_iff. split.
  - intros [r [Hr E]]. apply idx_eqb_eq in E. exists r. auto.
  - intros [r [E Hr]]. exists r. split; [assumption|].
    apply idx_eqb_eq. assumption.
Qed.

Lemma at_time_long_idx (t : Z) (r0 r : Row) :
  at_time t r0 = long_idx r -> at_time t r = long_idx r.
Proof.
  destruct r0, r. unfold at_time, long_idx. simpl. intros H.
  inversion H; subst. reflexivity.
Qed.

Section InterpolationProperties.

Variable fill_series : list (Z * Q) -> Z -> option Q.

(** The rows [interpolate] adds. *)
Lemma interpolate_new (self : IamDataFrame) (t : Z) :
  exists new,
    interpolate fill_series self t = set_data self (data self ++ new)
    /\ NoDup (map long_idx new)
    /\ forall r, In r new <->
         (exists r0, In r0 (data self) /\ at_time t r0 = long_idx r)
         /\ ~ In (long_idx r) (map long_idx (data self))
         /\ fill_series (pivot_row (data self) t (long_idx r)) t
            = Some (value r).
Proof.
  unfold interpolate.
  set (index := sort_by (leb_of idx_compare)
                        (unique_by idx_eqb (map (at_time t) (data self)))).
  set (df := List.filter
               (fun k => negb (existsb (fun r => idx_eqb (long_idx r) k)
                                       (data self)))
               index).
  set (f := fun k => match fill_series (pivot_row (data self) t k) t with
                     | Some v => [row_of_idx k v]
                     | None => []
                     end).
  exists (flat_map f df). split; [reflexivity|].
  assert (Hindex : forall k, In k index <->
                     exists r0, In r0 (data self) /\ at_time t r0 = k).
  { intros k. unfold index.
    rewrite sort_by_In, (unique_by_In idx_eqb idx_eqb_eq), in_map_iff.
    split; intros [r0 [H1 H2]]; exists r0; auto. }
  assert (Hdf : forall k, In k df <->
                  (exists r0, In r0 (data self) /\ at_time t r0 = k)
                  /\ ~ In k (map long_idx (data self))).
  { intros k. unfold df. rewrite filter_In, Hindex, negb_true_iff.
    rewrite <- not_true_iff_false, long_idx_in_dec. reflexivity. }
  assert (Hnd : NoDup df).
  { unfold df. apply NoDup_filter. unfold index.
    eapply Permutation_NoDup;
      [apply Permutation_sym, sort_by_perm
      | apply (unique_by_NoDup idx_eqb idx_eqb_eq)]. }
  assert (Hf : forall k r, In r (f k) <->
                 long_idx r = k
                 /\ fill_series (pivot_row (data self) t k) t
                    = Some (value r)
                 /\ r = row_of_idx k (value r)).
  { intros k r. unfold f.
    destruct (fill_series (pivot_row (data self) t k) t) as [v|].
    - split.
      + intros [<- | []]. rewrite long_idx_row_of_idx, value_row_of_idx.
        auto.
      + intros (_ & E & ->). injection E as ->. left. reflexivity.
    - split; [intros [] | intros (_ & E & _); discriminate]. }
  split.
  - clear Hdf Hindex. induction df as [|k ks IH]; [constructor|].
    inversion Hnd as [|? ? Hk Hks]; subst. cbn [flat_map].
    rewrite map_app. apply NoDup_app.
    + unfold f. destruct (fill_series _ t); repeat constructor.
      intros [].
    + apply IH. assumption.
    + intros x Hx Hx2. apply in_map_iff in Hx. destruct Hx as [r [<- Hr]].
      apply Hf in Hr. destruct Hr as [E _].
      apply in_map_iff in Hx2. destruct Hx2 as [r' [E' Hr']].
      apply in_flat_map in Hr'. destruct Hr' as [k' [Hk' Hr']].
      apply Hf in Hr'. destruct Hr' as [E2 _].
      apply Hk. rewrite <- E, <- E', E2. assumption.
  - intros r. rewrite in_flat_map. split.
    + intros [k [Hk Hr]]. apply Hf in Hr. destruct Hr as (E & Hfill & _).
      subst k. apply Hdf in Hk. destruct Hk as [H1 H2]. auto.
    + intros (H1 & H2 & H3). exists (long_idx r). split.
      * apply Hdf. auto.
      * apply Hf. split; [reflexivity|]. split; [assumption|].
        symmetry. apply row_of_idx_long_idx.
Qed.

(** X15.  [interpolate] only adds rows and never repeats a long index.
    The rows of the table are kept, in order, and the container is
    otherwise unchanged; a row is added at the time of the call for
    exactly the timeseries (long index without the time) that have no
    row at that time and for which [fill_series] gives a value on the
    pivot row of the timeseries, and it holds this value.  The added rows
    have pairwise different long indexes, none of which was in the
    table. *)
Theorem interpolate_adds_rows (self : IamDataFrame) (t : Z) :
  exists new,
    interpolate fill_series self t = set_data self (data self ++ new)
    /\ (forall r, In r new -> time r = t)
    /\ (forall r, In r new <->
          (exists r0, In r0 (data self) /\ at_time t r0 = long_idx r)
          /\ ~ In (long_idx r) (map long_idx (data self))
          /\ fill_series (pivot_row (data self) t (long_idx r)) t
             = Some (value r))
    /\ NoDup (map long_idx new)
    /\ (NoDup (map long_idx (data self)) ->
        NoDup (map long_idx (data self ++ new))).
Proof.
  destruct (interpolate_new self t) as (new & H1 & H2 & H3).
  exists new. split; [assumption|]. split; [|split; [assumption|split]].
  - intros r Hr. apply H3 in Hr. destruct Hr as [[r0 [_ E]] _].
    destruct r, r0. unfold at_time, long_idx in E. simpl in *. congruence.
  - assumption.
  - intros Hnd. rewrite map_app. apply NoDup_app; try assumption.
    intros k Hk Hk2. apply in_map_iff in Hk2. destruct Hk2 as [r [<- Hr]].
    apply H3 in Hr. destruct Hr as (_ & Hno & _). contradiction.
Qed.

Lemma pivot_row_app (rows new : list Row) (t : Z) (k : LongIdx) :
  (forall r, In r new -> at_time t r <> k) ->
  pivot_row (rows ++ new) t k = pivot_row rows t k.
Proof.
  intros H. unfold pivot_row. rewrite filter_app.
  rewrite (filter_none _ new); [rewrite app_nil_r; reflexivity|].
  intros r Hr. destruct (idx_eqb (at_time t r) k) eqn:E; [|reflexivity].
  apply idx_eqb_eq in E. exfalso. apply (H r Hr E).
Qed.

(** X16.  [interpolate] is idempotent: a second call at the same time
    adds nothing, whatever [fill_series] is. *)
Theorem interpolate_idempotent (self : IamDataFrame) (t : Z) :
  interpolate fill_series (interpolate fill_series self t) t
  = interpolate fill_series self t.
Proof.
  destruct (interpolate_new self t) as (new & H1 & _ & H3).
  rewrite H1.
  destruct (interpolate_new (set_data self (data self ++ new)) t)
    as (new2 & H4 & _ & H6).
  rewrite H4. cbn [set_data data time_col extra_cols meta_columns meta].
  cbn [set_data data] in H6.
  assert (Hnil : new2 = []).
  { destruct new2 as [|r rest]; [reflexivity|]. exfalso.
    destruct (proj1 (H6 r) (or_introl eq_refl)) as ([r0 [Hr0 E]] & Hno & Hfill).
    assert (Ht : at_time t r = long_idx r)
      by (apply (at_time_long_idx t r0 r E)).
    assert (Hnot_new : forall x, In x new -> at_time t x <> long_idx r).
    { intros x Hx E2. apply Hno. rewrite map_app. apply in_or_app. right.
      apply in_map_iff. exists x. split; [|assumption].
      apply H3 in Hx. destruct Hx as ([x0 [_ Ex]] & _). rewrite <- E2.
      symmetry. apply (at_time_long_idx t x0 x Ex). }
    rewrite (pivot_row_app _ _ _ _ Hnot_new) in Hfill.
    apply Hno. rewrite map_app. apply in_or_app.
    apply in_app_or in Hr0. destruct Hr0 as [Hr0 | Hr0].
    - right. apply in_map_iff.
      exists (row_of_idx (long_idx r) (value r)).
      split; [apply long_idx_row_of_idx|].
      apply H3. rewrite long_idx_row_of_idx, value_row_of_idx.
      split; [exists r0; auto|]. split; [|assumption].
      intros Hin. apply Hno. rewrite map_app. apply in_or_app. left.
      assumption.
    - exfalso. apply (Hnot_new r0 Hr0). exact E. }
  rewrite Hnil, app_nil_r. reflexivity.
Qed.

End InterpolationProperties.

(** ** Concatenation *)

Section ConcatProperties.

Variable U : Utils.

(** What a completed [append] has checked and built. *)
Lemma append_done (self other : IamDataFrame)
    (ignore_meta_conflict inplace : bool) (ret : IamDataFrame) :
  result_container inplace (append U self other ignore_meta_conflict inplace)
  = Some ret ->
  data ret = sort_data U (data self ++ data other) (_LONG_IDX self)
  /\ NoDup (map long_idx (data self ++ data other)).
Proof.
  unfold append.
  destruct (time_col_eqb (time_col self) (time_col other)) eqn:Ht;
    cbn [negb]; [|discriminate].
  fold (shared_keys self other). fold (new_keys self other).
  assert (Hfin : forall R : IamDataFrame,
            data R = data self -> time_col R = time_col self ->
            extra_cols R = extra_cols self ->
            result_container inplace
              (if negb (list_eqb String.eqb (extra_cols R) (extra_cols other))
               then mkOutcome (if inplace then R else self) []
                      (Raise (Unmodelled "append with other extra columns"))
               else
                 match boolean_index
                         (map long_idx (data R ++ data other))
                         (duplicated idx_eqb
                            (map long_idx (data R ++ data other))) with
                 | [] =>
                     if inplace
                     then mkOutcome
                            (set_data R (sort_data U (data R ++ data other)
                                                   (_LONG_IDX R)))
                            [] (OK None)
                     else mkOutcome self []
                            (OK (Some (set_data R
                                         (sort_data U (data R ++ data other)
                                                    (_LONG_IDX R)))))
                 | _ :: _ =>
                     mkOutcome (if inplace then R else self) []
                       (Raise (DuplicateRowError
                                 (unique_by idx_eqb
                                    (boolean_index
                                       (map long_idx (data R ++ data other))
                                       (duplicated idx_eqb
                                          (map long_idx
                                             (data R ++ data other)))))))
                 end) = Some ret ->
            data ret = sort_data U (data self ++ data other) (_LONG_IDX self)
            /\ NoDup (map long_idx (data self ++ data other))).
  { intros R Hd Htc He. unfold _LONG_IDX, result_container.
    rewrite Hd, Htc, He.
    destruct (negb (list_eqb String.eqb (extra_cols self) (extra_cols other)));
      [destruct inplace; discriminate|].
    destruct (boolean_index (map long_idx (data self ++ data other)) _)
      eqn:E; [|destruct inplace; discriminate].
    apply (duplicated_none_NoDup idx_eqb idx_eqb_eq) in E.
    destruct E as [E _].
    destruct inplace; cbn [returned self_after]; intros H;
      injection H as <-; split; try assumption; reflexivity. }
  destruct (shared_keys self other) as [|k0 ks].
  - destruct (new_keys self other) as [|d0 ds]; apply Hfin; reflexivity.
  - destruct (negb ignore_meta_conflict && _);
      [unfold result_container; discriminate|].
    destruct (new_keys self other) as [|d0 ds]; apply Hfin; reflexivity.
Qed.

Lemma append_inplace_result (self other : IamDataFrame)
    (ignore_meta_conflict : bool) (x : option IamDataFrame) :
  returned (append U self other ignore_meta_conflict true) = OK x ->
  result_container true (append U self other ignore_meta_conflict true)
  = Some (self_after (append U self other ignore_meta_conflict true)).
Proof.
  unfold result_container. intros H. rewrite H.
  destruct x as [r|]; [|reflexivity]. exfalso. revert H. unfold append.
  repeat match goal with
         | |- context [if ?c then _ else _] => destruct c
         | |- context [match ?c with [] => _ | _ :: _ => _ end] => destruct c
         end; cbn [returned]; discriminate.
Qed.

Hypothesis sort_data_perm :
  forall rows cols, Permutation (sort_data U rows cols) rows.

Lemma concat_loop_rows (_df : IamDataFrame) (dfs : list IamDataFrame)
    (ret : IamDataFrame) :
  concat_loop U _df dfs = OK ret ->
  Permutation (data ret) (data _df ++ flat_map data dfs)
  /\ (dfs <> [] -> NoDup (map long_idx (data ret))).
Proof.
  revert _df. induction dfs as [|df rest IH]; intros _df; cbn [concat_loop].
  - intros H. injection H as <-. cbn [flat_map]. rewrite app_nil_r.
    split; [apply Permutation_refl | intros H; contradiction].
  - destruct (returned (append U _df df false true)) as [x|e] eqn:E;
      [|discriminate].
    pose proof (append_inplace_result _ _ _ _ E) as Hr.
    apply append_done in Hr. destruct Hr as [Hd Hnd].
    intros H. destruct (IH _ H) as [Hperm Hnd'].
    assert (Hstep : Permutation
                      (data (self_after (append U _df df false true)))
                      (data _df ++ data df)).
    { rewrite Hd. apply sort_data_perm. }
    split.
    + eapply perm_trans; [exact Hperm|]. cbn [flat_map].
      rewrite app_assoc. apply Permutation_app_tail. exact Hstep.
    + intros _. destruct rest as [|df2 rest'].
      * cbn [concat_loop] in H. injection H as <-.
        eapply Permutation_NoDup;
          [apply Permutation_map, Permutation_sym; exact Hstep | exact Hnd].
      * apply Hnd'. discriminate.
Qed.

(** X17.  When [sort_data] only reorders rows, a completed [concat] of a
    list of containers returns a container that holds exactly the rows
    of all of them (as many times as they occur in the list), and when
    the list has at least two containers no long index occurs twice in
    the result; of an empty list [concat] returns [None]. *)
Theorem concat_holds_all_rows (dfs : list IamDataFrame) :
  match concat U dfs with
  | OK None => dfs = []
  | OK (Some ret) =>
      Permutation (data ret) (flat_map data dfs)
      /\ ((2 <= List.length dfs)%nat -> NoDup (map long_idx (data ret)))
  | Raise _ => True
  end.
Proof.
  destruct dfs as [|df rest]; cbn [concat]; [reflexivity|].
  destruct (concat_loop U df rest) as [ret|e] eqn:E; cbn [bind]; [|exact I].
  destruct (concat_loop_rows df rest ret E) as [Hperm Hnd].
  split; [exact Hperm|]. intros Hlen. apply Hnd.
  destruct rest; [simpl in Hlen; lia | discriminate].
Qed.

End ConcatProperties.

(** A run of X17: the components table and the regions table. *)
Lemma concat_holds_all_rows_witness :
  exists ret,
    concat pyam_utils [table_components; table_regions] = OK (Some ret)
    /\ Permutation (data ret)
                   (data table_components ++ data table_regions ++ [])
    /\ NoDup (map long_idx (data ret)).
Proof.
  pose proof (concat_holds_all_rows pyam_utils
                (fun rows cols => sort_by_perm _ rows)
                [table_components; table_regions]) as H.
  destruct (concat pyam_utils [table_components; table_regions])
    as [[ret|]|e] eqn:E.
  - exists ret. destruct H as [H1 H2]. split; [reflexivity|].
    split; [exact H1|]. apply H2. simpl. lia.
  - vm_compute in E. discriminate.
  - vm_compute in E. discriminate.
Defined.

(** ** Renaming with [append=True] *)

Lemma boolean_index_none_selected {A : Type} (l : list A) (n : nat) :
  boolean_index l (logical_not (repeat true n)) = [].
Proof.
  revert n. induction l as [|x l IH]; intros [|n]; simpl; try reflexivity.
  apply IH.
Qed.

Lemma conflict_rows_all_selected (_data : list Row) (n : nat) :
  conflict_rows _data (repeat true n) = [].
Proof.
  pose proof (conflict_rows_In _data (repeat true n)) as H.
  destruct (conflict_rows _data (repeat true n)) as [|k l]; [reflexivity|].
  exfalso. destruct (proj1 (H k) (or_introl eq_refl)) as [_ Hk].
  rewrite boolean_index_none_selected in Hk. destruct Hk.
Qed.

Section RenameAppend.

Variable U : Utils.

(** On the container [filter] returned, the filter selects every row. *)
Lemma filtered_mask_all (self : IamDataFrame) (F : kwargs)
    (df : IamDataFrame) :
  returned (filter U self (PBool true) false F) = OK (Some df) ->
  _apply_filters U df F
  = OK (bool_array (repeat true (List.length (data df)))).
Proof.
  intros H1.
  destruct (filter_again_loop U self true F df H1)
    as (f' & Hloop & Hall & _ & Hfl).
  assert (Hm : map f' (data df) = repeat true (List.length (data df))).
  { rewrite repeat_true_map. apply map_ext_in. exact Hall. }
  rewrite Hm in Hloop.
  destruct (apply_filters_of_loop U df F _ Hloop) as [E | E];
    [exact E | exfalso; apply (Hfl eq_refl E)].
Qed.

Lemma filter_copy_returned (self : IamDataFrame) (keep : pyval) (F : kwargs) :
  returned (filter U self keep false F) <> OK None.
Proof.
  unfold filter. destruct (negb (isinstance_bool keep)); [discriminate|].
  destruct (_apply_filters U self F) as [[mask|]|e]; [| |discriminate].
  - cbv zeta. destruct (meta_loc _ _); discriminate.
  - destruct (negb (truthy keep)); discriminate.
Qed.

(** X18.  What [rename] with [append=True] returns when it completes: a
    container with the rows of [self] and, beside them, the renamed
    copies of the rows the filter of the mapping selects, merged by sum
    where copies share a long index; no long index of a merged copy is
    one of a row of [self], and the value of [check_duplicates] plays no
    part. *)
Theorem rename_with_append (self : IamDataFrame)
    (mapping : option mapping_t) (inplace check_duplicates : bool)
    (kw : mapping_t) (ret : IamDataFrame) :
  result_container inplace
    (rename U self mapping inplace true check_duplicates kw) = Some ret ->
  exists combined df,
    combine_mapping mapping kw = OK combined
    /\ returned (filter U self (PBool true) false (rename_filters combined))
       = OK (Some df)
    /\ let copies :=
         groupby_sum
           (renamed_rows df combined
                         (repeat true (List.length (data df)))) in
       data ret = sort_data U (data self ++ copies) (_LONG_IDX self)
       /\ NoDup (map long_idx (data self ++ copies)).
Proof.
  unfold rename.
  destruct (combine_mapping mapping kw) as [combined|e] eqn:Hc;
    [|unfold result_container; discriminate].
  destruct (index_and_data self combined);
    [unfold result_container; discriminate|].
  fold (rename_filters combined).
  pose proof (filter_copy_returned self (PBool true)
                (rename_filters combined)) as Hsome.
  destruct (returned (filter U self (PBool true) false
                             (rename_filters combined)))
    as [[df|]|e] eqn:Ef;
    [ | contradiction | unfold result_container; discriminate].
  unfold rename_rows. fold (rename_filters combined).
  rewrite (filtered_mask_all self _ df Ef).
  destruct (rename_loop df _ _ combined (meta df) (data df))
    as [[m _data] err] eqn:Hloop.
  destruct err as [e|]; [unfold result_container; discriminate|].
  apply rename_loop_renamed in Hloop.
  fold (renamed_rows df combined (repeat true (List.length (data df))))
    in Hloop.
  subst _data. rewrite conflict_rows_all_selected. cbn [returned].
  intros H. exists combined, df. split; [reflexivity|].
  split; [exact Ef|]. cbv zeta.
  match type of H with
  | result_container _ (mkOutcome (self_after ?a) _ (returned ?a)) = _ =>
      assert (Ha : result_container inplace a = Some ret) by exact H
  end.
  apply append_done in Ha. exact Ha.
Qed.

End RenameAppend.

(** A run of X18: the two components of [A] copied to the new name
    [A|z]; the copies merge into one row with the value 5. *)
Lemma rename_with_append_witness :
  exists ret,
    result_container false
      (rename pyam_utils table_components None false true true
              [("variable", str_dict [("A|x", "A|z"); ("A|y", "A|z")])])
    = Some ret
    /\ List.length (data ret) = 4%nat
    /\ NoDup (map long_idx (data ret)).
Proof.
  eexists. split; [vm_compute; reflexivity|]. split; [reflexivity|].
  destruct (rename_with_append pyam_utils table_components None false true
              [("variable", str_dict [("A|x", "A|z"); ("A|y", "A|z")])]
              _ eq_refl) as (combined & df & _ & _ & _ & Hnd).
  simpl. repeat constructor; simpl; intuition discriminate.
Defined.

(** ** Meta indicators *)

Lemma nth_set_nth_other (i j : nat) (v : cell) (l : list cell) :
  i <> j -> nth j (set_nth i v l) CNaN = nth j l CNaN.
Proof.
  revert j l. induction i as [|i IH]; intros [|j] [|x l] H; simpl;
    try reflexivity; try contradiction.
  - destruct j; reflexivity.
  - rewrite IH by auto. destruct j; reflexivity.
  - apply IH. auto.
Qed.

Lemma index_of_lt (c : string) (cols : list string) (i : nat) :
  index_of c cols = Some i -> (i < List.length cols)%nat.
Proof.
  revert i. induction cols as [|x cols IH]; intros i; cbn [index_of];
    [discriminate|].
  destruct (x =? c).
  - intros H. injection H as <-. simpl. lia.
  - destruct (index_of c cols) as [j|]; [|discriminate].
    intros H. injection H as <-. specialize (IH j eq_refl). simpl. lia.
Qed.

Lemma index_of_app_other (c n : string) (cols : list string) :
  c <> n -> index_of c (cols ++ [n]) = index_of c cols.
Proof.
  intros H. induction cols as [|x cols IH]; cbn [index_of app].
  - destruct (n =? c) eqn:E; [|reflexivity].
    apply String.eqb_eq in E. subst. contradiction.
  - destruct (x =? c); [reflexivity|]. rewrite IH. reflexivity.
Qed.

Lemma index_of_inj (c n : string) (cols : list string) (i : nat) :
  index_of c cols = Some i -> index_of n cols = Some i -> c = n.
Proof.
  revert i. induction cols as [|x cols IH]; intros i; cbn [index_of];
    [discriminate|].
  destruct (x =? c) eqn:Ec, (x =? n) eqn:En.
  - apply String.eqb_eq in Ec, En. congruence.
  - intros H. injection H as <-.
    destruct (index_of n cols); discriminate.
  - destruct (index_of c cols); [|discriminate].
    intros H H2. injection H2 as <-. discriminate.
  - destruct (index_of c cols) as [a|]; [|discriminate].
    destruct (index_of n cols) as [b|]; [|discriminate].
    intros H H2. injection H as <-. injection H2 as H2.
    apply (IH a); [reflexivity | rewrite H2; reflexivity].
Qed.

Lemma keys_duplicated_NoDup (l : list Key) :
  NoDup l -> existsb (fun b => b) (duplicated key_eqb l) = false.
Proof.
  intros H. apply (duplicated_from_none key_eqb key_eqb_eq); [assumption|].
  intros x _ [].
Qed.

(** X19.  [set_meta] with a series indexed by model and scenario and a
    name that is no column of the data: when the keys of the series are
    all different and are scenarios of [meta], the call sets, at every
    scenario of [meta], the entry of the series if it has one that is
    not NaN, and keeps the entry the scenario had otherwise (NaN in a
    new column), so that NaN in the series never erases a value; the
    data, the index of [meta] and all other columns are unchanged. *)
Theorem set_meta_combines (self : IamDataFrame)
    (meta_series : list (Key * cell)) (series_name : option string)
    (name : string) :
  (name =? "") = false ->
  in_cols name (data_columns self) = false ->
  NoDup (map fst meta_series) ->
  (forall k, In k (map fst meta_series) -> In k (meta_index self)) ->
  NoDup (meta_index self) ->
  meta_rows_fit self ->
  exists self',
    set_meta self meta_series series_name (Some name) = inr self'
    /\ data self' = data self
    /\ meta_index self' = meta_index self
    /\ In name (meta_columns self')
    /\ Forall2
         (fun m m' =>
            meta_key m' = meta_key m
            /\ meta_cell self' name m' = combine_first self meta_series name m
            /\ forall c, c <> name ->
                         meta_cell self' c m' = meta_cell self c m)
         (meta self) (meta self').
Proof.
  intros Hname Hdata Hnd Hsub Hidx Hfit. unfold set_meta.
  rewrite Hname, Hdata, (keys_duplicated_NoDup _ Hnd).
  assert (Hdiff : index_difference (map fst meta_series) (meta_index self)
                  = []).
  { destruct (index_difference _ _) as [|k l] eqn:E; [reflexivity|].
    exfalso.
    assert (Hk : In k (index_difference (map fst meta_series)
                                        (meta_index self)))
      by (rewrite E; left; reflexivity).
    apply index_difference_In in Hk. destruct Hk as [H1 H2]. auto. }
  rewrite Hdiff, (keys_duplicated_NoDup _ Hidx).
  set (ci := match index_of name (meta_columns self) with
             | Some i => (meta_columns self, i)
             | None => (meta_columns self ++ [name],
                        List.length (meta_columns self))
             end).
  assert (Hci : index_of name (fst ci) = Some (snd ci)).
  { subst ci. destruct (index_of name (meta_columns self)) eqn:Ei; simpl;
      [assumption | apply index_of_app_new; assumption]. }
  assert (Hother : forall c, c <> name ->
                     index_of c (fst ci) = index_of c (meta_columns self)).
  { intros c Hc. subst ci. destruct (index_of name (meta_columns self));
      simpl; [reflexivity | apply index_of_app_other; assumption]. }
  assert (Hold : forall m, In m (meta self) ->
                   nth (snd ci) (meta_cells m) CNaN = meta_cell self name m).
  { intros m Hm. unfold meta_cell. subst ci.
    destruct (index_of name (meta_columns self)) eqn:Ei; simpl;
      [reflexivity|].
    apply nth_overflow. apply Hfit. assumption. }
  destruct ci as [cols i]. cbn [fst snd] in *.
  eexists. split; [reflexivity|]. cbn [data meta meta_columns].
  split; [reflexivity|]. split.
  { unfold meta_index. cbn [meta]. rewrite map_map. apply map_ext.
    intros m. destruct (series_at meta_series (meta_key m)) as [v|];
      [destruct (notna v)|]; reflexivity. }
  split.
  { clear - Hci. revert i Hci. induction cols as [|x cols IH]; intros i;
      cbn [index_of]; [discriminate|].
    destruct (x =? name) eqn:E.
    - intros _. left. apply String.eqb_eq. exact E.
    - destruct (index_of name cols) as [j|]; [|discriminate].
      intros _. right. apply (IH j). reflexivity. }
  assert (Hrows : forall l, (forall m, In m l -> In m (meta self)) ->
            Forall2
              (fun m m' =>
                 meta_key m' = meta_key m
                 /\ meta_cell
                      (mkDf (data self) (time_col self) (extra_cols self) cols
                            (map (fun m =>
                                    match series_at meta_series (meta_key m)
                                    with
                                    | Some v =>
                                        if notna v
                                        then mkMeta (meta_key m)
                                               (set_nth i v (meta_cells m))
                                        else m
                                    | None => m
                                    end) (meta self)))
                      name m'
                    = combine_first self meta_series name m
                 /\ forall c, c <> name ->
                      meta_cell
                        (mkDf (data self) (time_col self) (extra_cols self)
                              cols
                              (map (fun m =>
                                      match series_at meta_series (meta_key m)
                                      with
                                      | Some v =>
                                          if notna v
                                          then mkMeta (meta_key m)
                                                 (set_nth i v (meta_cells m))
                                          else m
                                      | None => m
                                      end) (meta self)))
                        c m'
                      = meta_cell self c m)
              l
              (map (fun m =>
                      match series_at meta_series (meta_key m) with
                      | Some v =>
                          if notna v
                          then mkMeta (meta_key m) (set_nth i v (meta_cells m))
                          else m
                      | None => m
                      end) l)).
  { induction l as [|m l IH]; intros Hl; cbn [map]; constructor.
    - unfold combine_first, meta_cell. cbn [meta_columns]. rewrite Hci.
      pose proof (Hold m (Hl m (or_introl eq_refl))) as Ho.
      unfold meta_cell in Ho.
      destruct (series_at meta_series (meta_key m)) as [v|];
        [destruct (notna v)|]; cbn [meta_key meta_cells].
      + split; [reflexivity|]. split; [apply nth_set_nth|].
        intros c Hc. rewrite (Hother c Hc).
        destruct (index_of c (meta_columns self)) as [j|] eqn:Ej;
          [|reflexivity].
        apply nth_set_nth_other. intros E. subst j.
        apply Hc. rewrite <- (Hother c Hc) in Ej.
        apply (index_of_inj c name cols i Ej Hci).
      + split; [reflexivity|]. split; [exact Ho|].
        intros c Hc. rewrite (Hother c Hc). reflexivity.
      + split; [reflexivity|]. split; [exact Ho|].
        intros c Hc. rewrite (Hother c Hc). reflexivity.
    - apply IH. intros x Hx. apply Hl. right. assumption. }
  apply Hrows. auto.
Qed.

(** A run of X19 on the table of three scenarios: a value for the first
    scenario, NaN for the second, nothing for the third. *)
Lemma set_meta_combines_witness :
  exists self',
    set_meta table_three
             [(("M", "S1"), CStr "a"); (("M", "S2"), CNaN)] None (Some "cat")
    = inr self'
    /\ map (meta_cell self' "cat") (meta self') = [CStr "a"; CNaN; CNaN]
    /\ map (meta_cell self' "exclude") (meta self')
       = [CBool true; CBool false; CBool true].
Proof.
  destruct (set_meta_combines table_three
              [(("M", "S1"), CStr "a"); (("M", "S2"), CNaN)] None "cat"
              eq_refl eq_refl) as (self' & H & _).
  - simpl. repeat constructor; simpl; intuition discriminate.
  - simpl. intros k [<- | [<- | []]]; simpl; auto.
  - simpl. repeat constructor; simpl; intuition discriminate.
  - intros m [<- | [<- | [<- | []]]]; simpl; lia.
  - exists self'. split; [exact H|]. vm_compute in H. injection H as <-.
    split; reflexivity.
Defined.
